(** * Real Intent Leads Splitter: a shallow embedding of [app.py]

    The script reads uploaded CSV files, concatenates them, shuffles the
    rows and hands one slice to each team member.  The code of the script
    is embedded below; the routines it calls in numpy, pandas and
    streamlit are embedded from their documented behaviour.  The CSV
    parser, the CSV writer and the UTF-8 codec are parameters of the
    script; [PandasCsv] gives them on a fragment of CSV, for the round
    trip and the examples. *)

From Stdlib Require Import Ascii String.
From Stdlib Require Import List Arith PeanoNat Lia Bool Permutation.
From Stdlib Require Import ZArith DecimalString DecimalZ DecimalPos.
Import ListNotations.

Set Implicit Arguments.

Local Open Scope nat_scope.

(* ------------------------------------------------------------------ *)
(** ** numpy: [array_split] *)

Module Numpy.

(** What [array_split] needs of its argument: [ary.shape[0]] and
    [ary[st:end]]. *)
Class Sliceable (T : Type) := {
  shape0 : T -> nat;
  getslice : T -> nat -> nat -> T
}.

(** Python's [l[st:end]] for non-negative bounds. *)
Definition slice {A : Type} (l : list A) (st en : nat) : list A :=
  firstn (en - st) (skipn st l).

#[export] Instance list_Sliceable (A : Type) : Sliceable (list A) := {
  shape0 := @length A;
  getslice := @slice A
}.

Fixpoint cumsum_from (acc : nat) (l : list nat) : list nat :=
  match l with
  | [] => []
  | x :: t => (acc + x) :: cumsum_from (acc + x) t
  end.

Definition cumsum (l : list nat) : list nat := cumsum_from 0 l.

(** [[0] + extras * [Neach_section+1] + (Nsections-extras) * [Neach_section]] *)
Definition section_sizes (Ntotal Nsections : nat) : list nat :=
  let Neach_section := Ntotal / Nsections in
  let extras := Ntotal mod Nsections in
  [0] ++ repeat (Neach_section + 1) extras
      ++ repeat Neach_section (Nsections - extras).

(** [np.array_split(ary, Nsections)] for an integer [Nsections];
    [None] is the [ValueError] raised when [Nsections <= 0]. *)
Definition array_split {T : Type} `{Sliceable T}
    (ary : T) (Nsections : nat) : option (list T) :=
  let Ntotal := shape0 ary in
  if Nsections =? 0 then None
  else
    let div_points := cumsum (section_sizes Ntotal Nsections) in
    Some (map (fun i => getslice ary (nth i div_points 0)
                                     (nth (i + 1) div_points 0))
              (seq 0 Nsections)).

End Numpy.

(* ------------------------------------------------------------------ *)
(** ** pandas: the part of [DataFrame] the script uses *)

Module Pandas.
Section Frames.

(** The type of the non-missing cell values. *)
Variable value : Type.

(** A cell is a value or [NaN]. *)
Definition cell : Type := option value.
Definition NaN : cell := None.

Record DataFrame : Type := {
  columns : list string;
  rows : list (list cell)
}.

(** [pd.DataFrame()] *)
Definition DataFrame_new : DataFrame := {| columns := []; rows := [] |}.

(** [len(df)] *)
Definition len (df : DataFrame) : nat := length (rows df).

(** [df.empty]: some axis has length 0. *)
Definition empty (df : DataFrame) : bool :=
  (length (columns df) =? 0) || (length (rows df) =? 0).

(** [df[st:end]], a row slice. *)
Definition iloc_slice (df : DataFrame) (st en : nat) : DataFrame :=
  {| columns := columns df; rows := Numpy.slice (rows df) st en |}.

#[export] Instance DataFrame_Sliceable : Numpy.Sliceable DataFrame := {
  shape0 := len;
  getslice := iloc_slice
}.

(** Position of the first occurrence of a label ([Index.get_loc]). *)
Fixpoint get_loc (c : string) (cols : list string) : option nat :=
  match cols with
  | [] => None
  | c' :: t =>
      if String.eqb c c' then Some 0
      else option_map S (get_loc c t)
  end.

(** The record a row stands for: the cell under each label, [NaN] for a
    label the frame does not have. *)
Definition record (cols : list string) (r : list cell) (c : string) : cell :=
  match get_loc c cols with
  | Some i => nth i r NaN
  | None => NaN
  end.

Definition mem (c : string) (l : list string) : bool :=
  existsb (String.eqb c) l.

(** Labels in order of first appearance. *)
Definition unique (l : list string) : list string :=
  fold_left (fun acc c => if mem c acc then acc else acc ++ [c]) l [].

Definition columns_eqb (a b : list string) : bool :=
  if list_eq_dec string_dec a b then true else false.

(** The column index of [pd.concat(objs)] with the default outer join and
    [sort=False]: the common index when all frames have the same one, the
    union in order of first appearance otherwise. *)
Definition combined_columns (objs : list DataFrame) : list string :=
  match objs with
  | [] => []
  | d :: t =>
      if forallb (fun d' => columns_eqb (columns d') (columns d)) t
      then columns d
      else unique (flat_map columns objs)
  end.

(** The cells of a row, each converted by [cast] under its label; a cell
    past the labels is left as it is. *)
Fixpoint cast_cells (cast : string -> cell -> cell) (cols : list string)
    (r : list cell) : list cell :=
  match r with
  | [] => []
  | x :: r' =>
      match cols with
      | c :: cols' => cast c x :: cast_cells cast cols' r'
      | [] => x :: r'
      end
  end.

(** Rows of a frame under a new column index, their cells converted by
    [cast]; the rows of a frame that already has that index keep their
    cells in place. *)
Definition reindex (cast : string -> cell -> cell) (new_cols : list string)
    (df : DataFrame) : list (list cell) :=
  if columns_eqb (columns df) new_cols
  then map (cast_cells cast new_cols) (rows df)
  else map (fun r => map (fun c => cast c (record (columns df) r c)) new_cols)
           (rows df).

(** [pd.concat(objs, ignore_index=True)].  pandas raises on an empty
    list; the script calls it on a non-empty one only.  pandas gives each
    column of the result one dtype, the common type of the column in the
    frames, and converts the cells to it (an integer becomes a
    floating-point number when another frame lacks the column):
    [common_type objs c x] is the cell [x] of column [c] so converted. *)
Definition concat (common_type : list DataFrame -> string -> cell -> cell)
    (objs : list DataFrame) : DataFrame :=
  let cols := combined_columns objs in
  {| columns := cols;
     rows := flat_map (reindex (common_type objs) cols) objs |}.

(** A frame of this model carries no row labels.  The rows of a frame
    that was read, merged or shuffled are labelled 0, 1, ..., and the rows
    of a slice keep their labels: [index_start split_dfs i] is
    [split_dfs[i].index.start], the label of the first row of the [i]-th
    of the slices that such a frame was cut into. *)
Definition index_start (split_dfs : list DataFrame) (i : nat) : nat :=
  list_sum (map len (firstn i split_dfs)).

(** [df.sample(frac=1).reset_index(drop=True)], [perm] being the order
    of the row positions that the random generator drew. *)
Definition sample_all (perm : list nat) (df : DataFrame) : DataFrame :=
  {| columns := columns df;
     rows := map (fun i => nth i (rows df) []) perm |}.

End Frames.

Arguments DataFrame_new {value}.
Arguments NaN {value}.

End Pandas.

(* ------------------------------------------------------------------ *)
(** ** Python: [str] methods and [date.strftime]

    A [str] is a [string] whose characters are the code points below 256;
    [bytes] is a list of bytes. *)

Module Python.

Definition bytes : Type := list Byte.byte.

(** [c.isspace()] on the code points below 256. *)
Definition isspace (c : ascii) : bool :=
  let n := nat_of_ascii c in
  ((9 <=? n) && (n <=? 13)) || ((28 <=? n) && (n <=? 32))
  || (n =? 133) || (n =? 160).

Fixpoint lstrip (s : string) : string :=
  match s with
  | EmptyString => EmptyString
  | String c t => if isspace c then lstrip t else s
  end.

Fixpoint rstrip (s : string) : string :=
  match s with
  | EmptyString => EmptyString
  | String c t =>
      match rstrip t with
      | EmptyString => if isspace c then EmptyString else String c EmptyString
      | t' => String c t'
      end
  end.

(** [s.strip()] *)
Definition strip (s : string) : string := rstrip (lstrip s).

(** [s.split(sep)] for a one-character separator. *)
Fixpoint split (sep : ascii) (s : string) : list string :=
  match s with
  | EmptyString => [EmptyString]
  | String c t =>
      if Ascii.eqb c sep then EmptyString :: split sep t
      else match split sep t with
           | h :: r => String c h :: r
           | [] => [String c EmptyString]
           end
  end.

(** [s.replace(old, new)] for one-character [old] and [new]. *)
Fixpoint replace (old new : ascii) (s : string) : string :=
  match s with
  | EmptyString => EmptyString
  | String c t =>
      String (if Ascii.eqb c old then new else c) (replace old new t)
  end.

(** The truth value of a string or of a list. *)
Definition truthy_str (s : string) : bool :=
  match s with EmptyString => false | _ => true end.

Definition truthy {A : Type} (l : list A) : bool :=
  match l with [] => false | _ => true end.

Record date : Type := { year : nat; month : nat; day : nat }.

Definition digit (n : nat) : ascii := ascii_of_nat (48 + n mod 10).

Definition pad2 (n : nat) : string :=
  String (digit (n / 10)) (String (digit n) EmptyString).

Definition pad4 (n : nat) : string :=
  String (digit (n / 1000)) (String (digit (n / 100)) (pad2 n)).

(** [d.strftime("%Y-%m-%d")]; the years of [date.today()] have four
    digits. *)
Definition strftime_Ymd (d : date) : string :=
  (pad4 (year d) ++ "-" ++ pad2 (month d) ++ "-" ++ pad2 (day d))%string.

End Python.

(* ------------------------------------------------------------------ *)
(** ** The libraries' routines that stay parameters *)

Import Pandas Python.

(** [_PANDAS_ROWS_LARGE] of streamlit's hashing: from this number of rows
    on, a frame is hashed by a sample of its rows. *)
Definition PANDAS_ROWS_LARGE : nat := 50 * 1000.

Class Library : Type := {
  (** what a cell can hold *)
  value : Type;
  value_eq_dec : forall x y : value, {x = y} + {x <> y};
  (** Python exception objects *)
  exn : Type;
  (** [b.decode('utf-8')] *)
  decode_utf8 : bytes -> exn + string;
  (** [s.encode('utf-8')] *)
  encode_utf8 : string -> bytes;
  (** [pd.read_csv(io.StringIO(s))] *)
  read_csv : string -> exn + DataFrame value;
  (** [df.to_csv(index=False)] *)
  to_csv : DataFrame value -> string;
  (** the cell [x] of column [c] of one of the frames [objs], converted
      to the dtype that [pd.concat(objs)] gives the column *)
  astype_common : list (DataFrame value) -> string -> cell value
                  -> cell value;
  (** a frame merged alone keeps its dtypes *)
  astype_common_one : forall df c x, astype_common [df] c x = x;
  (** a missing value stays missing under every dtype *)
  astype_common_NaN : forall objs c, astype_common objs c NaN = NaN;
  (** the keys under which [st.cache_data] stores results *)
  cache_key : Type;
  cache_key_eq_dec : forall x y : cache_key, {x = y} + {x <> y};
  (** the key of a frame whose rows are labelled [start], [start + 1],
      ...: a hash of its shape, its dtypes, and the labels and values of
      its rows, of a sample of 10000 of them when it has 50000 rows or
      more *)
  hash_frame : nat -> DataFrame value -> cache_key;
  (** the labels of a frame with a row show in its key *)
  hash_frame_labels : forall start df start' df',
    0 < len df -> hash_frame start df = hash_frame start' df' ->
    start = start';
  (** and so does, for a frame of fewer than 50000 rows, everything that
      [to_csv] writes of it *)
  hash_frame_values : forall start df start' df',
    len df < PANDAS_ROWS_LARGE ->
    hash_frame start df = hash_frame start' df' ->
    to_csv df = to_csv df'
}.

(* ------------------------------------------------------------------ *)
(** ** streamlit: the page, the widget keys and [st.cache_data] *)

Module Streamlit.
Section WithLibrary.

Context {L : Library}.

(** A file of [st.file_uploader]. *)
Record UploadedFile : Type := {
  name : string;
  getvalue : bytes
}.

(** The calls of the script that put something on the page, each with
    the values its text is formatted from; the fixed title, headers,
    hints, dividers and caption are left out, and the two calls that show
    the names are one element. *)
Inductive element : Type :=
| write_names (names : list string)
| error_at_least_2_names
| error_max_10_files
| success_files_selected (n : nat) (filenames : list string)
| info_processing
| warning_file_empty (file : string)
| error_reading_file (file : string) (e : exn)
| error_no_valid_data
| success_combined (total_leads n_files : nat)
| warning_fewer_leads (total_leads num_people : nat)
| write_splitting (num_people : nat) (names : list string)
| subheader_download
| download_button (col : nat) (who : string) (n_leads : nat)
                  (data : bytes) (file_name : string) (key : string)
| write_no_leads (col : nat) (who : string)
| write_no_split (col : nat) (who : string)
| warning_could_not_proceed
| button_process_leads
| error_enter_names
| error_upload_file
| error_too_many_files.

Inductive exception : Type :=
| ValueError_sections
| DuplicateWidgetID (key : string).

(** One run of the script against the server: what is on the page so far,
    the keys of the widgets of this run, and the entries of
    [st.cache_data], which outlive the run. *)
Record session : Type := {
  page : list element;
  widget_keys : list string;
  cache_data : list (cache_key * bytes)
}.

Inductive result (A : Type) : Type :=
| Ok (a : A)
| Raise (e : exception).

Definition M (A : Type) : Type := session -> result A * session.

Definition ret {A : Type} (a : A) : M A := fun s => (Ok a, s).

Definition bind {A B : Type} (m : M A) (k : A -> M B) : M B :=
  fun s =>
    match m s with
    | (Ok a, s') => k a s'
    | (Raise _ e, s') => (Raise B e, s')
    end.

Definition raise {A : Type} (e : exception) : M A := fun s => (Raise A e, s).

(** Any call that only adds to the page. *)
Definition st (e : element) : M unit :=
  fun s => (Ok tt, {| page := page s ++ [e];
                      widget_keys := widget_keys s;
                      cache_data := cache_data s |}).

(** [st.download_button(..., key=key)]: a key already used in this run
    is refused. *)
Definition st_download_button (col : nat) (who : string) (n_leads : nat)
    (data : bytes) (file_name : string) (key : string) : M unit :=
  fun s =>
    if in_dec string_dec key (widget_keys s)
    then (Raise unit (DuplicateWidgetID key), s)
    else (Ok tt, {| page := page s ++ [download_button col who n_leads
                                                       data file_name key];
                    widget_keys := widget_keys s ++ [key];
                    cache_data := cache_data s |}).

Fixpoint cache_lookup (key : cache_key) (c : list (cache_key * bytes))
    : option bytes :=
  match c with
  | [] => None
  | (k, v) :: t => if cache_key_eq_dec k key then Some v else cache_lookup key t
  end.

(** [@st.cache_data] around a function of one frame, called on the frame
    [df] whose first row is labelled [start]: the result stored under the
    key of the frame is returned, whatever frame it was stored for; the
    function is run when nothing is stored under the key, and its result
    is stored. *)
Definition cache_data_call (f : DataFrame value -> bytes) (start : nat)
    (df : DataFrame value) : M bytes :=
  fun s =>
    let key := hash_frame start df in
    match cache_lookup key (cache_data s) with
    | Some v => (Ok v, s)
    | None =>
        let v := f df in
        (Ok v, {| page := page s;
                  widget_keys := widget_keys s;
                  cache_data := (key, v) :: cache_data s |})
    end.

End WithLibrary.

Arguments Ok {A} a.
Arguments Raise {A} e.

Module Notations.
Notation "x <- m ;; k" := (bind m (fun x => k))
  (at level 61, m at next level, right associativity).
Notation "m ;; k" := (bind m (fun _ => k))
  (at level 61, right associativity).
End Notations.

End Streamlit.

(* ------------------------------------------------------------------ *)
(** ** The script *)

Module App.
Section WithLibrary.

Context {L : Library}.
Import Streamlit Streamlit.Notations.

Local Open Scope string_scope.
Local Open Scope list_scope.
Local Open Scope nat_scope.

(** The two statements of the [try] block that can raise. *)
Definition read_uploaded_file (uploaded_file : UploadedFile)
    : exn + DataFrame value :=
  match decode_utf8 (getvalue uploaded_file) with
  | inl e => inl e
  | inr s => read_csv s
  end.

(** The [for] loop of [process_uploaded_files], with its two lists. *)
Fixpoint read_files (uploaded_files : list UploadedFile)
    (all_dfs : list (DataFrame value)) (error_files : list string)
    : M (list (DataFrame value) * list string) :=
  match uploaded_files with
  | [] => ret (all_dfs, error_files)
  | uploaded_file :: rest =>
      match read_uploaded_file uploaded_file with
      | inr df =>
          if negb (empty df) then
            read_files rest (all_dfs ++ [df]) error_files
          else
            st (warning_file_empty (name uploaded_file)) ;;
            read_files rest all_dfs error_files
      | inl e =>
          st (error_reading_file (name uploaded_file) e) ;;
          read_files rest all_dfs (error_files ++ [name uploaded_file])
      end
  end.

Definition process_uploaded_files (uploaded_files : list UploadedFile)
    : M (DataFrame value) :=
  if negb (truthy uploaded_files) then ret DataFrame_new
  else
    r <- read_files uploaded_files [] [] ;;
    let all_dfs := fst r in
    if negb (truthy all_dfs) then
      st error_no_valid_data ;;
      ret DataFrame_new
    else
      ret (concat astype_common all_dfs).

Definition convert_df (df_to_convert : DataFrame value) : bytes :=
  encode_utf8 (to_csv df_to_convert).

(** [generate_csv_download(df, filename)]; [start] is [df.index.start],
    which the frame of the model does not carry and the cache reads. *)
Definition generate_csv_download (start : nat) (df : DataFrame value)
    (filename : string) : M (bytes * string) :=
  csv_data <- cache_data_call convert_df start df ;;
  ret (csv_data, filename).

(** Section 1 of the page: the names, one per line. *)
Definition enter_names (names_input : string) : M (list string) :=
  let names :=
    map strip
        (filter (fun name => truthy_str (strip name))
                (split "010"%char names_input)) in
  if truthy names then
    st (write_names names) ;;
    if length names <? 2 then
      st error_at_least_2_names ;;
      ret []
    else ret names
  else ret names.

(** Section 2 of the page: the count of the uploaded files. *)
Definition check_uploads (uploaded_files : list UploadedFile) : M bool :=
  if truthy uploaded_files then
    if 10 <? length uploaded_files then
      st error_max_10_files ;;
      ret false
    else
      st (success_files_selected (length uploaded_files)
                                 (map name uploaded_files)) ;;
      ret true
  else ret false.

Definition make_filename (today_str who : string) : string :=
  ("leads_" ++ today_str ++ "_" ++ replace " "%char "_"%char who
   ++ ".csv")%string.

(** The body of [for i, name in enumerate(names)]. *)
Definition for_name (split_dfs : list (DataFrame value)) (n_cols : nat)
    (today_str : string) (i : nat) (who : string) : M unit :=
  if i <? length split_dfs then
    let person_df := nth i split_dfs DataFrame_new in
    if negb (empty person_df) then
      let filename := make_filename today_str who in
      r <- generate_csv_download (index_start split_dfs i) person_df
                                 filename ;;
      let col_index := i mod n_cols in
      st_download_button col_index who (len person_df)
                         (fst r) (snd r) ("download_" ++ who)%string
    else
      let col_index := i mod n_cols in
      st (write_no_leads col_index who)
  else
    let col_index := i mod n_cols in
    st (write_no_split col_index who).

Fixpoint for_names (split_dfs : list (DataFrame value)) (n_cols : nat)
    (today_str : string) (i : nat) (names : list string) : M unit :=
  match names with
  | [] => ret tt
  | who :: rest =>
      for_name split_dfs n_cols today_str i who ;;
      for_names split_dfs n_cols today_str (S i) rest
  end.

(** The splitting logic, from the shuffled frame on. *)
Definition split_and_offer (shuffled_df : DataFrame value)
    (names : list string) (today : date) : M unit :=
  let num_people := length names in
  match Numpy.array_split shuffled_df num_people with
  | None => raise ValueError_sections
  | Some split_dfs =>
      st subheader_download ;;
      let n_cols := min num_people 4 in
      let today_str := strftime_Ymd today in
      for_names split_dfs n_cols today_str 0 names
  end.

(** Section 3 of the page.  [rng n] is the order in which the random
    generator draws the [n] row positions, [clicked] the state of the
    "Process Leads" button, [today] the value of [date.today()]. *)
Definition process_and_split (names : list string)
    (uploaded_files : list UploadedFile) (valid_upload_count : bool)
    (clicked : bool) (rng : nat -> list nat) (today : date) : M unit :=
  if truthy names && truthy uploaded_files && valid_upload_count then
    st info_processing ;;
    combined_leads_df <- process_uploaded_files uploaded_files ;;
    if negb (empty combined_leads_df) then
      let total_leads := len combined_leads_df in
      let num_people := length names in
      st (success_combined total_leads (length uploaded_files)) ;;
      (if total_leads <? num_people
       then st (warning_fewer_leads total_leads num_people)
       else ret tt) ;;
      st (write_splitting num_people names) ;;
      let shuffled_df :=
        sample_all (rng total_leads) combined_leads_df in
      split_and_offer shuffled_df names today
    else
      st warning_could_not_proceed
  else
    st button_process_leads ;;
    if clicked then
      (if negb (truthy names) then st error_enter_names else ret tt) ;;
      if negb (truthy uploaded_files) then st error_upload_file
      else if negb valid_upload_count then st error_too_many_files
      else ret tt
    else ret tt.

(** One run of the script. *)
Definition app (names_input : string) (uploaded_files : list UploadedFile)
    (clicked : bool) (rng : nat -> list nat) (today : date) : M unit :=
  names <- enter_names names_input ;;
  valid_upload_count <- check_uploads uploaded_files ;;
  process_and_split names uploaded_files valid_upload_count clicked rng today.

(** A run starts with an empty page and no widget key. *)
Definition new_run (cache : list (cache_key * bytes)) : session :=
  {| page := []; widget_keys := []; cache_data := cache |}.

End WithLibrary.
End App.

(* ------------------------------------------------------------------ *)
(** ** pandas' CSV reader and writer and the UTF-8 codec, on a fragment

    The cells are integers and text.  The writer is [to_csv] with its
    defaults and line feeds between the lines.  The reader and the decoder
    answer [NotModelled], which is no Python exception, wherever the
    fragment ends: quoted fields, fields that are floating-point numbers,
    booleans or words for a missing value, repeated or generated labels,
    rows that are not as long as the header, integers outside 64 bits,
    code points from 256 on.  On everything else they give what pandas and
    Python give. *)

Module PandasCsv.

(** An integer, text, or the floating-point number of an integral value
    that an integer becomes in a column of floating-point numbers. *)
Inductive scalar : Type :=
| Int (z : Z)
| Str (s : string)
| Float (z : Z).

Definition scalar_eq_dec (x y : scalar) : {x = y} + {x <> y}.
Proof.
  decide equality; [apply Z.eq_dec|apply string_dec|apply Z.eq_dec].
Defined.

Inductive error : Type :=
| UnicodeDecodeError
| EmptyDataError
| NotModelled.

Definition code (x : Byte.byte) : nat := nat_of_ascii (ascii_of_byte x).

Definition byte_of_code (n : nat) : Byte.byte :=
  byte_of_ascii (ascii_of_nat n).

(** One or two bytes for a code point below 256. *)
Definition encode_char (c : ascii) : bytes :=
  let n := nat_of_ascii c in
  if n <? 128 then [byte_of_ascii c]
  else [byte_of_code (192 + n / 64); byte_of_code (128 + n mod 64)].

Fixpoint encode (s : string) : bytes :=
  match s with
  | EmptyString => []
  | String c t => encode_char c ++ encode t
  end.

Definition cons_char (c : ascii) (r : error + string) : error + string :=
  match r with
  | inl e => inl e
  | inr s => inr (String c s)
  end.

(** Bytes below 128 stand for themselves, 194 and 195 lead a two-byte
    sequence for the code points 128 to 255; a continuation byte out of
    place, the leads 192 and 193 and the bytes from 248 on are errors. *)
Fixpoint decode (b : bytes) : error + string :=
  match b with
  | [] => inr EmptyString
  | x :: t =>
      let n := code x in
      if n <? 128 then cons_char (ascii_of_byte x) (decode t)
      else if (n =? 194) || (n =? 195) then
        match t with
        | y :: t' =>
            let m := code y in
            if (128 <=? m) && (m <? 192)
            then cons_char (ascii_of_nat ((n - 192) * 64 + (m - 128)))
                           (decode t')
            else inl UnicodeDecodeError
        | [] => inl UnicodeDecodeError
        end
      else if (n <? 194) || (248 <=? n) then inl UnicodeDecodeError
      else inl NotModelled
  end.

Definition comma : ascii := ","%char.
Definition dquote : ascii := "034"%char.
Definition cr : ascii := "013"%char.
Definition lf : ascii := "010"%char.

(** The characters for which the writer quotes a field: the delimiter,
    the quote and the line terminator. *)
Definition special (c : ascii) : bool :=
  Ascii.eqb c comma || Ascii.eqb c dquote || Ascii.eqb c lf.

Definition needs_quotes (s : string) : bool :=
  existsb special (list_ascii_of_string s).

Fixpoint double_quotes (s : string) : string :=
  match s with
  | EmptyString => EmptyString
  | String c t =>
      if Ascii.eqb c dquote
      then String dquote (String dquote (double_quotes t))
      else String c (double_quotes t)
  end.

Definition csv_field (s : string) : string :=
  if needs_quotes s
  then String dquote (double_quotes s ++ String dquote EmptyString)
  else s.

Definition join (sep : ascii) (l : list string) : string :=
  String.concat (String sep EmptyString) l.

(** One line; a line that would be blank is written as a quoted empty
    field. *)
Definition csv_line (fields : list string) : string :=
  (match fields with
   | [EmptyString] => String dquote (String dquote EmptyString)
   | _ => join comma (map csv_field fields)
   end ++ String lf EmptyString)%string.

Definition print_int (z : Z) : string := NilZero.string_of_int (Z.to_int z).

(** The text of a cell; a floating-point number of an integral value is
    written with one decimal, which is how Python writes it below
    [10 ^ 16]. *)
Definition render (c : cell scalar) : string :=
  match c with
  | None => EmptyString
  | Some (Int z) => print_int z
  | Some (Str s) => s
  | Some (Float z) => (print_int z ++ ".0")%string
  end.

(** [df.to_csv(index=False)], for a frame with a column at least; the
    script converts no other. *)
Definition write (df : DataFrame scalar) : string :=
  String.concat EmptyString
    (map csv_line (columns df :: map (map render) (rows df))).

(** Where the reader is in a line. *)
Inductive state : Type :=
| FieldStart
| InField
| InQuoted
| AfterQuote.

Definition snoc (s : string) (c : ascii) : string :=
  (s ++ String c EmptyString)%string.

(** The rows of fields of a text. *)
Fixpoint scan (s : string) (st : state) (cur : string) (row : list string)
    : option (list (list string)) :=
  match s with
  | EmptyString =>
      match st with
      | InQuoted => None
      | FieldStart =>
          match row with
          | [] => Some []
          | _ => Some [row ++ [cur]]
          end
      | _ => Some [row ++ [cur]]
      end
  | String c t =>
      match st with
      | FieldStart =>
          if Ascii.eqb c dquote then scan t InQuoted EmptyString row
          else if Ascii.eqb c comma
          then scan t FieldStart EmptyString (row ++ [EmptyString])
          else if Ascii.eqb c lf then
            match row with
            | [] => scan t FieldStart EmptyString []
            | _ => option_map (cons (row ++ [EmptyString]))
                              (scan t FieldStart EmptyString [])
            end
          else if Ascii.eqb c cr then None
          else scan t InField (String c EmptyString) row
      | InField =>
          if Ascii.eqb c dquote then None
          else if Ascii.eqb c comma
          then scan t FieldStart EmptyString (row ++ [cur])
          else if Ascii.eqb c lf
          then option_map (cons (row ++ [cur]))
                          (scan t FieldStart EmptyString [])
          else if Ascii.eqb c cr then None
          else scan t InField (snoc cur c) row
      | InQuoted =>
          if Ascii.eqb c dquote then scan t AfterQuote cur row
          else scan t InQuoted (snoc cur c) row
      | AfterQuote =>
          if Ascii.eqb c dquote then scan t InQuoted (snoc cur dquote) row
          else if Ascii.eqb c comma
          then scan t FieldStart EmptyString (row ++ [cur])
          else if Ascii.eqb c lf
          then option_map (cons (row ++ [cur]))
                          (scan t FieldStart EmptyString [])
          else None
      end
  end.

Definition lower_char (c : ascii) : ascii :=
  let n := nat_of_ascii c in
  if (65 <=? n) && (n <=? 90) then ascii_of_nat (n + 32) else c.

Fixpoint lower (s : string) : string :=
  match s with
  | EmptyString => EmptyString
  | String c t => String (lower_char c) (lower t)
  end.

Definition is_digit (c : ascii) : bool :=
  let n := nat_of_ascii c in (48 <=? n) && (n <=? 57).

(** The characters that numbers are written with, white space around
    them included. *)
Definition number_char (c : ascii) : bool :=
  is_digit c || isspace c
  || existsb (Ascii.eqb c) ["+"; "-"; "."; "e"; "E"; "_"; "j"; "J"]%char.

Definition unsigned (s : string) : string :=
  match s with
  | String c t =>
      if Ascii.eqb c "+"%char || Ascii.eqb c "-"%char then t else s
  | EmptyString => s
  end.

(** A field without the white space around it and its sign, in lower
    case. *)
Definition core (s : string) : string := lower (unsigned (strip s)).

(** The words that, in some spelling, the reader takes for a missing
    value, a floating-point number or a boolean. *)
Definition reserved : list string :=
  ["na"; "n/a"; "nan"; "null"; "none"; "<na>"; "#n/a"; "#n/a n/a"; "#na";
   "1.#ind"; "1.#qnan"; "1.#inf"; "inf"; "infinity"; "true";
   "false"]%string.

Definition clean (c : ascii) : bool :=
  negb (Ascii.eqb c cr) && negb (Ascii.eqb c zero).

(** Text that the reader keeps as text wherever it stands: it has a
    character that no number is written with, is no reserved word, and
    has no carriage return and no null character. *)
Definition sure_text (s : string) : bool :=
  existsb (fun c => negb (number_char c)) (list_ascii_of_string s)
  && forallb clean (list_ascii_of_string s)
  && negb (existsb (String.eqb (core s)) reserved).

(** A label that the reader keeps: not blank, with no carriage return and
    no null character. *)
Definition label_ok (s : string) : bool :=
  existsb (fun c => negb (isspace c)) (list_ascii_of_string s)
  && forallb clean (list_ascii_of_string s).

Inductive literal : Type :=
| Empty
| IntLit (z : Z)
| Text
| Other.

Definition int64 (z : Z) : bool :=
  ((- 2 ^ 63 <=? z) && (z <? 2 ^ 63))%Z.

(** What a field is read as: an optional minus sign and digits are an
    integer. *)
Definition classify (s : string) : literal :=
  match s with
  | EmptyString => Empty
  | _ =>
      match NilZero.int_of_string s with
      | Some d => if int64 (Z.of_int d) then IntLit (Z.of_int d) else Other
      | None => if sure_text s then Text else Other
      end
  end.

Definition is_text (s : string) : bool :=
  match classify s with Text => true | _ => false end.

Definition is_int (s : string) : bool :=
  match classify s with IntLit _ => true | _ => false end.

Definition is_empty (s : string) : bool :=
  match classify s with Empty => true | _ => false end.

Definition covered (s : string) : bool :=
  match classify s with Other => false | _ => true end.

Inductive dtype : Type :=
| AsInt
| AsText
| Unsupported.

(** Whether the reader takes the rows in one piece; it types the columns
    of a longer file piece by piece. *)
Definition small (n_rows n_cols : nat) : bool :=
  (N.of_nat (S n_rows) * N.of_nat n_cols <=? 262144)%N.

(** The type of a column, from its fields: text when a field is text
    (in a file read piece by piece, when no field is an integer besides),
    integers when all are integers, all missing when all are empty;
    integers with missing values would be floating-point numbers. *)
Definition infer (one_piece : bool) (fields : list string) : dtype :=
  if existsb is_text fields then
    if one_piece || negb (existsb is_int fields) then AsText else Unsupported
  else if forallb is_int fields then AsInt
  else if forallb is_empty fields then AsText
  else Unsupported.

Definition supported (t : dtype) : bool :=
  match t with Unsupported => false | _ => true end.

Definition typed (t : dtype) (s : string) : cell scalar :=
  match t with
  | AsInt =>
      match classify s with
      | IntLit z => Some (Int z)
      | _ => NaN
      end
  | _ =>
      match s with
      | EmptyString => NaN
      | _ => Some (Str s)
      end
  end.

Fixpoint distinct (l : list string) : bool :=
  match l with
  | [] => true
  | x :: t => negb (mem x t) && distinct t
  end.

(** [pd.read_csv(io.StringIO(s))] *)
Definition read (s : string) : error + DataFrame scalar :=
  match scan s FieldStart EmptyString [] with
  | None => inl NotModelled
  | Some [] => inl EmptyDataError
  | Some (labels :: rs) =>
      let dtypes :=
        map (fun j => infer (small (length rs) (length labels))
                            (map (fun r => nth j r EmptyString) rs))
            (seq 0 (length labels)) in
      if forallb label_ok labels && distinct labels
         && forallb (fun r => (length r =? length labels)
                              && forallb covered r) rs
         && forallb supported dtypes
      then inr {| columns := labels;
                  rows := map (fun r => map (fun p => typed (fst p) (snd p))
                                            (combine dtypes r)) rs |}
      else inl NotModelled
  end.


(** The dtype of a column of a frame, from its cells: [object] when a
    cell is text, [int64] when all are integers, [float64] otherwise. *)
Inductive column_type : Type :=
| Absent
| Int64
| Float64
| Object.

Definition is_str (x : cell scalar) : bool :=
  match x with Some (Str _) => true | _ => false end.

Definition is_integer (x : cell scalar) : bool :=
  match x with Some (Int _) => true | _ => false end.

Definition column_type_of (c : string) (df : DataFrame scalar)
    : column_type :=
  match get_loc c (columns df) with
  | None => Absent
  | Some j =>
      let cells := map (fun r => nth j r NaN) (rows df) in
      if existsb is_str cells then Object
      else if forallb is_integer cells then Int64
      else Float64
  end.

(** The dtype [pd.concat] gives a column: [object] when it is [object] in
    a frame, [int64] when it is [int64] in every frame, [float64]
    otherwise, as when a frame lacks the column. *)
Definition common_type (c : string) (objs : list (DataFrame scalar))
    : column_type :=
  let ts := map (column_type_of c) objs in
  if existsb (fun t => match t with Object => true | _ => false end) ts
  then Object
  else if forallb (fun t => match t with Int64 => true | _ => false end) ts
  then Int64
  else Float64.

(** [float(z)]: the nearest number of 53 significant bits, the even one
    of two that are as near. *)
Definition to_float (z : Z) : Z :=
  let a := Z.abs z in
  let k := (Z.log2 a - 52)%Z in
  if (k <=? 0)%Z then z
  else
    let q := Z.shiftr a k in
    let r := (a - Z.shiftl q k)%Z in
    let half := Z.shiftl 1 (k - 1) in
    let q' := if (half <? r)%Z || ((r =? half)%Z && Z.odd q)
              then (q + 1)%Z else q in
    (Z.sgn z * Z.shiftl q' k)%Z.

(** A cell in the dtype of its column after [pd.concat(objs)]. *)
Definition to_common_type (objs : list (DataFrame scalar)) (c : string)
    (x : cell scalar) : cell scalar :=
  match objs with
  | [_] => x
  | _ =>
      match common_type c objs, x with
      | Float64, Some (Int z) => Some (Float (to_float z))
      | _, _ => x
      end
  end.

Definition to_common_type_one (df : DataFrame scalar) (c : string)
    (x : cell scalar) :
  to_common_type [df] c x = x := eq_refl.

Definition to_common_type_NaN (objs : list (DataFrame scalar)) (c : string) :
  to_common_type objs c NaN = NaN.
Proof.
  unfold to_common_type. destruct objs as [|d [|d' t]]; try reflexivity;
    now destruct (common_type c _).
Defined.

Definition frame_eq_dec (a b : DataFrame scalar) : {a = b} + {a <> b}.
Proof.
  decide equality.
  - apply (list_eq_dec (list_eq_dec (fun x y : cell scalar =>
      ltac:(unfold cell in *; decide equality; apply scalar_eq_dec)))).
  - apply (list_eq_dec string_dec).
Defined.

(** The key of a frame in the cache of the examples: the frame and the
    label of its first row, in place of their hash.  The frames of the
    examples have a few rows. *)
Definition key_of (start : nat) (df : DataFrame scalar)
    : nat * DataFrame scalar :=
  (start, df).

Definition key_eq_dec (x y : nat * DataFrame scalar) : {x = y} + {x <> y}.
Proof. decide equality; [apply frame_eq_dec|apply Nat.eq_dec]. Defined.

Definition key_of_labels (start : nat) (df : DataFrame scalar)
    (start' : nat) (df' : DataFrame scalar) :
  0 < len df -> key_of start df = key_of start' df' -> start = start'.
Proof. intros _ H. exact (f_equal fst H). Defined.

Definition key_of_values (start : nat) (df : DataFrame scalar)
    (start' : nat) (df' : DataFrame scalar) :
  len df < PANDAS_ROWS_LARGE -> key_of start df = key_of start' df' ->
  write df = write df'.
Proof. intros _ H. exact (f_equal (fun k => write (snd k)) H). Defined.

Definition library : Library := {|
  value := scalar;
  value_eq_dec := scalar_eq_dec;
  exn := error;
  decode_utf8 := decode;
  encode_utf8 := encode;
  read_csv := read;
  to_csv := write;
  astype_common := to_common_type;
  astype_common_one := to_common_type_one;
  astype_common_NaN := to_common_type_NaN;
  cache_key := nat * DataFrame scalar;
  cache_key_eq_dec := key_eq_dec;
  hash_frame := key_of;
  hash_frame_labels := key_of_labels;
  hash_frame_values := key_of_values
|}.









(** The string has no character [c]. *)
Definition free (c : ascii) (s : string) : Prop :=
  ~ In c (list_ascii_of_string s).


Definition nl : string := String lf EmptyString.
Definition tab : string := String "009"%char EmptyString.

Definition file (file_name contents : string) : Streamlit.UploadedFile :=
  {| Streamlit.name := file_name;
     Streamlit.getvalue := encode contents |}.

(** A frame of [n] leads under one column. *)
Definition leads (n : nat) : DataFrame scalar :=
  {| columns := ["lead"%string];
     rows := map (fun i => [Some (Int (Z.of_nat i))]) (seq 0 n) |}.

(** The generator that happens to draw the rows in their order. *)
Definition in_order (n : nat) : list nat := seq 0 n.

(** And the one that draws them backwards. *)
Definition backwards (n : nat) : list nat := rev (seq 0 n).

Definition a_day : date := {| year := 2026; month := 11; day := 3 |}.

Definition five : list string :=
  ["Ann"; "Bob"; "Cy"; "Di"; "Ed"]%string.

(** Two equal leads under a header, a header alone, and a byte that no
    UTF-8 text contains. *)
Definition two_leads : Streamlit.UploadedFile :=
  file "two.csv" ("lead" ++ nl ++ "x" ++ nl ++ "x" ++ nl)%string.

Definition header_only : Streamlit.UploadedFile :=
  file "none.csv" ("lead" ++ nl)%string.

Definition broken : Streamlit.UploadedFile :=
  {| Streamlit.name := "broken.csv"%string;
     Streamlit.getvalue := [Byte.xff] |}.

(** Two names, the first with a tab inside. *)
Definition tabbed_names : string := ("A" ++ tab ++ "B" ++ nl ++ "C")%string.

(** A column of codes, one of them with a letter. *)
Definition codes : Streamlit.UploadedFile :=
  file "codes.csv" ("code" ++ nl ++ "001" ++ nl ++ "abc" ++ nl)%string.


(** A file with one number, beyond 53 bits, and a file with another
    column. *)
Definition ids : Streamlit.UploadedFile :=
  file "ids.csv" ("id" ++ nl ++ "9007199254740993" ++ nl)%string.

Definition notes : Streamlit.UploadedFile :=
  file "notes.csv" ("note" ++ nl ++ "x" ++ nl)%string.


End PandasCsv.

(* ------------------------------------------------------------------ *)
(** ** Vocabulary of the statements *)

Module Terms.

(** The closed form of the [i]-th division point of [array_split]. *)
Definition div_point (Ntotal Nsections i : nat) : nat :=
  i * (Ntotal / Nsections) + min i (Ntotal mod Nsections).

Section Shares.

Variable value : Type.

(** [ceil(T / N)] *)
Definition ceil_div (T N : nat) : nat := (T + N - 1) / N.

(** How many of the shares have [k] rows. *)
Definition count_sized (k : nat) (shares : list (DataFrame value)) : nat :=
  length (filter (fun share => len share =? k) shares).

(** The fair-split rule: the first [T mod N] shares have [T / N + 1]
    rows, the others [T / N]. *)
Definition fair_sizes (T N : nat) (shares : list (DataFrame value)) : Prop :=
  length shares = N /\
  forall i, i < N ->
    len (nth i shares DataFrame_new)
    = if i <? T mod N then T / N + 1 else T / N.

(** No two shares differ by more than one row. *)
Definition within_one (shares : list (DataFrame value)) : Prop :=
  forall a b, In a shares -> In b shares -> len a <= len b + 1.

(** The fairness bound the way the specification words it: the rule,
    the bound, and exactly [T mod N] shares of [ceil(T / N)] rows. *)
Definition fair_split_as_stated (df : DataFrame value) (N : nat) : Prop :=
  exists shares,
    Numpy.array_split df N = Some shares /\
    fair_sizes (len df) N shares /\
    within_one shares /\
    count_sized (ceil_div (len df) N) shares = (len df) mod N.

(** The shares are the slices of [df] at the cut points [d 0 <= ... <= d N],
    from the first row to the last. *)
Definition contiguous_cover (df : DataFrame value) (N : nat)
    (shares : list (DataFrame value)) (d : nat -> nat) : Prop :=
  d 0 = 0 /\ d N = len df /\
  (forall i, i < N -> d i <= d (S i)) /\
  (forall i, i < N ->
     nth i shares DataFrame_new = iloc_slice df (d i) (d (S i))).

End Shares.

Section Script.

Context {L : Library}.
Import Streamlit App.

Local Open Scope string_scope.
Local Open Scope list_scope.
Local Open Scope nat_scope.

(** The session with more on its page. *)
Definition add_page (s : session) (els : list element) : session :=
  {| page := page s ++ els;
     widget_keys := widget_keys s;
     cache_data := cache_data s |}.

(** The frames of the files that parse and have rows, in their order. *)
Definition parsed_nonempty (files : list UploadedFile)
    : list (DataFrame value) :=
  flat_map (fun f => match read_uploaded_file f with
                     | inr df => if empty df then [] else [df]
                     | inl _ => []
                     end) files.

(** Whether decoding or parsing the file raises. *)
Definition fails (f : UploadedFile) : bool :=
  match read_uploaded_file f with inl _ => true | inr _ => false end.

(** What the page is told about one file. *)
Definition diagnostic (f : UploadedFile) : list element :=
  match read_uploaded_file f with
  | inr df => if empty df then [warning_file_empty (name f)] else []
  | inl e => [error_reading_file (name f) e]
  end.

(** The merged frame of the files. *)
Definition merged (files : list UploadedFile) : DataFrame value :=
  match parsed_nonempty files with
  | [] => DataFrame_new
  | dfs => concat astype_common dfs
  end.

(** The records of a frame, row by row. *)
Definition records (df : DataFrame value) : list (string -> cell value) :=
  map (record (columns df)) (rows df).


(** Two record sequences with the same cells under every label. *)
Definition same_records (a b : list (string -> cell value)) : Prop :=
  Forall2 (fun r r' => forall c, r c = r' c) a b.

(** The merge the way the specification words it: the records of the
    merged frame are the records of the usable files, file after file. *)
Definition merged_as_stated (files : list UploadedFile) : Prop :=
  same_records (records (merged files))
               (flat_map records (parsed_nonempty files)).

(** What the cached [convert_df] returns, under a given cache, for a
    frame whose first row is labelled [start]. *)
Definition cached (c : list (cache_key * bytes)) (start : nat)
    (df : DataFrame value) : bytes :=
  match cache_lookup (hash_frame start df) c with
  | Some v => v
  | None => convert_df df
  end.

(** Every entry of the cache is the conversion of a frame, stored under
    the key of that frame: the caches that runs of the script fill. *)
Definition coherent (c : list (cache_key * bytes)) : Prop :=
  forall k v, In (k, v) c ->
    exists start df, k = hash_frame start df /\ v = convert_df df.

(** What recipient [i] is offered, [data] being the bytes of the share. *)
Definition offer (split_dfs : list (DataFrame value)) (n_cols : nat)
    (today_str : string) (data : nat -> DataFrame value -> bytes)
    (i : nat) (who : string) : element :=
  if i <? length split_dfs then
    let person_df := nth i split_dfs DataFrame_new in
    if negb (empty person_df) then
      download_button (i mod n_cols) who (len person_df)
                      (data (index_start split_dfs i) person_df)
                      (make_filename today_str who) ("download_" ++ who)%string
    else write_no_leads (i mod n_cols) who
  else write_no_split (i mod n_cols) who.

(** [enumerate(names)] counted from [i]. *)
Definition enumerate (i : nat) (names : list string) : list (nat * string) :=
  combine (seq i (length names)) names.

Definition offers (split_dfs : list (DataFrame value)) (n_cols : nat)
    (today_str : string) (data : nat -> DataFrame value -> bytes)
    (i : nat) (names : list string) : list element :=
  map (fun p => offer split_dfs n_cols today_str data (fst p) (snd p))
      (enumerate i names).

(** The elements that stand for a share. *)
Definition is_offer (e : element) : bool :=
  match e with
  | download_button _ _ _ _ _ _ | write_no_leads _ _ | write_no_split _ _ =>
      true
  | _ => false
  end.

(** The degenerate case the way the specification words it: every
    recipient past the last row is on the page with a download of a
    header-only file. *)
Definition empty_shares_get_blobs (shuffled_df : DataFrame value)
    (names : list string) (today : date) (s : session) : Prop :=
  forall j who,
    len shuffled_df <= j < length names ->
    nth_error names j = Some who ->
    exists col file_name key,
      In (download_button col who 0
            (convert_df {| columns := columns shuffled_df; rows := [] |})
            file_name key)
         (page (snd (split_and_offer shuffled_df names today s))).

(** The name transform the way the specification words it: whitespace
    replaced by underscores. *)
Fixpoint replace_whitespace (s : string) : string :=
  match s with
  | EmptyString => EmptyString
  | String c t =>
      String (if isspace c then "_"%char else c) (replace_whitespace t)
  end.

Definition filename_as_stated (today : date) (who : string) : string :=
  ("leads_" ++ strftime_Ymd today ++ "_" ++ replace_whitespace who
   ++ ".csv")%string.

(** Every download on the page is named the way the specification words
    it. *)
Definition filenames_as_stated (today : date) (pg : list element) : Prop :=
  forall col who n data file_name key,
    In (download_button col who n data file_name key) pg ->
    file_name = filename_as_stated today who.

(** An element of the page without the bytes of its download. *)
Definition bytes_aside (e : element) : element :=
  match e with
  | download_button col who n_leads _ file_name key =>
      download_button col who n_leads [] file_name key
  | _ => e
  end.

(** Two sessions with the same page, the bytes of the downloads aside,
    and the same widget keys. *)
Definition same_view (s1 s2 : session) : Prop :=
  map bytes_aside (page s1) = map bytes_aside (page s2) /\
  widget_keys s1 = widget_keys s2.



(** A file that fails to parse or parses to a frame without rows. *)
Definition unusable (f : UploadedFile) : Prop :=
  match read_uploaded_file f with
  | inl _ => True
  | inr df => empty df = true
  end.

(** A computation that only adds [els] to the page and returns [a]. *)
Definition writes {A : Type} (m : M A) (a : A) (els : list element) : Prop :=
  forall s, m s = (Ok a, add_page s els).


(** What [process_uploaded_files] puts on the page. *)
Definition ingest_page (files : list UploadedFile) : list element :=
  flat_map diagnostic files
  ++ match files, parsed_nonempty files with
     | _ :: _, [] => [error_no_valid_data]
     | _, _ => []
     end.

(** What section 3 puts on the page before it splits. *)
Definition prelude (names : list string) (files : list UploadedFile)
    : list element :=
  [info_processing] ++ ingest_page files
  ++ [success_combined (len (merged files)) (length files)]
  ++ (if len (merged files) <? length names
      then [warning_fewer_leads (len (merged files)) (length names)]
      else [])
  ++ [write_splitting (length names) names].

(** The widget key recipient [i] needs, if any. *)
Definition button_key (split_dfs : list (DataFrame value)) (i : nat)
    (who : string) : list string :=
  if (i <? length split_dfs)
     && negb (empty (nth i split_dfs DataFrame_new))
  then [("download_" ++ who)%string] else [].

Definition button_keys (split_dfs : list (DataFrame value)) (i : nat)
    (names : list string) : list string :=
  flat_map (fun p => button_key split_dfs (fst p) (snd p)) (enumerate i names).

End Script.
End Terms.

(* ------------------------------------------------------------------ *)
(** ** Vocabulary for the rest of the script *)

Module Views.

Definition first_char (s : string) : option ascii :=
  match s with
  | EmptyString => None
  | String c _ => Some c
  end.

Fixpoint last_char (s : string) : option ascii :=
  match s with
  | EmptyString => None
  | String c t =>
      match last_char t with
      | None => Some c
      | Some d => Some d
      end
  end.

(** The list comprehension of section 1: the stripped lines that are not
    blank. *)
Definition entered (names_input : string) : list string :=
  map strip
      (filter (fun name => truthy_str (strip name))
              (split "010"%char names_input)).

(** The upload count that section 2 accepts. *)
Definition valid_count (files : list Streamlit.UploadedFile) : bool :=
  (1 <=? length files) && (length files <=? 10).

Section Script.

Context {L : Library}.
Import Streamlit App Terms.

(** The leads a page element offers for download. *)
Definition leads_on (e : element) : nat :=
  match e with
  | download_button _ _ n _ _ _ => n
  | _ => 0
  end.

(** The column of the page an element for a recipient is put in. *)
Definition column_of (e : element) : option nat :=
  match e with
  | download_button col _ _ _ _ _ => Some col
  | write_no_leads col _ => Some col
  | write_no_split col _ => Some col
  | _ => None
  end.

(** The recipient an element of the page is for. *)
Definition recipient (e : element) : list string :=
  match e with
  | download_button _ who _ _ _ _ => [who]
  | write_no_leads _ who => [who]
  | write_no_split _ who => [who]
  | _ => []
  end.

(** The messages of section 3 that sum up the processing. *)
Definition summary (e : element) : bool :=
  match e with
  | success_combined _ _ | warning_fewer_leads _ _
  | warning_could_not_proceed | subheader_download => true
  | _ => false
  end.

(** The names that section 1 hands on, and what it shows. *)
Definition handed_on (names_input : string) : list string :=
  if length (entered names_input) <? 2 then [] else entered names_input.

Definition names_page (names_input : string) : list element :=
  match entered names_input with
  | [] => []
  | names =>
      write_names names
      :: (if length names <? 2 then [error_at_least_2_names] else [])
  end.

(** What section 2 shows. *)
Definition uploads_page (files : list UploadedFile) : list element :=
  match files with
  | [] => []
  | _ =>
      if 10 <? length files then [error_max_10_files]
      else [success_files_selected (length files) (map name files)]
  end.

(** The part of the script an element comes from: sections 1 and 2, the
    processing of section 3, or its "Process Leads" branch. *)
Definition stage (e : element) : nat :=
  match e with
  | write_names _ | error_at_least_2_names => 1
  | error_max_10_files | success_files_selected _ _ => 2
  | button_process_leads | error_enter_names | error_upload_file
  | error_too_many_files => 4
  | _ => 3
  end.

(** What the "Process Leads" branch shows. *)
Definition closed_page (names : list string) (files : list UploadedFile)
    (valid clicked : bool) : list element :=
  button_process_leads
  :: (if clicked then
        (if truthy names then [] else [error_enter_names])
        ++ (if truthy files
            then (if valid then [] else [error_too_many_files])
            else [error_upload_file])
      else []).

End Script.
End Views.

(* ------------------------------------------------------------------ *)
(** * Properties *)

(** ** [array_split]: the division points and the slices *)

Module NumpyFacts.
Import Numpy Terms.

Lemma cumsum_from_length (l : list nat) (acc : nat) :
  length (cumsum_from acc l) = length l.
Proof.
  revert acc; induction l as [|x t IH]; intros acc; simpl; auto.
Qed.

Lemma cumsum_from_nth (l : list nat) :
  forall acc i, i < length l ->
    nth i (cumsum_from acc l) 0 = acc + list_sum (firstn (S i) l).
Proof.
  induction l as [|x t IH]; intros acc i Hi; simpl in Hi; [lia|].
  destruct i as [|i].
  - simpl. destruct t; simpl; lia.
  - cbn [cumsum_from nth]. rewrite IH by lia.
    change (firstn (S (S i)) (x :: t)) with (x :: firstn (S i) t).
    change (list_sum (x :: firstn (S i) t))
      with (x + list_sum (firstn (S i) t)). lia.
Qed.

Lemma list_sum_repeat (x k : nat) : list_sum (repeat x k) = k * x.
Proof. induction k; simpl; lia. Qed.

Lemma firstn_repeat_min (A : Type) (x : A) (k i : nat) :
  firstn i (repeat x k) = repeat x (min i k).
Proof.
  revert i; induction k as [|k IH]; intros [|i]; simpl; auto.
  now rewrite IH.
Qed.

Lemma nth_div_points (Ntotal Nsections i : nat) :
  0 < Nsections -> i <= Nsections ->
  nth i (cumsum (section_sizes Ntotal Nsections)) 0
  = div_point Ntotal Nsections i.
Proof.
  intros HN Hi. unfold cumsum, section_sizes, div_point.
  pose proof (Nat.mod_upper_bound Ntotal Nsections ltac:(lia)) as Hr.
  set (b := Ntotal / Nsections) in *. set (r := Ntotal mod Nsections) in *.
  rewrite cumsum_from_nth.
  2:{ cbn [app length]. rewrite length_app, !repeat_length. lia. }
  cbn [app]. change (firstn (S i) (0 :: ?l)) with (0 :: firstn i l).
  change (list_sum (0 :: ?l)) with (list_sum l).
  rewrite firstn_app, list_sum_app, !firstn_repeat_min, !list_sum_repeat.
  rewrite repeat_length.
  destruct (Nat.le_gt_cases i r) as [Hle|Hgt].
  - replace (i - r) with 0 by lia. rewrite Nat.min_0_l, !Nat.min_l by lia. lia.
  - rewrite (Nat.min_r i r), (Nat.min_l (i - r)) by lia. nia.
Qed.

Lemma div_point_0 (Ntotal Nsections : nat) : div_point Ntotal Nsections 0 = 0.
Proof. reflexivity. Qed.

Lemma div_point_last (Ntotal Nsections : nat) :
  0 < Nsections -> div_point Ntotal Nsections Nsections = Ntotal.
Proof.
  intros HN. unfold div_point.
  pose proof (Nat.mod_upper_bound Ntotal Nsections ltac:(lia)).
  pose proof (Nat.div_mod_eq Ntotal Nsections).
  rewrite Nat.min_r by lia. nia.
Qed.

Lemma div_point_step (Ntotal Nsections i : nat) :
  div_point Ntotal Nsections (S i)
  = div_point Ntotal Nsections i + Ntotal / Nsections
    + (if i <? Ntotal mod Nsections then 1 else 0).
Proof.
  unfold div_point. destruct (Nat.ltb_spec i (Ntotal mod Nsections)); lia.
Qed.

Lemma div_point_mono (Ntotal Nsections i j : nat) :
  i <= j -> div_point Ntotal Nsections i <= div_point Ntotal Nsections j.
Proof. intros H. unfold div_point. nia. Qed.

Lemma div_point_bound (Ntotal Nsections i : nat) :
  0 < Nsections -> i <= Nsections -> div_point Ntotal Nsections i <= Ntotal.
Proof.
  intros HN Hi. rewrite <- (div_point_last Ntotal HN) at 2.
  now apply div_point_mono.
Qed.

(** [array_split] cuts at the closed-form division points. *)
Lemma array_split_div_points (T : Type) `{Sliceable T} (ary : T) (n : nat) :
  0 < n ->
  array_split ary n
  = Some (map (fun i => getslice ary (div_point (shape0 ary) n i)
                                     (div_point (shape0 ary) n (S i)))
              (seq 0 n)).
Proof.
  intros Hn. unfold array_split.
  destruct (Nat.eqb_spec n 0) as [->|_]; [lia|].
  f_equal. apply map_ext_in. intros i Hi. apply in_seq in Hi.
  rewrite !nth_div_points by lia. now rewrite Nat.add_1_r.
Qed.

Lemma slice_length (A : Type) (l : list A) (st en : nat) :
  en <= length l -> length (slice l st en) = en - st.
Proof.
  intros H. unfold slice. rewrite length_firstn, length_skipn. lia.
Qed.

Lemma firstn_slice (A : Type) (l : list A) (st en : nat) :
  st <= en -> firstn st l ++ slice l st en = firstn en l.
Proof.
  intros H. unfold slice.
  rewrite <- (firstn_skipn st (firstn en l)).
  rewrite firstn_firstn, Nat.min_l by lia. f_equal.
  now rewrite skipn_firstn_comm.
Qed.

(** Consecutive slices at increasing cut points add up to a prefix. *)
Lemma concat_slices (A : Type) (l : list A) (d : nat -> nat) (n : nat) :
  d 0 = 0 -> (forall i, i < n -> d i <= d (S i)) ->
  List.concat (map (fun i => slice l (d i) (d (S i))) (seq 0 n))
  = firstn (d n) l.
Proof.
  intros H0 Hmono. induction n as [|n IH].
  - simpl. now rewrite H0.
  - rewrite seq_S, map_app, concat_app. simpl. rewrite app_nil_r.
    rewrite IH by (intros; apply Hmono; lia).
    apply firstn_slice, Hmono. lia.
Qed.

End NumpyFacts.

(** ** The shares of a frame *)

Module ShareFacts.
Import Numpy NumpyFacts Terms.
Section Shares.

Variable value : Type.
Implicit Types df : DataFrame value.

Lemma frame_split_div_points df (N : nat) :
  0 < N ->
  array_split df N
  = Some (map (fun i => iloc_slice df (div_point (len df) N i)
                                      (div_point (len df) N (S i)))
              (seq 0 N)).
Proof. intros HN. now rewrite array_split_div_points. Qed.

Lemma nth_map_seq (A : Type) (f : nat -> A) (n i : nat) (dflt : A) :
  i < n -> nth i (map f (seq 0 n)) dflt = f i.
Proof.
  intros Hi. rewrite (nth_indep _ dflt (f 0)) by now rewrite length_map, length_seq.
  rewrite map_nth, seq_nth; auto.
Qed.

Lemma len_share df (N i : nat) :
  0 < N -> i < N ->
  len (iloc_slice df (div_point (len df) N i) (div_point (len df) N (S i)))
  = if i <? len df mod N then len df / N + 1 else len df / N.
Proof.
  intros HN Hi. unfold len at 1. cbn [rows iloc_slice].
  rewrite slice_length by (apply div_point_bound; lia).
  rewrite div_point_step. fold (len df).
  destruct (i <? len df mod N); lia.
Qed.

Lemma count_below (r n : nat) :
  length (filter (fun i => i <? r) (seq 0 n)) = min r n.
Proof.
  induction n as [|n IH]; [now rewrite Nat.min_0_r|].
  rewrite seq_S, filter_app, length_app, IH. cbn [filter Nat.add].
  destruct (Nat.ltb_spec n r); cbn [length]; lia.
Qed.

Lemma count_sized_map (k n : nat) (f : nat -> DataFrame value) :
  count_sized k (map f (seq 0 n))
  = length (filter (fun i => len (f i) =? k) (seq 0 n)).
Proof.
  unfold count_sized. induction (seq 0 n) as [|x l IH]; cbn [map filter]; auto.
  destruct (len (f x) =? k); cbn [length]; now rewrite IH.
Qed.

Lemma ceil_div_cases (T N : nat) :
  0 < N ->
  ceil_div T N = if T mod N =? 0 then T / N else T / N + 1.
Proof.
  intros HN. unfold ceil_div.
  pose proof (Nat.div_mod_eq T N) as E.
  pose proof (Nat.mod_upper_bound T N ltac:(lia)) as Hr.
  destruct (Nat.eqb_spec (T mod N) 0) as [Hz|Hz]; symmetry.
  - apply (Nat.div_unique _ _ _ (N - 1)); lia.
  - apply (Nat.div_unique _ _ _ (T mod N - 1)); lia.
Qed.

Lemma shares_fair_sizes df (N : nat) :
  0 < N ->
  fair_sizes (len df) N
    (map (fun i => iloc_slice df (div_point (len df) N i)
                                 (div_point (len df) N (S i)))
         (seq 0 N)).
Proof.
  intros HN. split.
  - now rewrite length_map, length_seq.
  - intros i Hi. rewrite nth_map_seq by assumption. now apply len_share.
Qed.

Lemma fair_sizes_within_one (T N : nat) (shares : list (DataFrame value)) :
  fair_sizes T N shares -> within_one shares.
Proof.
  intros [HL Hs] a b Ha Hb.
  apply (In_nth _ _ DataFrame_new) in Ha as (i & Hi & <-).
  apply (In_nth _ _ DataFrame_new) in Hb as (j & Hj & <-).
  rewrite !Hs by lia.
  destruct (i <? T mod N), (j <? T mod N); lia.
Qed.

Lemma shares_count df (N k : nat) :
  0 < N ->
  count_sized k
    (map (fun i => iloc_slice df (div_point (len df) N i)
                                 (div_point (len df) N (S i)))
         (seq 0 N))
  = if k =? len df / N + 1 then len df mod N
    else if k =? len df / N then N - len df mod N else 0.
Proof.
  intros HN. rewrite count_sized_map.
  pose proof (Nat.mod_upper_bound (len df) N ltac:(lia)) as Hr.
  pose proof (count_below (len df mod N) N) as Hc.
  rewrite Nat.min_l in Hc by lia.
  assert (Hall : length (filter (fun i => i <? len df mod N) (seq 0 N))
               + length (filter (fun i => negb (i <? len df mod N)) (seq 0 N))
               = N).
  { rewrite filter_length. apply length_seq. }
  destruct (Nat.eqb_spec k (len df / N + 1)) as [->|Hk1].
  - rewrite <- Hc. f_equal. apply filter_ext_in. intros i Hi.
    apply in_seq in Hi. rewrite len_share by lia.
    destruct (i <? len df mod N).
    + apply Nat.eqb_refl.
    + apply Nat.eqb_neq. lia.
  - destruct (Nat.eqb_spec k (len df / N)) as [->|Hk0].
    + replace (N - len df mod N)
        with (length (filter (fun i => negb (i <? len df mod N)) (seq 0 N)))
        by lia.
      f_equal. apply filter_ext_in. intros i Hi.
      apply in_seq in Hi. rewrite len_share by lia.
      destruct (i <? len df mod N); cbn [negb].
      * apply Nat.eqb_neq. lia.
      * apply Nat.eqb_refl.
    + rewrite (filter_ext_in _ (fun _ => false)); [now rewrite filter_false|].
      intros i Hi. apply in_seq in Hi. rewrite len_share by lia.
      destruct (i <? len df mod N); apply Nat.eqb_neq; lia.
Qed.

(** C1, amended.  For every frame of [T] rows and every [N >= 2],
    [array_split] returns exactly [N] shares; the first [T mod N] of them
    have [T / N + 1] rows and the others [T / N], so two shares differ by
    one row at most; exactly [T mod N] shares have [T / N + 1] rows and the
    other [N - T mod N] have [T / N]; [ceil(T / N)] is [T / N + 1] when [N]
    does not divide [T], and [T / N], the size of all [N] shares, when it
    does. *)
Theorem array_split_fair_sizes df (N : nat) :
  2 <= N ->
  exists shares,
    array_split df N = Some shares /\
    fair_sizes (len df) N shares /\
    within_one shares /\
    count_sized (len df / N + 1) shares = len df mod N /\
    count_sized (len df / N) shares = N - len df mod N /\
    (len df mod N <> 0 -> ceil_div (len df) N = len df / N + 1) /\
    (len df mod N = 0 ->
       ceil_div (len df) N = len df / N /\
       count_sized (ceil_div (len df) N) shares = N).
Proof.
  intros HN. eexists. split; [apply frame_split_div_points; lia|].
  pose proof (@shares_fair_sizes df N ltac:(lia)) as Hf.
  assert (Hne : (len df / N =? len df / N + 1) = false)
    by (apply Nat.eqb_neq; lia).
  split; [exact Hf|]. split; [exact (fair_sizes_within_one Hf)|].
  split; [|split; [|split; [|intros Hz; split]]].
  - rewrite shares_count by lia. now rewrite Nat.eqb_refl.
  - rewrite shares_count by lia. now rewrite Hne, Nat.eqb_refl.
  - intros Hr. rewrite ceil_div_cases by lia.
    now destruct (Nat.eqb_spec (len df mod N) 0).
  - rewrite ceil_div_cases, Hz by lia. reflexivity.
  - rewrite shares_count, ceil_div_cases, Hz by lia. cbn [Nat.eqb].
    rewrite Hne, Nat.eqb_refl. lia.
Qed.

(** C2.  For every frame and every [N >= 2] the [N] shares are the slices
    of the frame at increasing cut points from its first row to its last,
    each with the frame's columns; their rows, put end to end in the order
    of the shares, are the rows of the frame, so no row is lost and none
    occurs twice. *)
Theorem array_split_contiguous_cover df (N : nat) :
  2 <= N ->
  exists shares d,
    array_split df N = Some shares /\
    length shares = N /\
    contiguous_cover df N shares d /\
    Forall (fun share => columns share = columns df) shares /\
    flat_map (@rows value) shares = rows df /\
    Permutation (flat_map (@rows value) shares) (rows df).
Proof.
  intros HN. eexists. exists (div_point (len df) N).
  split; [apply frame_split_div_points; lia|].
  assert (Hcat : flat_map (@rows value)
            (map (fun i => iloc_slice df (div_point (len df) N i)
                                         (div_point (len df) N (S i)))
                 (seq 0 N)) = rows df).
  { rewrite flat_map_concat_map, map_map. cbn [rows iloc_slice].
    rewrite (@concat_slices _ (rows df) (div_point (len df) N) N).
    - rewrite div_point_last by lia. apply firstn_all.
    - reflexivity.
    - intros i _. apply div_point_mono. lia. }
  split; [now rewrite length_map, length_seq|].
  split; [|split; [|split]].
  - repeat split.
    + apply div_point_last; lia.
    + intros i _. apply div_point_mono. lia.
    + intros i Hi. now rewrite nth_map_seq.
  - apply Forall_forall. intros share Hin. apply in_map_iff in Hin.
    now destruct Hin as (i & <- & _).
  - exact Hcat.
  - now rewrite Hcat.
Qed.

End Shares.
End ShareFacts.

(** ** [pd.concat]: the records survive re-indexing *)

Module PandasFacts.
Section Frames.

Variable value : Type.
Implicit Types df : DataFrame value.






Lemma cast_cells_id (cols : list string) (r : list (cell value)) :
  cast_cells (fun _ x => x) cols r = r.
Proof.
  revert cols. induction r as [|x r IH]; intros [|c cols]; cbn; auto.
  now rewrite IH.
Qed.

Lemma cast_cells_ext (f g : string -> cell value -> cell value)
    (cols : list string) (r : list (cell value)) :
  (forall c x, f c x = g c x) -> cast_cells f cols r = cast_cells g cols r.
Proof.
  intros H. revert cols. induction r as [|x r IH]; intros [|c cols]; cbn; auto.
  now rewrite H, IH.
Qed.

Lemma mem_In (c : string) (l : list string) : mem c l = true <-> In c l.
Proof.
  unfold mem. rewrite existsb_exists. split.
  - intros (x & Hx & E). apply String.eqb_eq in E. now subst.
  - intros H. exists c. split; [assumption|apply String.eqb_refl].
Qed.

Lemma In_unique_from (l acc : list string) (c : string) :
  In c (fold_left (fun acc c => if mem c acc then acc else acc ++ [c]) l acc)
  <-> In c acc \/ In c l.
Proof.
  revert acc. induction l as [|x t IH]; intros acc; cbn [fold_left In].
  - tauto.
  - rewrite IH. destruct (mem x acc) eqn:E.
    + apply mem_In in E. split; [tauto|]. intros [H|[->|H]]; tauto.
    + rewrite in_app_iff. cbn [In]. tauto.
Qed.

Lemma In_unique (l : list string) (c : string) : In c (unique l) <-> In c l.
Proof. unfold unique. rewrite In_unique_from. cbn [In]. tauto. Qed.

Lemma columns_eqb_eq (a b : list string) : columns_eqb a b = true <-> a = b.
Proof.
  unfold columns_eqb. destruct (list_eq_dec string_dec a b); split; easy.
Qed.

(** Every frame finds its labels in the combined index. *)
Lemma combined_columns_incl (objs : list (DataFrame value)) df :
  In df objs -> incl (columns df) (combined_columns objs).
Proof.
  intros Hin. destruct objs as [|d t]; [easy|]. cbn [combined_columns].
  destruct (forallb _ t) eqn:E.
  - destruct Hin as [->|Hin]; [apply incl_refl|].
    rewrite forallb_forall in E. apply E, columns_eqb_eq in Hin.
    rewrite Hin. apply incl_refl.
  - intros c Hc. apply In_unique, in_flat_map. now exists df.
Qed.

Lemma same_records_refl (a : list (string -> cell value)) :
  Forall2 (fun r r' => forall c, r c = r' c) a a.
Proof. induction a; constructor; auto. Qed.




Lemma reindex_length (cast : string -> cell value -> cell value)
    (new_cols : list string) df :
  length (reindex cast new_cols df) = len df.
Proof.
  unfold reindex, len. destruct (columns_eqb _ _); apply length_map.
Qed.

(** Frames with rows and columns concatenate to a frame with both. *)
Lemma concat_not_empty
    (common_type : list (DataFrame value) -> string -> cell value
                   -> cell value)
    (objs : list (DataFrame value)) :
  objs <> [] ->
  (forall df, In df objs -> empty df = false) ->
  empty (concat common_type objs) = false.
Proof.
  intros Hne Hall. destruct objs as [|d t]; [easy|].
  pose proof (Hall d (or_introl eq_refl)) as Hd.
  unfold empty in *. apply orb_false_iff in Hd as [Hc Hr].
  apply Nat.eqb_neq in Hc, Hr. apply orb_false_iff.
  split; apply Nat.eqb_neq.
  - pose proof (@combined_columns_incl (d :: t) d (or_introl eq_refl)) as Hi.
    unfold concat. cbn [columns].
    destruct (columns d) as [|c cs]; [easy|].
    specialize (Hi c (or_introl eq_refl)).
    destruct (combined_columns (d :: t)); [easy|cbn; lia].
  - unfold concat. cbn [rows flat_map]. rewrite length_app, reindex_length.
    unfold len. lia.
Qed.

End Frames.
End PandasFacts.

(** ** The script: ingestion *)

Module ScriptFacts.
Import Streamlit Streamlit.Notations App Terms PandasFacts.
Section WithLibrary.

Context {L : Library}.

Local Open Scope list_scope.
Local Open Scope nat_scope.

Lemma add_page_nil (s : session) : add_page s [] = s.
Proof. destruct s. unfold add_page. cbn. now rewrite app_nil_r. Qed.

Lemma add_page_app (s : session) (a b : list element) :
  add_page (add_page s a) b = add_page s (a ++ b).
Proof. unfold add_page. cbn. now rewrite app_assoc. Qed.

Lemma writes_ret (A : Type) (a : A) : writes (ret a) a [].
Proof. intros s. unfold ret. now rewrite add_page_nil. Qed.

Lemma writes_st (e : element) : writes (st e) tt [e].
Proof. intros s. reflexivity. Qed.

Lemma writes_bind (A B : Type) (m : M A) (k : A -> M B) (a : A) (b : B)
    (e1 e2 : list element) :
  writes m a e1 -> writes (k a) b e2 -> writes (bind m k) b (e1 ++ e2).
Proof.
  intros Hm Hk s. unfold bind. rewrite Hm, Hk. now rewrite add_page_app.
Qed.

Lemma writes_st_bind (B : Type) (e : element) (k : unit -> M B) (b : B)
    (els : list element) :
  writes (k tt) b els -> writes (bind (st e) k) b (e :: els).
Proof.
  intros Hk. change (e :: els) with ([e] ++ els).
  eapply writes_bind; [apply writes_st|exact Hk].
Qed.

Lemma read_files_writes (files : list UploadedFile) :
  forall all_dfs error_files,
    writes (read_files files all_dfs error_files)
           (all_dfs ++ parsed_nonempty files,
            error_files ++ map name (filter fails files))
           (flat_map diagnostic files).
Proof.
  induction files as [|f rest IH]; intros all_dfs error_files.
  - cbn. rewrite !app_nil_r. apply writes_ret.
  - change (parsed_nonempty (f :: rest))
      with (match read_uploaded_file f with
            | inr df => if empty df then [] else [df]
            | inl _ => []
            end ++ parsed_nonempty rest).
    change (flat_map diagnostic (f :: rest))
      with (diagnostic f ++ flat_map diagnostic rest).
    change (filter fails (f :: rest))
      with (if fails f then f :: filter fails rest else filter fails rest).
    cbn [read_files]. unfold fails at 1, diagnostic at 1.
    destruct (read_uploaded_file f) as [e|df].
    + cbn [map app]. apply writes_st_bind.
      replace (error_files ++ name f :: map name (filter fails rest))
        with ((error_files ++ [name f]) ++ map name (filter fails rest))
        by now rewrite <- app_assoc.
      apply IH.
    + destruct (empty df); cbn [negb].
      * apply writes_st_bind, IH.
      * rewrite (app_assoc all_dfs). apply IH.
Qed.

Lemma process_uploaded_files_writes (files : list UploadedFile) :
  writes (process_uploaded_files files) (merged files) (ingest_page files).
Proof.
  unfold process_uploaded_files, ingest_page, merged.
  destruct files as [|f rest]; [apply writes_ret|].
  cbn [truthy negb].
  eapply writes_bind; [apply read_files_writes|]. cbn [fst app].
  destruct (parsed_nonempty (f :: rest)) as [|d t]; cbn [truthy negb].
  - apply writes_st_bind, writes_ret.
  - apply writes_ret.
Qed.

Lemma parsed_nonempty_not_empty (files : list UploadedFile) df :
  In df (parsed_nonempty files) -> empty df = false.
Proof.
  unfold parsed_nonempty. rewrite in_flat_map. intros (f & _ & Hin).
  destruct (read_uploaded_file f) as [e|d]; [easy|].
  destruct (empty d) eqn:E; [easy|]. now destruct Hin as [<-|[]].
Qed.

Lemma merged_empty (files : list UploadedFile) :
  empty (merged files) = match parsed_nonempty files with
                         | [] => true
                         | _ => false
                         end.
Proof.
  unfold merged. pose proof (@parsed_nonempty_not_empty files) as H.
  destruct (parsed_nonempty files) as [|d t]; [reflexivity|].
  apply concat_not_empty; [easy|exact H].
Qed.

Lemma parsed_nonempty_skips_failing (files : list UploadedFile) :
  parsed_nonempty (filter (fun f => negb (fails f)) files)
  = parsed_nonempty files.
Proof.
  induction files as [|f rest IH]; [reflexivity|].
  cbn [filter]. unfold fails at 1.
  destruct (read_uploaded_file f) as [e|df] eqn:E; cbn [negb].
  - cbn [parsed_nonempty flat_map]. rewrite E. cbn [app]. exact IH.
  - cbn [parsed_nonempty flat_map]. fold (parsed_nonempty rest).
    fold (parsed_nonempty (filter (fun f => negb (fails f)) rest)).
    now rewrite IH.
Qed.






(** C5.  For every uploaded file on which decoding or parsing raises, the
    loop over the files catches the exception: it returns normally, the
    name of the file is in [error_files], the page shows the error with
    that name, and the frames kept are those of all the other files that
    have rows, the ones after the failing file included; so
    [process_uploaded_files] returns a frame, never an exception. *)
Theorem parse_failures_are_local (files : list UploadedFile)
    (all_dfs : list (DataFrame value)) (error_files : list string)
    (s : session) :
  exists dfs errs s',
    read_files files all_dfs error_files s = (Ok (dfs, errs), s') /\
    errs = error_files ++ map name (filter fails files) /\
    (forall f e,
       In f files -> read_uploaded_file f = inl e ->
       In (name f) errs /\
       In (error_reading_file (name f) e) (page s')) /\
    dfs = all_dfs
          ++ parsed_nonempty (filter (fun f => negb (fails f)) files) /\
    exists df s'', process_uploaded_files files s = (Ok df, s'').
Proof.
  do 3 eexists. split; [apply read_files_writes|].
  split; [reflexivity|]. split; [|split].
  - intros f e Hin He. split.
    + apply in_or_app. right. apply in_map, filter_In. split; [assumption|].
      unfold fails. now rewrite He.
    + cbn [add_page page]. apply in_or_app. right. apply in_flat_map.
      exists f. split; [assumption|]. unfold diagnostic. rewrite He. now left.
  - now rewrite parsed_nonempty_skips_failing.
  - do 2 eexists. apply process_uploaded_files_writes.
Qed.

End WithLibrary.
End ScriptFacts.

(** ** The script: sections 1 to 3 of the page *)

Module PageFacts.
Import Streamlit Streamlit.Notations App Terms PandasFacts ScriptFacts.
Section WithLibrary.

Context {L : Library}.

Local Open Scope list_scope.
Local Open Scope nat_scope.

Lemma enter_names_writes (names_input : string) :
  exists names els,
    writes (enter_names names_input) names els /\
    Forall (fun e => is_offer e = false) els.
Proof.
  unfold enter_names.
  set (names := map strip _). destruct (truthy names).
  - destruct (length names <? 2).
    + exists [], [write_names names; error_at_least_2_names]. split.
      * apply writes_st_bind, writes_st_bind, writes_ret.
      * repeat constructor.
    + exists names, [write_names names]. split.
      * apply writes_st_bind, writes_ret.
      * repeat constructor.
  - exists names, []. split; [apply writes_ret|constructor].
Qed.

Lemma check_uploads_writes (files : list UploadedFile) :
  exists valid els,
    writes (check_uploads files) valid els /\
    Forall (fun e => is_offer e = false) els.
Proof.
  unfold check_uploads. destruct (truthy files).
  - destruct (10 <? length files).
    + exists false, [error_max_10_files]. split.
      * apply writes_st_bind, writes_ret.
      * repeat constructor.
    + eexists true, [_]. split.
      * apply writes_st_bind, writes_ret.
      * repeat constructor.
  - exists false, []. split; [apply writes_ret|constructor].
Qed.

Lemma diagnostic_plain (files : list UploadedFile) :
  Forall (fun e => is_offer e = false) (flat_map diagnostic files).
Proof.
  apply Forall_forall. intros e He. apply in_flat_map in He as (f & _ & He).
  unfold diagnostic in He. destruct (read_uploaded_file f) as [x|df].
  - now destruct He as [<-|[]].
  - destruct (empty df); [now destruct He as [<-|[]]|easy].
Qed.

Lemma ingest_page_plain (files : list UploadedFile) :
  Forall (fun e => is_offer e = false) (ingest_page files).
Proof.
  unfold ingest_page. apply Forall_app. split; [apply diagnostic_plain|].
  destruct files; [constructor|].
  destruct (parsed_nonempty _); repeat constructor.
Qed.

Lemma prelude_plain (names : list string) (files : list UploadedFile) :
  Forall (fun e => is_offer e = false) (prelude names files).
Proof.
  unfold prelude.
  apply Forall_app; split; [repeat constructor|].
  apply Forall_app; split; [apply ingest_page_plain|].
  apply Forall_app; split; [repeat constructor|].
  apply Forall_app; split; [|repeat constructor].
  destruct (_ <? _); repeat constructor.
Qed.

(** Section 3 without names, files or a valid count: the button and its
    messages. *)
Lemma process_and_split_closed (names : list string)
    (files : list UploadedFile) (valid clicked : bool) (today : date) :
  truthy names && truthy files && valid = false ->
  exists els,
    Forall (fun e => is_offer e = false) els /\
    forall rng,
      writes (process_and_split names files valid clicked rng today) tt els.
Proof.
  intros Hg. unfold process_and_split. rewrite Hg.
  destruct clicked.
  - destruct (negb (truthy names)), (negb (truthy files)), (negb valid);
      eexists; (split; [|intros rng;
        repeat first [apply writes_st_bind | apply writes_ret
                     | apply writes_st
                     | eapply writes_bind; [apply writes_ret|] ]]);
      repeat constructor.
  - eexists. split; [|intros rng; apply writes_st_bind, writes_ret].
    repeat constructor.
Qed.

(** Section 3 with names and files, none of which parses with rows. *)
Lemma process_and_split_nothing (names : list string)
    (files : list UploadedFile) (valid clicked : bool)
    (rng : nat -> list nat) (today : date) :
  truthy names && truthy files && valid = true ->
  parsed_nonempty files = [] ->
  writes (process_and_split names files valid clicked rng today) tt
         ([info_processing] ++ ingest_page files
          ++ [warning_could_not_proceed]).
Proof.
  intros Hg Hp. unfold process_and_split. rewrite Hg.
  apply writes_st_bind. eapply writes_bind;
    [apply process_uploaded_files_writes|].
  rewrite merged_empty, Hp. cbn [negb]. apply writes_st.
Qed.

(** Section 3 with names, files and leads to split. *)
Lemma process_and_split_open (names : list string)
    (files : list UploadedFile) (valid clicked : bool)
    (rng : nat -> list nat) (today : date) (s : session) :
  truthy names && truthy files && valid = true ->
  parsed_nonempty files <> [] ->
  process_and_split names files valid clicked rng today s
  = split_and_offer
      (sample_all (rng (len (merged files))) (merged files)) names today
      (add_page s (prelude names files)).
Proof.
  intros Hg Hp. unfold process_and_split. rewrite Hg.
  unfold bind at 1. rewrite (writes_st info_processing s). cbn iota.
  unfold bind at 1. rewrite process_uploaded_files_writes. cbn iota.
  rewrite merged_empty.
  destruct (parsed_nonempty files) as [|d t] eqn:E; [easy|]. cbn [negb].
  unfold bind at 1. rewrite writes_st. cbn iota.
  unfold bind at 1. unfold prelude.
  destruct (len (merged files) <? length names).
  - rewrite writes_st. cbn iota. unfold bind at 1. rewrite writes_st.
    cbn iota. rewrite !add_page_app. reflexivity.
  - rewrite (writes_ret tt). cbn iota. unfold bind at 1. rewrite writes_st.
    cbn iota. rewrite !add_page_app. reflexivity.
Qed.

End WithLibrary.
End PageFacts.

(** ** The script: the loop over the recipients *)

Module LoopFacts.
Import Streamlit Streamlit.Notations App Terms ScriptFacts PageFacts.
Import Numpy NumpyFacts ShareFacts.
Section WithLibrary.

Context {L : Library}.

Local Open Scope list_scope.
Local Open Scope nat_scope.

Implicit Types (split_dfs : list (DataFrame value)) (s : session).



Lemma index_start_S split_dfs (i : nat) :
  index_start split_dfs (S i)
  = index_start split_dfs i + len (nth i split_dfs DataFrame_new).
Proof.
  unfold index_start. revert i.
  induction split_dfs as [|d t IH]; intros i; [now destruct i|].
  destruct i as [|i].
  - cbn [firstn map nth]. change (list_sum [len d]) with (len d + 0).
    change (list_sum (@nil nat)) with 0. lia.
  - change (firstn (S (S i)) (d :: t)) with (d :: firstn (S i) t).
    change (firstn (S i) (d :: t)) with (d :: firstn i t).
    change (nth (S i) (d :: t) DataFrame_new) with (nth i t DataFrame_new).
    cbn [map].
    change (list_sum (len d :: map (@len value) (firstn (S i) t)))
      with (len d + list_sum (map (@len value) (firstn (S i) t))).
    change (list_sum (len d :: map (@len value) (firstn i t)))
      with (len d + list_sum (map (@len value) (firstn i t))).
    rewrite IH. lia.
Qed.

Lemma index_start_mono split_dfs (i j : nat) :
  i <= j -> index_start split_dfs i <= index_start split_dfs j.
Proof. induction 1; [lia|]. rewrite index_start_S. lia. Qed.

Lemma not_empty_len (df : DataFrame value) : empty df = false -> 0 < len df.
Proof.
  unfold empty, len. intros H. apply orb_false_iff in H as [_ H].
  apply Nat.eqb_neq in H. lia.
Qed.

(** A call of the cached [convert_df] returns the cached conversion,
    stores nothing under another key and leaves what was stored. *)
Lemma cache_data_call_run s (start : nat) (df : DataFrame value) :
  exists c',
    cache_data_call convert_df start df s
    = (Ok (cached (cache_data s) start df),
       {| page := page s; widget_keys := widget_keys s; cache_data := c' |}) /\
    (forall k, k <> hash_frame start df ->
               cache_lookup k c' = cache_lookup k (cache_data s)) /\
    (coherent (cache_data s) -> coherent c').
Proof.
  unfold cache_data_call, cached. cbv zeta.
  destruct (cache_lookup (hash_frame start df) (cache_data s)) as [v|] eqn:E.
  - exists (cache_data s). destruct s; cbn in *. auto.
  - exists ((hash_frame start df, convert_df df) :: cache_data s).
    split; [reflexivity|]. split.
    + intros k Hk. cbn [cache_lookup].
      destruct (cache_key_eq_dec (hash_frame start df) k) as [<-|_];
        [now destruct Hk|reflexivity].
    + intros Hc k v [[= <- <-]|Hin]; [now exists start, df|now apply Hc].
Qed.

(** One turn of the loop: either the recipient's element is on the page
    and the key, if one was needed, is taken; or the key was taken
    already and the run stops there.  What the cache answers for the
    shares of the later recipients is as it was. *)
Lemma for_name_run split_dfs (n_cols : nat) (today_str : string)
    (i : nat) (who : string) s :
  let r := for_name split_dfs n_cols today_str i who s in
  (forall j d, i < j ->
     cached (cache_data (snd r)) (index_start split_dfs j) d
     = cached (cache_data s) (index_start split_dfs j) d) /\
  (coherent (cache_data s) -> coherent (cache_data (snd r))) /\
  ((fst r = Ok tt /\
    page (snd r)
    = page s ++ [offer split_dfs n_cols today_str (cached (cache_data s))
                       i who] /\
    widget_keys (snd r) = widget_keys s ++ button_key split_dfs i who /\
    (forall k, In k (button_key split_dfs i who) -> ~ In k (widget_keys s)))
   \/
   (exists key,
      fst r = Raise (DuplicateWidgetID key) /\
      In key (button_key split_dfs i who) /\
      In key (widget_keys s) /\
      page (snd r) = page s /\
      widget_keys (snd r) = widget_keys s)).
Proof.
  unfold for_name, offer, button_key.
  destruct (i <? length split_dfs); cbn [andb].
  2:{ cbn. rewrite app_nil_r. repeat split; auto. left. repeat split; auto. }
  destruct (empty (nth i split_dfs DataFrame_new)) eqn:He; cbn [negb].
  { cbn. rewrite app_nil_r. repeat split; auto. left. repeat split; auto. }
  unfold generate_csv_download, bind, ret.
  destruct (cache_data_call_run s (index_start split_dfs i)
              (nth i split_dfs DataFrame_new))
    as (c' & -> & Hsame & Hcoh).
  assert (Hlater : forall j d, i < j ->
            cached c' (index_start split_dfs j) d
            = cached (cache_data s) (index_start split_dfs j) d).
  { intros j d Hj. unfold cached. rewrite Hsame; [reflexivity|].
    intros Hk. symmetry in Hk.
    apply hash_frame_labels in Hk; [|now apply not_empty_len].
    pose proof (index_start_mono split_dfs Hj) as Hm.
    rewrite index_start_S in Hm. apply not_empty_len in He. lia. }
  cbn [fst snd]. unfold st_download_button. cbn [widget_keys page cache_data].
  destruct (in_dec string_dec _ (widget_keys s)) as [Hin|Hnin];
    cbn [fst snd page widget_keys cache_data].
  - split; [exact Hlater|]. split; [exact Hcoh|]. right.
    eexists. repeat split; [now left|exact Hin].
  - split; [exact Hlater|]. split; [exact Hcoh|]. left.
    repeat split. now intros k [<-|[]].
Qed.

Lemma enumerate_cons (i : nat) (who : string) (rest : list string) :
  enumerate i (who :: rest) = (i, who) :: enumerate (S i) rest.
Proof. reflexivity. Qed.

Lemma offers_ext split_dfs (n_cols : nat) (today_str : string)
    (f g : nat -> DataFrame value -> bytes) (names : list string) :
  forall i,
    (forall j, i <= j ->
       f (index_start split_dfs j) (nth j split_dfs DataFrame_new)
       = g (index_start split_dfs j) (nth j split_dfs DataFrame_new)) ->
    offers split_dfs n_cols today_str f i names
    = offers split_dfs n_cols today_str g i names.
Proof.
  induction names as [|who rest IH]; intros i H; [reflexivity|].
  unfold offers in *. rewrite enumerate_cons. cbn [map fst snd].
  rewrite IH by (intros j Hj; apply H; lia).
  f_equal. unfold offer. cbv zeta. now rewrite H.
Qed.

Lemma NoDup_app_disjoint (A : Type) (a b : list A) (x : A) :
  NoDup (a ++ b) -> In x a -> In x b -> False.
Proof.
  induction a as [|y t IH]; cbn [app]; [easy|].
  intros Hnd [->|Hin] Hb; inversion Hnd as [|? ? Hn Hnd']; subst.
  - apply Hn, in_or_app. now right.
  - now apply IH.
Qed.

(** The loop serves the recipients in their order and stops at the first
    one whose key is taken; it serves them all when the keys are fresh
    and distinct.  Each share is served as the cache held it before the
    loop. *)
Lemma for_names_run split_dfs (n_cols : nat) (today_str : string)
    (names : list string) :
  forall i s,
    let r := for_names split_dfs n_cols today_str i names s in
    exists k,
      k <= length names /\
      page (snd r)
      = page s ++ firstn k (offers split_dfs n_cols today_str
                                   (cached (cache_data s)) i names) /\
      (forall j d, i + length names <= j ->
         cached (cache_data (snd r)) (index_start split_dfs j) d
         = cached (cache_data s) (index_start split_dfs j) d) /\
      (coherent (cache_data s) -> coherent (cache_data (snd r))) /\
      (NoDup (widget_keys s ++ button_keys split_dfs i names) ->
       fst r = Ok tt /\ k = length names).
Proof.
  induction names as [|who rest IH]; intros i s r.
  - exists 0. subst r. cbn. rewrite app_nil_r. repeat split; auto.
  - subst r. cbn [for_names]. unfold bind.
    pose proof (for_name_run split_dfs n_cols today_str i who s) as Hstep.
    cbv zeta in Hstep.
    destruct (for_name split_dfs n_cols today_str i who s) as [[[]|e] s1].
    + cbn [fst snd] in Hstep.
      destruct Hstep as (Hsame & Hcoh & [(_ & Hpage & Hkeys & Hfresh)
                                        |(key & Hr & _)]); [|easy].
      destruct (IH (S i) s1) as (k & Hk & Hp & Hsame' & Hcoh' & Hok).
      exists (S k). split; [cbn; lia|]. split; [|split; [|split]].
      * rewrite Hp, Hpage, <- app_assoc.
        rewrite (@offers_ext split_dfs n_cols today_str
                   (cached (cache_data s1)) (cached (cache_data s)) rest
                   (S i)) by (intros j Hj; apply Hsame; lia).
        reflexivity.
      * intros j d Hj. cbn [length] in Hj.
        rewrite Hsame' by lia. apply Hsame. lia.
      * auto.
      * intros Hnd. unfold button_keys in Hnd.
        rewrite enumerate_cons in Hnd. cbn [flat_map fst snd] in Hnd.
        rewrite app_assoc, <- Hkeys in Hnd.
        destruct (Hok Hnd) as [-> ->]. auto.
    + cbn [fst snd] in Hstep |- *.
      destruct Hstep as (Hsame & Hcoh & [(Hr & _)
                                        |(key & Hr & Hkey & Hin & Hpage & _)]);
        [easy|].
      exists 0. split; [lia|]. cbn [firstn]. rewrite app_nil_r.
      split; [exact Hpage|]. split; [|split; [exact Hcoh|]].
      * intros j d Hj. cbn [length] in Hj. apply Hsame. lia.
      * intros Hnd. exfalso.
        apply (NoDup_app_disjoint _ _ key Hnd); [exact Hin|].
        unfold button_keys. rewrite enumerate_cons. cbn [flat_map fst snd].
        apply in_or_app. now left.
Qed.

End WithLibrary.
End LoopFacts.

(** ** The script: from the shuffled frame to the page *)

Module SplitFacts.
Import Streamlit Streamlit.Notations App Terms ScriptFacts PageFacts LoopFacts.
Import Numpy NumpyFacts ShareFacts.
Section WithLibrary.

Context {L : Library}.

Local Open Scope list_scope.
Local Open Scope nat_scope.

Implicit Types (split_dfs : list (DataFrame value)) (s : session).

Lemma same_view_refl s : same_view s s.
Proof. now split. Qed.










(** With a name to serve, the split gives one share per name and the loop
    runs over them. *)
Lemma split_and_offer_loop (shuffled_df : DataFrame value)
    (names : list string) (today : date) s :
  names <> [] ->
  exists split_dfs,
    array_split shuffled_df (length names) = Some split_dfs /\
    fair_sizes (len shuffled_df) (length names) split_dfs /\
    split_and_offer shuffled_df names today s
    = for_names split_dfs (min (length names) 4) (strftime_Ymd today) 0 names
                (add_page s [subheader_download]).
Proof.
  intros Hne. assert (HN : 0 < length names) by (destruct names; cbn; [easy|lia]).
  eexists. split; [now apply frame_split_div_points|].
  split; [now apply shares_fair_sizes|].
  unfold split_and_offer. now rewrite frame_split_div_points.
Qed.


(** A run of the script either only writes plain elements, whatever the
    generator and the session, or goes on to split the merged frame. *)
Lemma app_cases (names_input : string) (files : list UploadedFile)
    (clicked : bool) (today : date) :
  exists names pre,
    Forall (fun e => is_offer e = false) pre /\
    ((forall rng s,
        app names_input files clicked rng today s = (Ok tt, add_page s pre))
     \/
     (names <> [] /\ parsed_nonempty files <> [] /\
      forall rng s,
        app names_input files clicked rng today s
        = split_and_offer
            (sample_all (rng (len (merged files))) (merged files))
            names today (add_page s pre))).
Proof.
  destruct (enter_names_writes names_input) as (names & e1 & Hn & Hp1).
  destruct (check_uploads_writes files) as (valid & e2 & Hv & Hp2).
  assert (Happ : forall rng s,
    app names_input files clicked rng today s
    = process_and_split names files valid clicked rng today
        (add_page s (e1 ++ e2))).
  { intros rng s. unfold app, bind. rewrite Hn, Hv.
    now rewrite add_page_app. }
  exists names.
  destruct (truthy names && truthy files && valid) eqn:Hg.
  - destruct (parsed_nonempty files) as [|d t] eqn:Hd.
    + exists ((e1 ++ e2) ++ [info_processing] ++ ingest_page files
                      ++ [warning_could_not_proceed]).
      split; [|left; intros rng s; rewrite Happ].
      2:{ rewrite (process_and_split_nothing _ _ _ _ _ _ Hg Hd).
          now rewrite add_page_app. }
      apply Forall_app; split; [apply Forall_app; now split|].
      apply Forall_app; split; [repeat constructor|].
      apply Forall_app; split; [apply ingest_page_plain|repeat constructor].
    + exists (e1 ++ e2 ++ prelude names files).
      split.
      { apply Forall_app; split; [assumption|].
        apply Forall_app; split; [assumption|apply prelude_plain]. }
      right. split; [now destruct names|]. split; [easy|].
      intros rng s. rewrite Happ, process_and_split_open; auto.
      * now rewrite add_page_app, app_assoc.
      * now rewrite Hd.
  - destruct (process_and_split_closed names files valid clicked today Hg)
      as (els & Hpl & Hw).
    exists ((e1 ++ e2) ++ els).
    split; [apply Forall_app; split; [apply Forall_app; now split|assumption]|].
    left. intros rng s. now rewrite Happ, Hw, add_page_app.
Qed.

End WithLibrary.
End SplitFacts.

(** ** What a run of the script shows *)

Module PageClaims.
Import Streamlit Streamlit.Notations App Terms ScriptFacts PageFacts LoopFacts.
Import SplitFacts Numpy NumpyFacts ShareFacts.
Section WithLibrary.

Context {L : Library}.

Local Open Scope list_scope.
Local Open Scope nat_scope.

Implicit Types (split_dfs : list (DataFrame value)) (s : session).

Lemma In_firstn (A : Type) (k : nat) (l : list A) (x : A) :
  In x (firstn k l) -> In x l.
Proof.
  revert l. induction k as [|k IH]; intros [|y t]; cbn; try easy.
  intros [->|H]; [now left|right; now apply IH].
Qed.

Lemma In_enumerate (names : list string) :
  forall i j who,
    In (j, who) (enumerate i names) <->
    i <= j /\ nth_error names (j - i) = Some who.
Proof.
  induction names as [|x rest IH]; intros i j who.
  - cbn. split; [easy|]. intros [_ H]. now destruct (j - i).
  - rewrite enumerate_cons. cbn [In]. rewrite IH. split.
    + intros [[= <- <-]|[Hle Hn]].
      * rewrite Nat.sub_diag. now split.
      * split; [lia|]. replace (j - i) with (S (j - S i)) by lia. exact Hn.
    + intros [Hle Hn]. destruct (Nat.eq_dec i j) as [->|Hne].
      * rewrite Nat.sub_diag in Hn. injection Hn as ->. now left.
      * right. split; [lia|].
        replace (j - i) with (S (j - S i)) in Hn by lia. exact Hn.
Qed.

Lemma In_offers split_dfs (n_cols : nat) (today_str : string)
    (data : nat -> DataFrame value -> bytes) (i : nat) (names : list string)
    (e : element) :
  In e (offers split_dfs n_cols today_str data i names) <->
  exists j who,
    i <= j /\ nth_error names (j - i) = Some who /\
    e = offer split_dfs n_cols today_str data j who.
Proof.
  unfold offers. rewrite in_map_iff. split.
  - intros ([j who] & <- & Hin). apply In_enumerate in Hin as [Hle Hn].
    now exists j, who.
  - intros (j & who & Hle & Hn & ->). exists (j, who). split; [reflexivity|].
    now apply In_enumerate.
Qed.

Lemma append_inj_l (a b c : string) : (a ++ b = a ++ c)%string -> b = c.
Proof. induction a as [|x a IH]; cbn; [easy|]. intros [= H]. auto. Qed.

Lemma In_button_keys split_dfs (i : nat) (names : list string) (k : string) :
  In k (button_keys split_dfs i names) ->
  exists who, In who names /\ k = ("download_" ++ who)%string.
Proof.
  unfold button_keys. rewrite in_flat_map. intros ([j who] & Hin & Hk).
  apply In_enumerate in Hin as [_ Hn]. apply nth_error_In in Hn.
  unfold button_key in Hk. cbn [fst snd] in Hk.
  destruct (_ && _); [|easy]. destruct Hk as [<-|[]]. now exists who.
Qed.

Lemma button_keys_NoDup split_dfs (names : list string) :
  forall i, NoDup names -> NoDup (button_keys split_dfs i names).
Proof.
  induction names as [|who rest IH]; intros i Hnd; [constructor|].
  inversion Hnd as [|? ? Hnin Hnd']; subst.
  unfold button_keys. rewrite enumerate_cons. cbn [flat_map fst snd].
  fold (button_keys split_dfs (S i) rest).
  unfold button_key. destruct (_ && _); cbn [app]; [|now apply IH].
  constructor; [|now apply IH].
  intros Hin. apply In_button_keys in Hin as (who' & Hin & E).
  apply append_inj_l in E. now subst.
Qed.

(** Everything a run adds to the page is a plain element or what some
    recipient with a share is offered. *)
Lemma app_page (names_input : string) (files : list UploadedFile)
    (clicked : bool) (rng : nat -> list nat) (today : date) s :
  exists new,
    page (snd (app names_input files clicked rng today s)) = page s ++ new /\
    Forall (fun e =>
              is_offer e = false \/
              exists split_dfs n_cols data j who,
                j < length split_dfs /\
                e = offer split_dfs n_cols (strftime_Ymd today) data j who)
           new.
Proof.
  destruct (app_cases names_input files clicked today)
    as (names & pre & Hpre & [Hw|(Hne & _ & Hw)]); rewrite Hw.
  - exists pre. split; [reflexivity|].
    eapply Forall_impl; [|exact Hpre]. now left.
  - destruct (@split_and_offer_loop _
                (sample_all (rng (len (merged files))) (merged files))
                names today (add_page s pre) Hne)
      as (split_dfs & _ & [Hlen _] & ->).
    destruct (for_names_run split_dfs (min (length names) 4)
                (strftime_Ymd today) names 0
                (add_page (add_page s pre) [subheader_download]))
      as (k & _ & Hp & _).
    cbv zeta in Hp. rewrite Hp. cbn [add_page page cache_data].
    eexists. split; [rewrite <- !app_assoc; reflexivity|].
    apply Forall_app; split;
      [eapply Forall_impl; [|exact Hpre]; now left|].
    apply Forall_app; split; [repeat constructor|].
    apply Forall_forall. intros e He. apply In_firstn in He.
    apply In_offers in He as (j & who & _ & Hn & ->). right.
    exists split_dfs, (min (length names) 4), (cached (cache_data s)), j, who.
    split; [|reflexivity]. rewrite Hlen.
    apply nth_error_Some. rewrite Nat.sub_0_r in Hn. now rewrite Hn.
Qed.

(** C10.  For every frame, with any number of rows, and every [N >= 2],
    [array_split] returns exactly [N] shares, so the guard
    [i < len(split_dfs)] holds for every recipient; and no run of the script
    puts "No split data available" on the page. *)
Theorem no_split_data_unreachable :
  (forall (df : DataFrame value) (N : nat),
     2 <= N ->
     exists split_dfs,
       array_split df N = Some split_dfs /\
       length split_dfs = N /\
       forall i, i < N -> (i <? length split_dfs) = true) /\
  (forall (names_input : string) (files : list UploadedFile) (clicked : bool)
          (rng : nat -> list nat) (today : date) s,
     exists new,
       page (snd (app names_input files clicked rng today s))
       = page s ++ new /\
       forall col who, ~ In (write_no_split col who) new).
Proof.
  split.
  - intros df N HN. eexists.
    split; [apply frame_split_div_points; lia|].
    destruct (@shares_fair_sizes _ df N ltac:(lia)) as [Hlen _].
    split; [exact Hlen|].
    intros i Hi. apply Nat.ltb_lt. now rewrite Hlen.
  - intros names_input files clicked rng today s.
    destruct (app_page names_input files clicked rng today s)
      as (new & Hp & Hall).
    exists new. split; [exact Hp|]. intros col who Hin.
    rewrite Forall_forall in Hall.
    destruct (Hall _ Hin) as [Hpl|(sp & nc & data & j & w & Hj & E)];
      [discriminate|].
    unfold offer in E. apply Nat.ltb_lt in Hj. rewrite Hj in E.
    now destruct (negb _).
Qed.

Lemma replace_length (old new : ascii) (w : string) :
  String.length (replace old new w) = String.length w.
Proof. induction w as [|c t IH]; cbn; auto. Qed.

Lemma replace_get (old new : ascii) (w : string) :
  forall k,
    String.get k (replace old new w)
    = option_map (fun c => if Ascii.eqb c old then new else c)
                 (String.get k w).
Proof.
  induction w as [|c t IH]; intros k; [reflexivity|].
  destruct k as [|k]; cbn; [reflexivity|apply IH].
Qed.

Lemma replace_only_spaces (w : string) :
  (forall c, In c (list_ascii_of_string w) -> isspace c = true -> c = " "%char) ->
  replace " "%char "_"%char w = replace_whitespace w.
Proof.
  induction w as [|c t IH]; intros H; [reflexivity|].
  cbn [replace replace_whitespace]. rewrite IH.
  2:{ intros x Hx. apply H. now right. }
  f_equal. destruct (isspace c) eqn:E.
  - now rewrite (H c (or_introl eq_refl) E).
  - destruct (Ascii.eqb_spec c " "%char) as [->|_]; [discriminate|reflexivity].
Qed.

(** The loop over distinct names with no key taken serves every name. *)
Lemma split_and_offer_all (shuffled_df : DataFrame value)
    (names : list string) (today : date) s :
  names <> [] -> NoDup names -> widget_keys s = [] ->
  exists split_dfs,
    array_split shuffled_df (length names) = Some split_dfs /\
    fair_sizes (len shuffled_df) (length names) split_dfs /\
    fst (split_and_offer shuffled_df names today s) = Ok tt /\
    page (snd (split_and_offer shuffled_df names today s))
    = page s
      ++ subheader_download
         :: offers split_dfs (min (length names) 4) (strftime_Ymd today)
                   (cached (cache_data s)) 0 names.
Proof.
  intros Hne Hnd Hkeys.
  destruct (@split_and_offer_loop _ shuffled_df names today s Hne)
    as (split_dfs & E & Hfair & ->).
  exists split_dfs. split; [exact E|]. split; [exact Hfair|].
  destruct (for_names_run split_dfs (min (length names) 4)
              (strftime_Ymd today) names 0 (add_page s [subheader_download]))
    as (k & Hk & Hp & _ & _ & Hok).
  cbv zeta in Hp, Hok. cbn [add_page widget_keys] in Hok.
  rewrite Hkeys in Hok. destruct (Hok (button_keys_NoDup _ 0 Hnd)) as [Hr ->].
  split; [exact Hr|]. rewrite Hp. cbn [add_page page cache_data].
  rewrite <- app_assoc. cbn [app]. rewrite firstn_all2; [reflexivity|].
  unfold offers, enumerate.
  rewrite length_map, length_combine, length_seq. lia.
Qed.

(** C8, amended.  Every download a run of the script puts on the page is
    named [leads_<date>_<name>.csv], the date formatted as year, month and
    day, and the name being the recipient's name with each space character
    replaced by an underscore: the name keeps its length, and every other
    character, other whitespace included, stays as it is; the name is the
    one of the specification when the spaces are the only whitespace in
    it.  With distinct names every recipient of a share with leads has such
    a download on the page. *)
Theorem download_file_names (today : date) :
  (forall (names_input : string) (files : list UploadedFile) (clicked : bool)
          (rng : nat -> list nat) s,
     exists new,
       page (snd (app names_input files clicked rng today s))
       = page s ++ new /\
       forall col who n data file_name key,
         In (download_button col who n data file_name key) new ->
         file_name
         = ("leads_" ++ strftime_Ymd today ++ "_"
            ++ replace " "%char "_"%char who ++ ".csv")%string /\
         String.length (replace " "%char "_"%char who) = String.length who /\
         (forall k,
            String.get k (replace " "%char "_"%char who)
            = option_map (fun c => if Ascii.eqb c " "%char then "_"%char else c)
                         (String.get k who)) /\
         ((forall c, In c (list_ascii_of_string who) ->
                     isspace c = true -> c = " "%char) ->
          file_name = filename_as_stated today who)) /\
  (forall (shuffled_df : DataFrame value) (names : list string) s,
     names <> [] -> NoDup names -> widget_keys s = [] ->
     exists split_dfs,
       array_split shuffled_df (length names) = Some split_dfs /\
       forall j who,
         nth_error names j = Some who ->
         empty (nth j split_dfs DataFrame_new) = false ->
         In (download_button (j mod min (length names) 4) who
               (len (nth j split_dfs DataFrame_new))
               (cached (cache_data s) (index_start split_dfs j)
                       (nth j split_dfs DataFrame_new))
               (make_filename (strftime_Ymd today) who)
               ("download_" ++ who)%string)
            (page (snd (split_and_offer shuffled_df names today s)))).
Proof.
  split.
  - intros names_input files clicked rng s.
    destruct (app_page names_input files clicked rng today s)
      as (new & Hp & Hall).
    exists new. split; [exact Hp|].
    intros col who n data file_name key Hin.
    rewrite Forall_forall in Hall.
    destruct (Hall _ Hin) as [Hpl|(sp & nc & dt & j & w & Hj & E)];
      [discriminate|].
    unfold offer in E. destruct (j <? length sp); [|discriminate].
    destruct (negb _); [|discriminate].
    injection E as -> -> -> -> -> ->.
    split; [reflexivity|]. split; [apply replace_length|].
    split; [apply replace_get|].
    intros Hws. unfold make_filename, filename_as_stated.
    now rewrite replace_only_spaces.
  - intros shuffled_df names s Hne Hnd Hkeys.
    destruct (split_and_offer_all shuffled_df today s Hne Hnd Hkeys)
      as (split_dfs & E & [Hlen _] & _ & Hp).
    exists split_dfs. split; [exact E|]. intros j who Hn Hemp.
    rewrite Hp. apply in_or_app. right. right. apply In_offers.
    exists j, who. split; [lia|]. rewrite Nat.sub_0_r. split; [exact Hn|].
    unfold offer. rewrite Hemp. cbn [negb].
    replace (j <? length split_dfs) with true; [reflexivity|].
    symmetry. apply Nat.ltb_lt. rewrite Hlen. apply nth_error_Some.
    now rewrite Hn.
Qed.

Lemma unusable_parsed (files : list UploadedFile) :
  Forall unusable files -> parsed_nonempty files = [].
Proof.
  induction 1 as [|f rest Hf _ IH]; [reflexivity|].
  cbn [parsed_nonempty flat_map]. fold (parsed_nonempty rest). rewrite IH.
  unfold unusable in Hf. destruct (read_uploaded_file f); [reflexivity|].
  now rewrite Hf.
Qed.

(** C3, amended.  For every shuffled frame of [T] rows and every list of
    [N >= 2] distinct names with [T < N], the shares of the last [N - T]
    recipients have no rows, the loop serves every recipient, and each of
    those last recipients is on the page with the notice "No leads
    assigned" under their name; the downloads on the page belong to the
    first [T] recipients only, so no file is offered for an empty share. *)
Theorem empty_shares_get_notices (shuffled_df : DataFrame value)
    (names : list string) (today : date) s :
  2 <= length names ->
  len shuffled_df < length names ->
  NoDup names ->
  widget_keys s = [] ->
  exists split_dfs,
    array_split shuffled_df (length names) = Some split_dfs /\
    length split_dfs = length names /\
    fst (split_and_offer shuffled_df names today s) = Ok tt /\
    (forall j who,
       len shuffled_df <= j < length names ->
       nth_error names j = Some who ->
       len (nth j split_dfs DataFrame_new) = 0 /\
       In (write_no_leads (j mod min (length names) 4) who)
          (page (snd (split_and_offer shuffled_df names today s)))) /\
    exists new,
      page (snd (split_and_offer shuffled_df names today s)) = page s ++ new /\
      forall col who n data file_name key,
        In (download_button col who n data file_name key) new ->
        In who (firstn (len shuffled_df) names).
Proof.
  intros HN HT Hnd Hkeys.
  assert (Hne : names <> []) by (destruct names; cbn in HN; [lia|easy]).
  destruct (split_and_offer_all shuffled_df today s Hne Hnd Hkeys)
    as (split_dfs & E & [Hlen Hsize] & Hr & Hp).
  assert (Hzero : forall j, len shuffled_df <= j < length names ->
                            len (nth j split_dfs DataFrame_new) = 0).
  { intros j Hj. rewrite Hsize by lia.
    rewrite Nat.mod_small, Nat.div_small by lia.
    destruct (Nat.ltb_spec j (len shuffled_df)); lia. }
  exists split_dfs. split; [exact E|]. split; [exact Hlen|].
  split; [exact Hr|]. split.
  - intros j who Hj Hn. split; [now apply Hzero|].
    rewrite Hp. apply in_or_app. right. right. apply In_offers.
    exists j, who. split; [lia|]. rewrite Nat.sub_0_r. split; [exact Hn|].
    unfold offer. replace (j <? length split_dfs) with true
      by (symmetry; apply Nat.ltb_lt; lia).
    unfold empty. specialize (Hzero j Hj). unfold len in Hzero.
    rewrite Hzero. cbn [Nat.eqb]. now rewrite orb_true_r.
  - eexists. split; [exact Hp|].
    intros col who n data file_name key [Hin|Hin]; [discriminate|].
    apply In_offers in Hin as (j & w & _ & Hn & Ho).
    rewrite Nat.sub_0_r in Hn. unfold offer in Ho.
    destruct (j <? length split_dfs) eqn:Hj; [|discriminate].
    destruct (empty (nth j split_dfs DataFrame_new)) eqn:He; [discriminate|].
    injection Ho as _ -> _ _ _ _.
    assert (Hlt : j < len shuffled_df).
    { destruct (Nat.lt_ge_cases j (len shuffled_df)) as [|Hge]; [assumption|].
      exfalso. apply Nat.ltb_lt in Hj.
      specialize (Hzero j ltac:(lia)). unfold empty in He. unfold len in Hzero.
      rewrite Hzero in He. cbn [Nat.eqb] in He.
      now rewrite orb_true_r in He. }
    apply (nth_error_In _ j). rewrite nth_error_firstn.
    replace (j <? len shuffled_df) with true
      by (symmetry; now apply Nat.ltb_lt).
    exact Hn.
Qed.

(** C6.  When every uploaded file fails to parse or has no rows,
    [process_uploaded_files] returns the empty frame after the error "No
    valid lead data found"; section 3 then ends with the warning that it
    could not proceed; and the whole run returns normally with nothing on
    the page that stands for a share. *)
Theorem nothing_parsed_nothing_shared (files : list UploadedFile) :
  Forall unusable files ->
  (files <> [] ->
   forall s,
     process_uploaded_files files s
     = (Ok DataFrame_new,
        add_page s (flat_map diagnostic files ++ [error_no_valid_data]))) /\
  empty (@DataFrame_new value) = true /\
  (forall names valid clicked rng today s,
     truthy names && truthy files && valid = true ->
     process_and_split names files valid clicked rng today s
     = (Ok tt,
        add_page s ([info_processing] ++ flat_map diagnostic files
                    ++ [error_no_valid_data; warning_could_not_proceed]))) /\
  (forall names_input clicked rng today s,
     exists els,
       app names_input files clicked rng today s = (Ok tt, add_page s els) /\
       Forall (fun e => is_offer e = false) els).
Proof.
  intros Hun. pose proof (unusable_parsed Hun) as Hp.
  assert (Hing : files <> [] ->
            ingest_page files = flat_map diagnostic files ++ [error_no_valid_data]).
  { intros Hne. unfold ingest_page. destruct files; [easy|]. now rewrite Hp. }
  split; [|split; [reflexivity|split]].
  - intros Hne s. rewrite process_uploaded_files_writes.
    unfold merged. now rewrite Hp, Hing.
  - intros names valid clicked rng today s Hg.
    rewrite (process_and_split_nothing _ _ _ _ _ _ Hg Hp).
    rewrite Hing.
    + now rewrite <- !app_assoc.
    + destruct files; [|easy].
      cbn in Hg. now rewrite andb_false_r in Hg.
  - intros names_input clicked rng today s.
    destruct (app_cases names_input files clicked today)
      as (names & pre & Hpre & [Hw|(_ & Hne & _)]); [|easy].
    exists pre. now split.
Qed.






End WithLibrary.
End PageClaims.

(** ** The CSV fragment: writing and reading back *)

Module CsvFacts.
Import PandasCsv.

Local Open Scope list_scope.
Local Open Scope nat_scope.



Lemma free_cons (c x : ascii) (s : string) :
  free c (String x s) <-> x <> c /\ free c s.
Proof. unfold free. cbn. tauto. Qed.

Lemma free_append (c : ascii) (a b : string) :
  free c (a ++ b) <-> free c a /\ free c b.
Proof.
  induction a as [|x a IH]; cbn [append].
  - unfold free at 2. cbn. tauto.
  - rewrite !free_cons, IH. tauto.
Qed.

Lemma split_free (sep : ascii) (s : string) :
  free sep s -> split sep s = [s].
Proof.
  induction s as [|x t IH]; [reflexivity|]. intros H.
  apply free_cons in H as [Hx Ht]. cbn [split].
  destruct (Ascii.eqb_spec x sep) as [->|_]; [easy|]. now rewrite IH.
Qed.

Lemma split_append (sep : ascii) (a b : string) :
  free sep a ->
  split sep (a ++ String sep b) = a :: split sep b.
Proof.
  induction a as [|x t IH]; intros H; cbn [append split].
  - now rewrite Ascii.eqb_refl.
  - apply free_cons in H as [Hx Ht].
    destruct (Ascii.eqb_spec x sep) as [->|_]; [easy|]. now rewrite IH.
Qed.

Lemma split_join (sep : ascii) (l : list string) :
  l <> [] -> Forall (free sep) l -> split sep (join sep l) = l.
Proof.
  unfold join. induction l as [|x t IH]; [easy|]. intros _ Hall.
  inversion Hall as [|? ? Hx Ht]; subst.
  destruct t as [|y t']; [now apply split_free|].
  change (String.concat (String sep EmptyString) (x :: y :: t'))
    with (x ++ String sep (String.concat (String sep EmptyString) (y :: t')))%string.
  rewrite split_append by assumption. f_equal. now apply IH.
Qed.

Lemma free_join (c sep : ascii) (l : list string) :
  c <> sep -> Forall (free c) l -> free c (join sep l).
Proof.
  intros Hne. unfold join. induction l as [|x t IH]; intros Hall.
  - unfold free. now cbn.
  - inversion Hall as [|? ? Hx Ht]; subst.
    destruct t as [|y t']; [exact Hx|].
    change (String.concat (String sep EmptyString) (x :: y :: t'))
      with (x ++ String sep (String.concat (String sep EmptyString) (y :: t')))%string.
    apply free_append. split; [exact Hx|]. apply free_cons. split; [auto|].
    now apply IH.
Qed.

Lemma append_assoc (a b c : string) :
  ((a ++ b) ++ c = a ++ (b ++ c))%string.
Proof. induction a as [|x a IH]; cbn; [reflexivity|now rewrite IH]. Qed.

Lemma concat_lines (ls : list string) :
  String.concat EmptyString (map (fun l => (l ++ nl)%string) ls)
  = fold_right (fun l acc => (l ++ String lf acc)%string) EmptyString ls.
Proof.
  induction ls as [|x t IH]; [reflexivity|].
  cbn [fold_right]. rewrite <- IH. destruct t as [|y t']; [reflexivity|].
  change (map (fun l => (l ++ nl)%string) (x :: y :: t'))
    with ((x ++ nl)%string :: map (fun l => (l ++ nl)%string) (y :: t')).
  set (rest := map _ (y :: t')).
  change (String.concat EmptyString ((x ++ nl)%string :: rest))
    with (match rest with
          | [] => (x ++ nl)%string
          | _ :: _ => ((x ++ nl) ++ String.concat EmptyString rest)%string
          end).
  subst rest. cbn [map]. now rewrite append_assoc.
Qed.

(** The lines of a text of lines without line feeds, each ended by one. *)
Lemma split_lines (ls : list string) :
  Forall (free lf) ls ->
  split lf (fold_right (fun l acc => (l ++ String lf acc)%string)
                       EmptyString ls)
  = ls ++ [EmptyString].
Proof.
  induction 1 as [|x t Hx _ IH]; [reflexivity|].
  cbn [fold_right app]. now rewrite split_append, IH.
Qed.





















Lemma sure_text_nonempty (s : string) :
  sure_text s = true -> s <> EmptyString.
Proof. now destruct s. Qed.
























End CsvFacts.

(** ** The statements on concrete runs *)

Module Runs.
Import Streamlit App Terms PandasCsv.
Import Numpy ShareFacts PageClaims.

Local Open Scope string_scope.
Local Open Scope list_scope.
Local Open Scope nat_scope.

(** C1 as the specification words it fails on four leads for two
    recipients: both shares have [ceil(4 / 2) = 2] rows, and [4 mod 2] is
    0, not 2. *)
Lemma fair_split_as_stated_fails : ~ fair_split_as_stated (leads 4) 2.
Proof.
  intros (shares & E & _ & _ & Hcount).
  vm_compute in E. injection E as <-.
  vm_compute in Hcount. discriminate.
Qed.

Lemma array_split_fair_sizes_witness :
  2 <= 2 /\
  exists shares,
    array_split (leads 5) 2 = Some shares /\
    fair_sizes 5 2 shares /\ within_one shares /\
    count_sized 3 shares = 1 /\ count_sized 2 shares = 1.
Proof.
  assert (H : 2 <= 2) by lia. split; [exact H|].
  destruct (array_split_fair_sizes (leads 5) H)
    as (shares & E & Hf & Hw & H1 & H0 & _).
  exists shares.
  exact (conj E (conj Hf (conj Hw (conj H1 H0)))).
Defined.

Lemma array_split_contiguous_cover_witness :
  2 <= 3 /\
  exists shares,
    array_split (leads 5) 3 = Some shares /\
    flat_map (@rows scalar) shares = rows (leads 5).
Proof.
  assert (H : 2 <= 3) by lia. split; [exact H|].
  destruct (array_split_contiguous_cover (leads 5) H)
    as (shares & d & E & _ & _ & _ & Hcat & _).
  exists shares. exact (conj E Hcat).
Defined.

(** C3 as the specification words it fails on three leads for five
    recipients: the fourth, "Di", is on the page with a notice and with no
    download at all. *)
Lemma empty_shares_get_blobs_fails :
  ~ @empty_shares_get_blobs library (leads 3) five a_day (new_run []).
Proof.
  intros H.
  destruct (H 3 "Di" ltac:(cbn; lia) eq_refl) as (col & fn & key & Hin).
  cbn in Hin.
  repeat (destruct Hin as [Hin|Hin]; [discriminate|]). exact Hin.
Qed.

Lemma five_distinct : NoDup five.
Proof.
  unfold five. repeat constructor; cbn; intuition discriminate.
Defined.

Lemma empty_shares_get_notices_witness :
  (2 <= length five /\ len (leads 3) < length five /\ NoDup five /\
   widget_keys (@new_run library []) = []) /\
  In (write_no_leads 3 "Di")
     (page (snd (@split_and_offer library (leads 3) five a_day (new_run [])))).
Proof.
  assert (H2 : 2 <= length five) by (cbn; lia).
  assert (HT : len (leads 3) < length five) by (cbn; lia).
  split; [repeat split; [exact H2|exact HT|exact five_distinct]|].
  destruct (@empty_shares_get_notices library (leads 3) five a_day
              (new_run []) H2 HT five_distinct eq_refl)
    as (split_dfs & _ & _ & _ & Hlast & _).
  exact (proj2 (Hlast 3 "Di" ltac:(cbn; lia) eq_refl)).
Defined.

Lemma nothing_usable : Forall (@unusable library) [header_only; broken].
Proof. repeat constructor. Defined.

Lemma nothing_parsed_nothing_shared_witness :
  Forall (@unusable library) [header_only; broken] /\
  @process_uploaded_files library [header_only; broken] (new_run [])
  = (Ok DataFrame_new,
     add_page (new_run [])
       (flat_map (@diagnostic library) [header_only; broken]
        ++ [error_no_valid_data])).
Proof.
  split; [exact nothing_usable|].
  apply (proj1 (@nothing_parsed_nothing_shared library
                  [header_only; broken] nothing_usable)).
  discriminate.
Defined.

(** C4 as the specification words it fails on the files [ids] and
    [notes]: the merged frame has both columns, so the column of [ids]
    holds a missing value and becomes a column of floating-point numbers,
    and the number 9007199254740993 of the file is 9007199254740992.0 in
    the merged frame. *)
Lemma merged_as_stated_fails : ~ @merged_as_stated library [ids; notes].
Proof.
  unfold merged_as_stated. intros H.
  assert (Hm : @merged library [ids; notes]
               = {| columns := ["id"; "note"];
                    rows := [[Some (Float 9007199254740992); None];
                             [None; Some (Str "x")]] |})
    by (lazy; reflexivity).
  assert (Hp : @parsed_nonempty library [ids; notes]
               = [{| columns := ["id"];
                     rows := [[Some (Int 9007199254740993)]] |};
                  {| columns := ["note"]; rows := [[Some (Str "x")]] |}])
    by (lazy; reflexivity).
  rewrite Hm, Hp in H. cbn in H.
  inversion H as [|r r' l l' H1 _]; subst.
  specialize (H1 "id"). cbn in H1. discriminate.
Qed.

(** C8 as the specification words it fails on the name "A<tab>B": the
    tab is whitespace and stays in the file name. *)
Lemma filenames_as_stated_fails :
  ~ filenames_as_stated a_day
      (page (snd (@app library tabbed_names [two_leads] false in_order a_day
                       (new_run [])))).
Proof.
  intros H.
  assert (X : exists col who n data fn key,
            In (download_button col who n data fn key)
               (page (snd (@app library tabbed_names [two_leads] false
                                in_order a_day (new_run [])))) /\
            fn <> filename_as_stated a_day who).
  { do 6 eexists. split.
    - cbn. do 6 right. left. reflexivity.
    - cbn. discriminate. }
  destruct X as (col & who & n & data & fn & key & Hin & Hne).
  exact (Hne (H _ _ _ _ _ _ Hin)).
Qed.

Lemma download_file_names_witness :
  exists new,
    page (snd (@app library tabbed_names [two_leads] false in_order a_day
                    (new_run [])))
    = [] ++ new /\
    forall col who n data file_name key,
      In (download_button col who n data file_name key) new ->
      file_name
      = ("leads_" ++ strftime_Ymd a_day ++ "_"
         ++ replace " "%char "_"%char who ++ ".csv")%string.
Proof.
  destruct (proj1 (@download_file_names library a_day)
              tabbed_names [two_leads] false in_order (new_run []))
    as (new & Hp & Hall).
  exists new. split; [exact Hp|].
  intros col who n data file_name key Hin.
  exact (proj1 (Hall col who n data file_name key Hin)).
Defined.






Lemma no_split_data_unreachable_witness :
  exists split_dfs,
    array_split (leads 0) 2 = Some split_dfs /\ length split_dfs = 2.
Proof.
  destruct (proj1 (@no_split_data_unreachable library) (leads 0) 2
              ltac:(lia))
    as (split_dfs & E & Hlen & _).
  exists split_dfs. now split.
Defined.

End Runs.

(* ------------------------------------------------------------------ *)
(** * More of the script *)

(** ** [split], [strip] and the names of section 1 *)

Module StringFacts.
Import PandasCsv Views.

Local Open Scope list_scope.
Local Open Scope nat_scope.

Lemma split_not_nil (sep : ascii) (s : string) : split sep s <> [].
Proof.
  induction s as [|c t IH]; cbn [split]; [easy|].
  destruct (Ascii.eqb c sep); [easy|]. now destruct (split sep t).
Qed.

Lemma split_pieces_free (sep : ascii) (s : string) :
  Forall (free sep) (split sep s).
Proof.
  induction s as [|c t IH]; cbn [split].
  - repeat constructor. intros [].
  - destruct (Ascii.eqb_spec c sep) as [->|Hne].
    + constructor; [intros []|exact IH].
    + destruct (split sep t) as [|h r].
      * repeat constructor. apply CsvFacts.free_cons. split; [exact Hne|].
        intros [].
      * inversion IH as [|? ? Hh Hr]; subst. constructor; [|exact Hr].
        apply CsvFacts.free_cons. now split.
Qed.

Lemma join_cons (sep : ascii) (x y : string) (l : list string) :
  join sep (x :: y :: l) = (x ++ String sep (join sep (y :: l)))%string.
Proof. reflexivity. Qed.

Lemma join_split_id (sep : ascii) (s : string) :
  join sep (split sep s) = s.
Proof.
  induction s as [|c t IH]; [reflexivity|]. cbn [split].
  pose proof (split_not_nil sep t) as Hne.
  destruct (Ascii.eqb_spec c sep) as [->|_].
  - destruct (split sep t) as [|h r]; [easy|].
    rewrite join_cons. cbn [append]. now rewrite IH.
  - destruct (split sep t) as [|h r]; [easy|].
    destruct r as [|h' r'].
    + cbn in IH |- *. now rewrite IH.
    + rewrite join_cons in *. cbn [append]. now rewrite IH.
Qed.

Lemma lstrip_first (s : string) (c : ascii) :
  first_char (lstrip s) = Some c -> isspace c = false.
Proof.
  induction s as [|x t IH]; cbn [lstrip]; [discriminate|].
  destruct (isspace x) eqn:E; [exact IH|]. cbn. now intros [= <-].
Qed.

Lemma lstrip_fixed (s : string) :
  (forall c, first_char s = Some c -> isspace c = false) -> lstrip s = s.
Proof.
  destruct s as [|x t]; [reflexivity|]. intros H. cbn [lstrip].
  now rewrite (H x eq_refl).
Qed.

Lemma lstrip_chars (s : string) (x : ascii) :
  In x (list_ascii_of_string (lstrip s)) -> In x (list_ascii_of_string s).
Proof.
  induction s as [|c t IH]; cbn [lstrip]; [easy|].
  destruct (isspace c); [|easy]. intros H. right. now apply IH.
Qed.

Lemma rstrip_cons (c : ascii) (t : string) :
  rstrip (String c t)
  = match rstrip t with
    | EmptyString => if isspace c then EmptyString else String c EmptyString
    | String d u => String c (String d u)
    end.
Proof. cbn [rstrip]. now destruct (rstrip t). Qed.

Lemma rstrip_first (s : string) (c : ascii) :
  first_char (rstrip s) = Some c -> first_char s = Some c.
Proof.
  destruct s as [|x t]; [easy|]. rewrite rstrip_cons.
  destruct (rstrip t); [destruct (isspace x)|]; cbn; congruence.
Qed.

Lemma rstrip_last (s : string) (c : ascii) :
  last_char (rstrip s) = Some c -> isspace c = false.
Proof.
  induction s as [|x t IH]; [discriminate|]. rewrite rstrip_cons.
  destruct (rstrip t) as [|d u].
  - destruct (isspace x) eqn:E; [discriminate|]. cbn. now intros [= <-].
  - cbn [last_char] in *. destruct (last_char u); exact IH.
Qed.

Lemma last_char_None (s : string) : last_char s = None -> s = EmptyString.
Proof.
  destruct s as [|x t]; [reflexivity|]. cbn. now destruct (last_char t).
Qed.

Lemma rstrip_fixed (s : string) :
  (forall c, last_char s = Some c -> isspace c = false) -> rstrip s = s.
Proof.
  induction s as [|x t IH]; [reflexivity|]. intros H. rewrite rstrip_cons.
  cbn [last_char] in H. destruct (last_char t) as [d|] eqn:E.
  - rewrite IH by exact H. destruct t; [discriminate|reflexivity].
  - apply last_char_None in E. subst t. cbn. now rewrite (H x eq_refl).
Qed.

Lemma rstrip_chars (s : string) (x : ascii) :
  In x (list_ascii_of_string (rstrip s)) -> In x (list_ascii_of_string s).
Proof.
  induction s as [|c t IH]; [easy|]. rewrite rstrip_cons.
  destruct (rstrip t) as [|d u].
  - destruct (isspace c); [easy|]. cbn. tauto.
  - cbn in *. intros [H|H]; [now left|right; now apply IH].
Qed.

Lemma strip_first (s : string) (c : ascii) :
  first_char (strip s) = Some c -> isspace c = false.
Proof. intros H. now apply rstrip_first, lstrip_first in H. Qed.

Lemma strip_last (s : string) (c : ascii) :
  last_char (strip s) = Some c -> isspace c = false.
Proof. apply rstrip_last. Qed.

Lemma strip_fixed (s : string) :
  (forall c, first_char s = Some c -> isspace c = false) ->
  (forall c, last_char s = Some c -> isspace c = false) ->
  strip s = s.
Proof.
  intros Hf Hl. unfold strip. rewrite lstrip_fixed by exact Hf.
  now apply rstrip_fixed.
Qed.

Lemma strip_free (x : ascii) (s : string) : free x s -> free x (strip s).
Proof. intros H Hin. now apply H, lstrip_chars, rstrip_chars. Qed.

End StringFacts.

(** ** Sections 1 and 2, and the condition of section 3 *)

Module InputFacts.
Import Streamlit Streamlit.Notations App Terms Views PandasCsv.
Import ScriptFacts PageFacts StringFacts.
Section WithLibrary.

Context {L : Library}.

Local Open Scope list_scope.
Local Open Scope nat_scope.

Lemma enter_names_exact (names_input : string) :
  writes (enter_names names_input) (handed_on names_input)
         (names_page names_input).
Proof.
  unfold enter_names, handed_on, names_page. fold (entered names_input).
  destruct (entered names_input) as [|n1 rest] eqn:E.
  - apply writes_ret.
  - cbn [truthy]. apply writes_st_bind.
    destruct (length (n1 :: rest) <? 2).
    + apply writes_st_bind, writes_ret.
    + apply writes_ret.
Qed.

Lemma check_uploads_exact (files : list UploadedFile) :
  writes (check_uploads files) (valid_count files) (uploads_page files).
Proof.
  unfold check_uploads, valid_count, uploads_page.
  destruct files as [|f rest]; [apply writes_ret|]. cbn [truthy].
  destruct (Nat.ltb_spec 10 (length (f :: rest))) as [H|H].
  - replace (_ && _) with false.
    + apply writes_st_bind, writes_ret.
    + symmetry. apply andb_false_iff. right. apply Nat.leb_gt. exact H.
  - replace (_ && _) with true.
    + apply writes_st_bind, writes_ret.
    + symmetry. apply andb_true_iff. split; apply Nat.leb_le; cbn in *; lia.
Qed.

Lemma app_unfold (names_input : string) (files : list UploadedFile)
    (clicked : bool) (rng : nat -> list nat) (today : date) (s : session) :
  app names_input files clicked rng today s
  = process_and_split (handed_on names_input) files (valid_count files)
      clicked rng today
      (add_page s (names_page names_input ++ uploads_page files)).
Proof.
  unfold app, bind. rewrite enter_names_exact, check_uploads_exact.
  now rewrite add_page_app.
Qed.

Lemma writes_ret_bind (A B : Type) (a : A) (k : A -> M B) (b : B)
    (els : list element) :
  writes (k a) b els -> writes (bind (ret a) k) b els.
Proof. intros Hk s. unfold bind, ret. apply Hk. Qed.

Lemma process_and_split_closed_exact (names : list string)
    (files : list UploadedFile) (valid clicked : bool)
    (rng : nat -> list nat) (today : date) :
  truthy names && truthy files && valid = false ->
  writes (process_and_split names files valid clicked rng today) tt
         (closed_page names files valid clicked).
Proof.
  intros Hg. unfold process_and_split, closed_page. rewrite Hg.
  apply writes_st_bind. destruct clicked; [|apply writes_ret].
  destruct (truthy names); cbn [negb app].
  - apply writes_ret_bind.
    destruct (truthy files); cbn [negb]; [|apply writes_st].
    destruct valid; cbn [negb]; [apply writes_ret|apply writes_st].
  - apply writes_st_bind.
    destruct (truthy files); cbn [negb]; [|apply writes_st].
    destruct valid; cbn [negb]; [apply writes_ret|apply writes_st].
Qed.

Lemma entered_names_sound (names_input : string) :
  Forall (fun n =>
            n <> EmptyString /\ free "010"%char n /\
            (forall c, first_char n = Some c -> isspace c = false) /\
            (forall c, last_char n = Some c -> isspace c = false) /\
            strip n = n)
         (entered names_input).
Proof.
  unfold entered. apply Forall_forall. intros n Hn.
  apply in_map_iff in Hn as (line & <- & Hl).
  apply filter_In in Hl as [Hl Hne].
  pose proof (split_pieces_free "010"%char names_input) as Hfree.
  rewrite Forall_forall in Hfree.
  split; [now destruct (strip line)|].
  split; [apply strip_free, Hfree, Hl|].
  split; [apply strip_first|]. split; [apply strip_last|].
  apply strip_fixed; [apply strip_first|apply strip_last].
Qed.

(** X1.  Section 1 hands on either no name or at least two.  The names are
    the lines of the text area, stripped, the blank ones left out: none is
    empty, none has a line feed, none starts or ends with whitespace, and
    stripping one again changes nothing.  The error about two names is on
    the page exactly when one name was entered, and that name is then
    dropped. *)
Theorem names_handed_on (names_input : string) (s : session) :
  exists names els,
    enter_names names_input s = (Ok names, add_page s els) /\
    (names = entered names_input /\ 2 <= length names \/
     names = [] /\ length (entered names_input) < 2) /\
    (In error_at_least_2_names els <-> length (entered names_input) = 1) /\
    Forall (fun n =>
              n <> EmptyString /\ free "010"%char n /\
              (forall c, first_char n = Some c -> isspace c = false) /\
              (forall c, last_char n = Some c -> isspace c = false) /\
              strip n = n)
           (entered names_input).
Proof.
  exists (handed_on names_input), (names_page names_input).
  split; [apply enter_names_exact|]. split; [|split].
  - unfold handed_on.
    destruct (Nat.ltb_spec (length (entered names_input)) 2); [right|left];
      now split.
  - unfold names_page. destruct (entered names_input) as [|a [|b t]]; cbn.
    + split; [tauto|discriminate].
    + split; [reflexivity|]. intros _. right. now left.
    + split; [|discriminate]. intros [H|[]]. discriminate.
  - apply entered_names_sound.
Qed.

(** X2.  Splitting the text of the names at the line feeds loses nothing:
    there is always at least one line, no line has a line feed, and the
    lines joined by line feeds are the text again. *)
Theorem lines_of_the_names (names_input : string) :
  split "010"%char names_input <> [] /\
  Forall (free "010"%char) (split "010"%char names_input) /\
  join "010"%char (split "010"%char names_input) = names_input.
Proof.
  split; [apply split_not_nil|]. split; [apply split_pieces_free|].
  apply join_split_id.
Qed.

End WithLibrary.
End InputFacts.

(** ** Which branch of section 3 runs *)

Module BranchFacts.
Import Streamlit Streamlit.Notations App Terms Views PandasCsv.
Import ScriptFacts PageFacts LoopFacts SplitFacts PageClaims InputFacts.
Section WithLibrary.

Context {L : Library}.

Local Open Scope list_scope.
Local Open Scope nat_scope.

(** What the split puts on the page: the subheader, then elements for
    recipients, each in the column of its position. *)
Lemma split_and_offer_page (shuffled_df : DataFrame value)
    (names : list string) (today : date) (s : session) :
  exists new,
    page (snd (split_and_offer shuffled_df names today s)) = page s ++ new /\
    Forall (fun e =>
              e = subheader_download \/
              exists split_dfs data j who,
                length split_dfs = length names /\
                nth_error names j = Some who /\
                e = offer split_dfs (min (length names) 4)
                          (strftime_Ymd today) data j who)
           new.
Proof.
  destruct names as [|n1 rest].
  - exists []. split; [|constructor]. unfold split_and_offer. cbn.
    now rewrite app_nil_r.
  - destruct (@split_and_offer_loop _ shuffled_df (n1 :: rest) today s
                ltac:(easy)) as (split_dfs & _ & [Hlen _] & ->).
    destruct (for_names_run split_dfs (min (length (n1 :: rest)) 4)
                (strftime_Ymd today) (n1 :: rest) 0
                (add_page s [subheader_download]))
      as (k & _ & Hp & _).
    cbv zeta in Hp. rewrite Hp. cbn [add_page page cache_data].
    eexists. split; [rewrite <- app_assoc; reflexivity|].
    apply Forall_app. split; [repeat constructor|].
    apply Forall_forall. intros e He. apply In_firstn in He.
    apply In_offers in He as (j & who & _ & Hn & ->). right.
    rewrite Nat.sub_0_r in Hn.
    now exists split_dfs, (cached (cache_data s)), j, who.
Qed.

Lemma offer_stage (split_dfs : list (DataFrame value)) (n_cols : nat)
    (today_str : string) (data : nat -> DataFrame value -> bytes) (j : nat)
    (who : string) :
  stage (offer split_dfs n_cols today_str data j who) = 3.
Proof.
  unfold offer. destruct (j <? length split_dfs); [|reflexivity].
  now destruct (negb _).
Qed.

Lemma ingest_page_stage (files : list UploadedFile) :
  Forall (fun e => stage e = 3) (ingest_page files).
Proof.
  unfold ingest_page. apply Forall_app. split.
  - apply Forall_forall. intros e He.
    apply in_flat_map in He as (f & _ & He). unfold diagnostic in He.
    destruct (read_uploaded_file f) as [x|df].
    + now destruct He as [<-|[]].
    + destruct (empty df); [now destruct He as [<-|[]]|easy].
  - destruct files; [constructor|].
    destruct (parsed_nonempty _); repeat constructor.
Qed.

Lemma prelude_stage (names : list string) (files : list UploadedFile) :
  exists rest, prelude names files = info_processing :: rest /\
               Forall (fun e => stage e = 3) rest.
Proof.
  unfold prelude. eexists. split; [reflexivity|].
  apply Forall_app; split; [apply ingest_page_stage|].
  apply Forall_app; split; [repeat constructor|].
  apply Forall_app; split; [|repeat constructor].
  destruct (_ <? _); repeat constructor.
Qed.

(** With names, files and a valid count, section 3 starts with the
    processing notice and shows elements of the processing only. *)
Lemma process_and_split_open_page (names : list string)
    (files : list UploadedFile) (valid clicked : bool)
    (rng : nat -> list nat) (today : date) (s : session) :
  truthy names && truthy files && valid = true ->
  exists rest,
    page (snd (process_and_split names files valid clicked rng today s))
    = page s ++ info_processing :: rest /\
    Forall (fun e => stage e = 3) rest.
Proof.
  intros Hg. destruct (parsed_nonempty files) as [|d t] eqn:Hd.
  - rewrite (process_and_split_nothing _ _ _ _ _ _ Hg Hd).
    eexists. split; [reflexivity|].
    apply Forall_app; split; [apply ingest_page_stage|repeat constructor].
  - rewrite process_and_split_open by (auto; now rewrite Hd).
    destruct (split_and_offer_page
                (sample_all (rng (len (merged files))) (merged files))
                names today (add_page s (prelude names files)))
      as (new & -> & Hnew).
    destruct (prelude_stage names files) as (rest & -> & Hrest).
    cbn [add_page page]. eexists.
    split; [rewrite <- app_assoc; reflexivity|].
    apply Forall_app. split; [exact Hrest|].
    eapply Forall_impl; [|exact Hnew].
    intros e [->|(sp & dt & j & w & _ & _ & ->)];
      [reflexivity|apply offer_stage].
Qed.

Lemma ready_condition (names_input : string) (files : list UploadedFile) :
  truthy (handed_on names_input) && truthy files && valid_count files
  = (2 <=? length (entered names_input)) && valid_count files.
Proof.
  unfold handed_on, valid_count.
  destruct (Nat.ltb_spec (length (entered names_input)) 2) as [H|H].
  - replace (2 <=? _) with false by (symmetry; apply Nat.leb_gt; lia).
    reflexivity.
  - replace (2 <=? _) with true by (symmetry; apply Nat.leb_le; lia).
    destruct (entered names_input) as [|a t]; [cbn in H; lia|].
    destruct files; reflexivity.
Qed.

Lemma names_page_stage (names_input : string) :
  Forall (fun e => stage e = 1) (names_page names_input).
Proof.
  unfold names_page. destruct (entered names_input); [constructor|].
  destruct (_ <? _); repeat constructor.
Qed.

Lemma uploads_page_stage (files : list UploadedFile) :
  Forall (fun e => stage e = 2) (uploads_page files).
Proof.
  unfold uploads_page. destruct files; [constructor|].
  destruct (_ <? _); repeat constructor.
Qed.

Lemma not_of_stage (n : nat) (l : list element) :
  Forall (fun x => stage x = n) l ->
  forall e, stage e <> n -> ~ In e l.
Proof.
  intros Hall e Hne Hin. rewrite Forall_forall in Hall.
  now apply Hne, Hall.
Qed.

(** X3.  A run reads the uploaded files exactly when at least two names
    were entered and between one and ten files were uploaded.  Otherwise
    it shows the "Process Leads" button and returns without touching the
    keys or the cache; a click on the button then reports the missing
    names exactly when fewer than two were entered, the missing upload
    exactly when no file was uploaded, and too many files exactly when more
    than ten were. *)
Theorem files_are_read_when_ready (names_input : string)
    (files : list UploadedFile) (clicked : bool) (rng : nat -> list nat)
    (today : date) (s : session) :
  exists new,
    page (snd (app names_input files clicked rng today s)) = page s ++ new /\
    (In info_processing new <->
     2 <= length (entered names_input) /\ 1 <= length files <= 10) /\
    (In button_process_leads new <->
     ~ (2 <= length (entered names_input) /\ 1 <= length files <= 10)) /\
    (In error_enter_names new <->
     clicked = true /\ length (entered names_input) < 2) /\
    (In error_upload_file new <-> clicked = true /\ files = []) /\
    (In error_too_many_files new <->
     clicked = true /\ 10 < length files) /\
    (In button_process_leads new ->
     app names_input files clicked rng today s = (Ok tt, add_page s new)).
Proof.
  rewrite app_unfold.
  pose proof (ready_condition names_input files) as Hready.
  pose proof (names_page_stage names_input) as H1.
  pose proof (uploads_page_stage files) as H2.
  assert (Hv : valid_count files = true <-> 1 <= length files <= 10).
  { unfold valid_count. rewrite andb_true_iff, !Nat.leb_le. tauto. }
  assert (Hn : (2 <=? length (entered names_input)) = true
               <-> 2 <= length (entered names_input)) by apply Nat.leb_le.
  destruct (truthy (handed_on names_input) && truthy files
            && valid_count files) eqn:Hg.
  - symmetry in Hready. apply andb_true_iff in Hready as [Hr1 Hr2].
    apply Hn in Hr1. apply Hv in Hr2.
    destruct (process_and_split_open_page _ _ _ clicked rng today
                (add_page s (names_page names_input ++ uploads_page files))
                Hg) as (rest & -> & H3).
    cbn [add_page page]. eexists.
    split; [rewrite <- !app_assoc; reflexivity|].
    assert (Hout : forall e, stage e = 4 ->
              ~ In e (names_page names_input
                      ++ uploads_page files ++ info_processing :: rest)).
    { intros e He Hin. apply in_app_or in Hin as [Hin|Hin].
      - revert Hin. apply (not_of_stage H1). lia.
      - apply in_app_or in Hin as [Hin|[<-|Hin]].
        + revert Hin. apply (not_of_stage H2). lia.
        + discriminate.
        + revert Hin. apply (not_of_stage H3). lia. }
    split; [|split; [|split; [|split; [|split]]]].
    + split; [intros _; now split|intros _].
      apply in_or_app. right. apply in_or_app. right. now left.
    + split; [intros Hin; exfalso; revert Hin; now apply Hout|].
      intros Hno. exfalso. now apply Hno.
    + split; [intros Hin; exfalso; revert Hin; now apply Hout|].
      intros [_ Hlt]. lia.
    + split; [intros Hin; exfalso; revert Hin; now apply Hout|].
      intros [_ ->]. cbn in Hr2. lia.
    + split; [intros Hin; exfalso; revert Hin; now apply Hout|].
      intros [_ Hlt]. lia.
    + intros Hin; exfalso; revert Hin; now apply Hout.
  - rewrite (process_and_split_closed_exact _ _ _ clicked rng today Hg).
    cbn [snd fst add_page page]. eexists.
    split; [rewrite <- !app_assoc; reflexivity|].
    assert (Hnot : ~ (2 <= length (entered names_input)
                      /\ 1 <= length files <= 10)).
    { intros [Ha Hb]. apply Hn in Ha. apply Hv in Hb.
      rewrite Ha, Hb in Hready. discriminate. }
    assert (Hin4 : forall e, stage e = 4 ->
              (In e (names_page names_input ++ uploads_page files
                     ++ closed_page (handed_on names_input) files
                          (valid_count files) clicked)
               <-> In e (closed_page (handed_on names_input) files
                           (valid_count files) clicked))).
    { intros e He. rewrite !in_app_iff. split; [|tauto].
      intros [Hin|[Hin|Hin]]; [| |exact Hin]; exfalso; revert Hin.
      - apply (not_of_stage H1). lia.
      - apply (not_of_stage H2). lia. }
    assert (Htn : truthy (handed_on names_input) = true
                  <-> 2 <= length (entered names_input)).
    { unfold handed_on.
      destruct (Nat.ltb_spec (length (entered names_input)) 2) as [H|H].
      - split; [discriminate|lia].
      - split; [intros _; exact H|intros _].
        destruct (entered names_input); [cbn in H; lia|reflexivity]. }
    split; [|split; [|split; [|split; [|split]]]].
    + split; [|tauto]. intros Hin. exfalso.
      apply in_app_or in Hin as [Hin|Hin];
        [revert Hin; apply (not_of_stage H1); cbn; lia|].
      apply in_app_or in Hin as [Hin|Hin];
        [revert Hin; apply (not_of_stage H2); cbn; lia|].
      unfold closed_page in Hin. destruct Hin as [Hin|Hin]; [discriminate|].
      destruct clicked; [|easy].
      destruct (truthy (handed_on names_input)), (truthy files),
        (valid_count files); cbn in Hin; intuition discriminate.
    + split; [tauto|]. intros _. apply Hin4; [reflexivity|]. now left.
    + rewrite Hin4 by reflexivity. unfold closed_page.
      destruct clicked; cbn [In].
      * destruct (truthy (handed_on names_input)).
        -- pose proof (proj1 Htn eq_refl) as Et. split; [|lia].
           intros [Hx|Hx]; [discriminate|]. exfalso. cbn [app] in Hx.
           destruct (truthy files), (valid_count files); cbn in Hx;
             intuition discriminate.
        -- split; [intros _|intros _; right; now left].
           split; [reflexivity|].
           destruct (Nat.lt_ge_cases (length (entered names_input)) 2)
             as [|Hge]; [assumption|].
           apply Htn in Hge. discriminate.
      * split; [intros [Hx|[]]; discriminate|intros [Hx _]; discriminate].
    + rewrite Hin4 by reflexivity. unfold closed_page.
      destruct clicked; cbn [In].
      * destruct files as [|f rest]; cbn [truthy].
        -- split; [auto|]. intros _. right. apply in_or_app. right. now left.
        -- split; [|intros [_ Hx]; discriminate].
           intros [Hx|Hx]; [discriminate|]. exfalso.
           destruct (truthy (handed_on names_input)),
             (valid_count (f :: rest)); cbn in Hx; intuition discriminate.
      * split; [intros [Hx|[]]; discriminate|intros [Hx _]; discriminate].
    + rewrite Hin4 by reflexivity. unfold closed_page.
      destruct clicked; cbn [In].
      * destruct files as [|f rest]; cbn [truthy].
        -- split; [|intros [_ Hx]; cbn in Hx; lia].
           intros [Hx|Hx]; [discriminate|]. exfalso.
           destruct (truthy (handed_on names_input)); cbn in Hx;
             intuition discriminate.
        -- destruct (valid_count (f :: rest)).
           ++ pose proof (proj1 Hv eq_refl) as Ev.
              split; [|intros [_ Hx]; lia].
              intros [Hx|Hx]; [discriminate|]. exfalso.
              destruct (truthy (handed_on names_input)); cbn in Hx;
                intuition discriminate.
           ++ split; [intros _|intros _; right; apply in_or_app; right;
                               now left].
              split; [reflexivity|].
              destruct (Nat.lt_ge_cases 10 (length (f :: rest)))
                as [|Hge]; [assumption|].
              assert (Hx : false = true) by (apply Hv; cbn in *; lia).
              discriminate.
      * split; [intros [Hx|[]]; discriminate|intros [Hx _]; discriminate].
    + intros _. unfold add_page. cbn [page widget_keys cache_data].
      now rewrite <- !app_assoc.
Qed.

End WithLibrary.
End BranchFacts.

(** ** What the merge keeps *)

Module MergeFacts.
Import Streamlit Streamlit.Notations App Terms Views.
Import PandasFacts ScriptFacts PageFacts.
Section WithLibrary.

Context {L : Library}.

Local Open Scope list_scope.
Local Open Scope nat_scope.

Lemma kept_or_reported (f : UploadedFile) :
  length (parsed_nonempty [f]) + length (diagnostic f) = 1.
Proof.
  unfold parsed_nonempty, diagnostic. cbn [flat_map].
  destruct (read_uploaded_file f) as [e|df]; [reflexivity|].
  now destruct (empty df).
Qed.

Lemma parsed_nonempty_cons (f : UploadedFile) (rest : list UploadedFile) :
  parsed_nonempty (f :: rest) = parsed_nonempty [f] ++ parsed_nonempty rest.
Proof.
  unfold parsed_nonempty. cbn [flat_map]. now rewrite app_nil_r.
Qed.

Lemma kept_and_reported (files : list UploadedFile) :
  length (parsed_nonempty files) + length (flat_map diagnostic files)
  = length files.
Proof.
  induction files as [|f rest IH]; [reflexivity|].
  rewrite parsed_nonempty_cons. cbn [flat_map length].
  rewrite !length_app. pose proof (kept_or_reported f). lia.
Qed.

Lemma failing_are_reported (files : list UploadedFile) :
  length (filter fails files) <= length (flat_map diagnostic files).
Proof.
  induction files as [|f rest IH]; [reflexivity|].
  cbn [filter flat_map]. rewrite length_app. unfold fails at 1, diagnostic at 1.
  destruct (read_uploaded_file f) as [e|df]; cbn [length]; [lia|].
  destruct (empty df); cbn [length]; lia.
Qed.

(** X4.  The loop over the uploaded files keeps or reports every file:
    from an empty start the frames it keeps and the messages it puts on
    the page are together as many as the files, no kept frame is empty,
    and the names in [error_files] are no more than the messages. *)
Theorem every_file_kept_or_reported (files : list UploadedFile)
    (s : session) :
  exists kept errs new,
    read_files files [] [] s = (Ok (kept, errs), add_page s new) /\
    length kept + length new = length files /\
    length errs <= length new /\
    Forall (fun df => empty df = false) kept.
Proof.
  exists (parsed_nonempty files), (map name (filter fails files)),
         (flat_map diagnostic files).
  split; [apply (read_files_writes files [] [])|].
  split; [apply kept_and_reported|]. split.
  - rewrite length_map. apply failing_are_reported.
  - apply Forall_forall. apply parsed_nonempty_not_empty.
Qed.

Lemma parsed_nil_unusable (files : list UploadedFile) :
  parsed_nonempty files = [] <-> Forall unusable files.
Proof.
  split.
  - induction files as [|f rest IH]; [constructor|].
    rewrite parsed_nonempty_cons. intros H.
    apply app_eq_nil in H as [Hf Hrest]. constructor; [|now apply IH].
    unfold unusable. unfold parsed_nonempty in Hf. cbn [flat_map] in Hf.
    destruct (read_uploaded_file f) as [e|df]; [exact I|].
    now destruct (empty df).
  - induction 1 as [|f rest Hf _ IH]; [reflexivity|].
    rewrite parsed_nonempty_cons, IH, app_nil_r.
    unfold unusable in Hf. unfold parsed_nonempty. cbn [flat_map].
    destruct (read_uploaded_file f) as [e|df]; [reflexivity|].
    now rewrite Hf.
Qed.

Lemma no_valid_data_is_no_diagnostic (files : list UploadedFile) :
  ~ In error_no_valid_data (flat_map diagnostic files).
Proof.
  intros H. apply in_flat_map in H as (f & _ & H). unfold diagnostic in H.
  destruct (read_uploaded_file f) as [e|df].
  - now destruct H as [H|[]].
  - destruct (empty df); [now destruct H as [H|[]]|easy].
Qed.

(** X5.  [process_uploaded_files] returns an empty frame exactly when no
    uploaded file parses to a frame with rows, and it puts "No valid lead
    data found" on the page exactly when, besides, some file was
    uploaded. *)
Theorem empty_result_means_nothing_usable (files : list UploadedFile)
    (s : session) :
  exists df els,
    process_uploaded_files files s = (Ok df, add_page s els) /\
    (empty df = true <-> Forall unusable files) /\
    (In error_no_valid_data els <-> files <> [] /\ Forall unusable files).
Proof.
  exists (merged files), (ingest_page files).
  split; [apply process_uploaded_files_writes|].
  rewrite <- parsed_nil_unusable. split.
  - rewrite merged_empty. now destruct (parsed_nonempty files).
  - unfold ingest_page. rewrite in_app_iff.
    pose proof (no_valid_data_is_no_diagnostic files) as Hno.
    destruct files as [|f rest].
    + cbn. split; [intros [[]|[]]|]. intros [H _]. now destruct H.
    + destruct (parsed_nonempty (f :: rest)) as [|d t].
      * split; [now split|intros _; right; now left].
      * split; [|intros [_ H]; discriminate]. intros [H|[]]. tauto.
Qed.

Lemma concat_len (objs : list (DataFrame value)) :
  len (concat astype_common objs) = list_sum (map (@len value) objs).
Proof.
  unfold concat, len at 1. cbn [rows].
  generalize (astype_common objs), (combined_columns objs). intros cast cols.
  induction objs as [|d t IH]; [reflexivity|].
  cbn [flat_map map]. rewrite length_app, reindex_length, IH. reflexivity.
Qed.

Lemma concat_columns (objs : list (DataFrame value)) (c : string) :
  In c (columns (concat astype_common objs))
  <-> exists df, In df objs /\ In c (columns df).
Proof.
  unfold concat. cbn [columns]. destruct objs as [|d t].
  - cbn. split; [easy|]. now intros (df & [] & _).
  - cbn [combined_columns]. destruct (forallb _ t) eqn:E.
    + split.
      * intros H. exists d. split; [now left|exact H].
      * intros (df & [<-|Hin] & Hc); [exact Hc|].
        rewrite forallb_forall in E. apply E, columns_eqb_eq in Hin.
        now rewrite <- Hin.
    + rewrite In_unique, in_flat_map. reflexivity.
Qed.

Lemma concat_single (df : DataFrame value) :
  concat astype_common [df] = df.
Proof.
  unfold concat. cbn [combined_columns forallb flat_map].
  unfold reindex. replace (columns_eqb (columns df) (columns df)) with true
    by (symmetry; now apply columns_eqb_eq).
  rewrite app_nil_r. destruct df as [cols rs]. cbn [columns rows]. f_equal.
  transitivity (map (fun r : list (cell value) => r) rs); [|apply map_id].
  apply map_ext. intros r.
  rewrite (cast_cells_ext _ (fun _ x => x) cols r
             (fun c x => astype_common_one {| columns := cols; rows := rs |}
                                           c x)).
  apply cast_cells_id.
Qed.

(** X6.  The frame that [process_uploaded_files] returns has as many rows
    as the usable files have together, and this is the number of leads
    that the success message of section 3 shows, beside the number of
    uploaded files, whenever some file is usable. *)
Theorem combined_total_is_the_sum (files : list UploadedFile) :
  (forall s,
     exists df s',
       process_uploaded_files files s = (Ok df, s') /\
       len df = list_sum (map (@len value) (parsed_nonempty files))) /\
  (forall names valid clicked rng today s,
     truthy names && truthy files && valid = true ->
     parsed_nonempty files <> [] ->
     In (success_combined
           (list_sum (map (@len value) (parsed_nonempty files)))
           (length files))
        (page (snd (process_and_split names files valid clicked rng today
                                      s)))).
Proof.
  assert (Hlen : len (merged files)
                 = list_sum (map (@len value) (parsed_nonempty files))).
  { unfold merged. destruct (parsed_nonempty files) as [|d t] eqn:E;
      [reflexivity|]. apply concat_len. }
  split.
  - intros s. exists (merged files), (add_page s (ingest_page files)).
    split; [apply process_uploaded_files_writes|exact Hlen].
  - intros names valid clicked rng today s Hg Hne.
    rewrite process_and_split_open by assumption.
    destruct (BranchFacts.split_and_offer_page
                (sample_all (rng (len (merged files))) (merged files))
                names today (add_page s (prelude names files)))
      as (new & -> & _).
    cbn [add_page page]. apply in_or_app. left. apply in_or_app. right.
    unfold prelude. rewrite Hlen. apply in_or_app. right.
    apply in_or_app. right. now left.
Qed.

(** X7.  The merged frame has a column for every label of every usable
    file and no other column: a label is one of its columns exactly when
    it is a column of some usable file. *)
Theorem merged_columns_are_the_union (files : list UploadedFile)
    (c : string) :
  In c (columns (merged files))
  <-> exists df, In df (parsed_nonempty files) /\ In c (columns df).
Proof.
  unfold merged. destruct (parsed_nonempty files) as [|d t] eqn:E.
  - cbn. split; [easy|]. now intros (df & [] & _).
  - apply concat_columns.
Qed.

(** X8.  When exactly one of the uploaded files is usable,
    [process_uploaded_files] returns the frame of that file as it was
    parsed, with its columns in their order and its rows in theirs. *)
Theorem one_usable_file_is_returned (files : list UploadedFile)
    (df : DataFrame value) (s : session) :
  parsed_nonempty files = [df] ->
  process_uploaded_files files s = (Ok df, add_page s (ingest_page files)).
Proof.
  intros H. rewrite process_uploaded_files_writes. unfold merged.
  now rewrite H, concat_single.
Qed.

End WithLibrary.
End MergeFacts.

(** ** The loop over the recipients *)

Module OfferFacts.
Import Streamlit Streamlit.Notations App Terms Views.
Import Numpy NumpyFacts ShareFacts PandasFacts ScriptFacts PageFacts.
Import LoopFacts SplitFacts PageClaims InputFacts BranchFacts MergeFacts.
Section WithLibrary.

Context {L : Library}.

Local Open Scope list_scope.
Local Open Scope nat_scope.

Implicit Types (split_dfs : list (DataFrame value)) (s : session).

Lemma button_key_cases split_dfs (i : nat) (who : string) :
  button_key split_dfs i who = [] \/
  button_key split_dfs i who = [("download_" ++ who)%string].
Proof. unfold button_key. destruct (_ && _); auto. Qed.

Lemma button_keys_cons split_dfs (i : nat) (who : string)
    (rest : list string) :
  button_keys split_dfs i (who :: rest)
  = button_key split_dfs i who ++ button_keys split_dfs (S i) rest.
Proof. unfold button_keys. now rewrite enumerate_cons. Qed.

(** The loop ends normally exactly when the keys it needs are fresh and
    distinct; it raises on a key it needs otherwise. *)
Lemma for_names_outcome split_dfs (n_cols : nat) (today_str : string)
    (names : list string) :
  forall i s,
    NoDup (widget_keys s) ->
    let r := for_names split_dfs n_cols today_str i names s in
    (fst r = Ok tt /\
     NoDup (widget_keys s ++ button_keys split_dfs i names))
    \/
    (exists key,
       fst r = Raise (DuplicateWidgetID key) /\
       In key (button_keys split_dfs i names) /\
       ~ NoDup (widget_keys s ++ button_keys split_dfs i names)).
Proof.
  induction names as [|who rest IH]; intros i s Hnd r; subst r.
  - left. cbn. rewrite app_nil_r. auto.
  - cbn [for_names]. unfold bind. rewrite button_keys_cons.
    pose proof (for_name_run split_dfs n_cols today_str i who s) as Hstep.
    cbv zeta in Hstep.
    destruct (for_name split_dfs n_cols today_str i who s) as [[[]|e] s1];
      cbn [fst snd] in Hstep |- *.
    + destruct Hstep as (_ & _ & [(_ & _ & Hk & Hfresh)|(key & Hr & _)]);
        [|easy].
      assert (Hnd1 : NoDup (widget_keys s1)).
      { rewrite Hk. apply NoDup_app; [exact Hnd| |].
        - destruct (button_key_cases split_dfs i who) as [->| ->];
            repeat constructor. easy.
        - intros a Ha Hb. exact (Hfresh a Hb Ha). }
      destruct (IH (S i) s1 Hnd1) as [[Hr Hn]|(key & Hr & Hin & Hn)].
      * left. split; [exact Hr|]. rewrite Hk, <- app_assoc in Hn. exact Hn.
      * right. exists key. split; [exact Hr|].
        split; [apply in_or_app; now right|].
        rewrite Hk, <- app_assoc in Hn. exact Hn.
    + destruct Hstep as (_ & _ & [(Hr & _)|(key & Hr & Hkey & Hin & _)]);
        [easy|].
      right. exists key. split; [exact Hr|].
      split; [apply in_or_app; now left|].
      intros Hn. apply (NoDup_app_disjoint _ _ key Hn Hin).
      apply in_or_app. now left.
Qed.

Lemma share_columns (df : DataFrame value) (N : nat) split_dfs :
  0 < N -> array_split df N = Some split_dfs ->
  forall j, j < N -> columns (nth j split_dfs DataFrame_new) = columns df.
Proof.
  intros HN E j Hj. rewrite frame_split_div_points in E by assumption.
  injection E as <-. now rewrite nth_map_seq.
Qed.

Lemma shares_rows (df : DataFrame value) (N : nat) split_dfs :
  0 < N -> array_split df N = Some split_dfs ->
  flat_map (@rows value) split_dfs = rows df.
Proof.
  intros HN E. rewrite frame_split_div_points in E by assumption.
  injection E as <-. rewrite flat_map_concat_map, map_map.
  cbn [rows iloc_slice].
  rewrite (@concat_slices _ (rows df) (div_point (len df) N) N).
  - rewrite div_point_last by lia. apply firstn_all.
  - reflexivity.
  - intros i _. apply div_point_mono. lia.
Qed.

(** With at least as many rows as recipients no share of a frame with
    columns is empty. *)
Lemma share_not_empty (df : DataFrame value) (N : nat) split_dfs :
  0 < N -> array_split df N = Some split_dfs ->
  empty df = false -> N <= len df ->
  forall j, j < N -> empty (nth j split_dfs DataFrame_new) = false.
Proof.
  intros HN E He HT j Hj.
  pose proof (@share_columns df N split_dfs HN E j Hj) as Hc.
  rewrite frame_split_div_points in E by assumption. injection E as <-.
  pose proof (shares_fair_sizes df HN) as [_ Hsz]. specialize (Hsz j Hj).
  unfold empty in *. rewrite Hc. apply orb_false_iff in He as [He _].
  rewrite He. cbn [orb]. apply Nat.eqb_neq.
  assert (0 < len df / N) by (apply Nat.div_str_pos; lia).
  destruct (j <? len df mod N); unfold len in *; lia.
Qed.

Lemma button_keys_all split_dfs (names : list string) :
  forall i,
    (forall j, i <= j < i + length names ->
               j < length split_dfs /\
               empty (nth j split_dfs DataFrame_new) = false) ->
    button_keys split_dfs i names
    = map (fun who => ("download_" ++ who)%string) names.
Proof.
  induction names as [|who rest IH]; intros i H; [reflexivity|].
  rewrite button_keys_cons. cbn [map]. rewrite IH.
  - unfold button_key. destruct (H i) as [Hi He]; [cbn; lia|].
    apply Nat.ltb_lt in Hi. now rewrite Hi, He.
  - intros j Hj. apply H. cbn. lia.
Qed.

(** The outcome of the splitting logic on one or more names, with no
    widget key taken. *)
Lemma split_and_offer_outcome (shuffled_df : DataFrame value)
    (names : list string) (today : date) (s : session) :
  names <> [] -> widget_keys s = [] ->
  exists split_dfs,
    array_split shuffled_df (length names) = Some split_dfs /\
    (fst (split_and_offer shuffled_df names today s) = Ok tt
     <-> NoDup (button_keys split_dfs 0 names)) /\
    (fst (split_and_offer shuffled_df names today s) = Ok tt \/
     exists who,
       In who names /\
       fst (split_and_offer shuffled_df names today s)
       = Raise (DuplicateWidgetID ("download_" ++ who)%string)).
Proof.
  intros Hne Hkeys.
  destruct (@split_and_offer_loop _ shuffled_df names today s Hne)
    as (split_dfs & E & _ & ->).
  exists split_dfs. split; [exact E|].
  pose proof (for_names_outcome split_dfs (min (length names) 4)
                (strftime_Ymd today) names 0
                (add_page s [subheader_download])) as Hout.
  cbn [add_page widget_keys] in Hout. rewrite Hkeys in Hout.
  specialize (Hout (NoDup_nil _)). cbv zeta in Hout. cbn [app] in Hout.
  set (r := for_names split_dfs (min (length names) 4) (strftime_Ymd today)
                      0 names (add_page s [subheader_download])) in *.
  split.
  - destruct Hout as [[Hr Hn]|(key & Hr & _ & Hn)].
    + now split.
    + split; [rewrite Hr; discriminate|easy].
  - destruct Hout as [[Hr _]|(key & Hr & Hin & _)]; [now left|right].
    apply In_button_keys in Hin as (who & Hin & ->). now exists who.
Qed.

(** X9.  From a frame and one or more names, with no widget key taken,
    the splitting logic ends normally exactly when the names that get a
    non-empty share need distinct keys; otherwise it stops with
    DuplicateWidgetID for the key of one of the names.  Distinct names are
    always served, and when every recipient gets a lead only distinct
    names are. *)
Theorem repeated_name_stops_the_run (shuffled_df : DataFrame value)
    (names : list string) (today : date) (s : session) :
  names <> [] -> widget_keys s = [] ->
  exists split_dfs,
    array_split shuffled_df (length names) = Some split_dfs /\
    (fst (split_and_offer shuffled_df names today s) = Ok tt
     <-> NoDup (button_keys split_dfs 0 names)) /\
    (fst (split_and_offer shuffled_df names today s) = Ok tt \/
     exists who,
       In who names /\
       fst (split_and_offer shuffled_df names today s)
       = Raise (DuplicateWidgetID ("download_" ++ who)%string)) /\
    (NoDup names ->
     fst (split_and_offer shuffled_df names today s) = Ok tt) /\
    (empty shuffled_df = false -> length names <= len shuffled_df ->
     fst (split_and_offer shuffled_df names today s) = Ok tt ->
     NoDup names).
Proof.
  intros Hne Hkeys.
  assert (HN : 0 < length names) by (destruct names; cbn; [easy|lia]).
  destruct (split_and_offer_outcome shuffled_df today s Hne Hkeys)
    as (split_dfs & E & Hiff & Hor).
  exists split_dfs. split; [exact E|]. split; [exact Hiff|].
  split; [exact Hor|]. split.
  - intros Hnd. apply Hiff. now apply button_keys_NoDup.
  - intros He HT Hr. apply Hiff in Hr. rewrite button_keys_all in Hr.
    + now apply NoDup_map_inv in Hr.
    + intros j Hj. split.
      * rewrite frame_split_div_points in E by assumption.
        injection E as <-. rewrite length_map, length_seq. lia.
      * apply (@share_not_empty shuffled_df (length names) split_dfs HN E
                                He HT).
        lia.
Qed.

End WithLibrary.
End OfferFacts.

(** ** A whole run *)

Module RunFacts.
Import Streamlit Streamlit.Notations App Terms Views.
Import Numpy NumpyFacts ShareFacts PandasFacts ScriptFacts PageFacts.
Import LoopFacts SplitFacts PageClaims InputFacts BranchFacts MergeFacts.
Import OfferFacts.
Section WithLibrary.

Context {L : Library}.

Local Open Scope list_scope.
Local Open Scope nat_scope.

Implicit Types (split_dfs : list (DataFrame value)) (s : session).

Lemma names_page_plain (names_input : string) :
  Forall (fun e => is_offer e = false) (names_page names_input).
Proof.
  unfold names_page. destruct (entered names_input) as [|a t]; [constructor|].
  constructor; [reflexivity|]. destruct (_ <? _); repeat constructor.
Qed.

Lemma uploads_page_plain (files : list UploadedFile) :
  Forall (fun e => is_offer e = false) (uploads_page files).
Proof.
  unfold uploads_page. destruct files; [constructor|].
  destruct (_ <? _); repeat constructor.
Qed.

Lemma closed_page_plain (names : list string) (files : list UploadedFile)
    (valid clicked : bool) :
  Forall (fun e => is_offer e = false) (closed_page names files valid clicked).
Proof.
  unfold closed_page. constructor; [reflexivity|].
  destruct clicked; [|constructor]. apply Forall_app. split.
  - destruct (truthy names); repeat constructor.
  - destruct (truthy files); [destruct valid|]; repeat constructor.
Qed.

Lemma before_the_split_plain (names_input : string)
    (files : list UploadedFile) :
  Forall (fun e => is_offer e = false)
         (names_page names_input ++ uploads_page files
          ++ prelude (entered names_input) files).
Proof.
  apply Forall_app. split; [apply names_page_plain|].
  apply Forall_app. split; [apply uploads_page_plain|apply prelude_plain].
Qed.

Lemma plain_is_silent (e : element) :
  is_offer e = false ->
  leads_on e = 0 /\ recipient e = [] /\ column_of e = None.
Proof. destruct e; cbn; intros H; try discriminate; auto. Qed.

Lemma plain_page_silent (pre : list element) :
  Forall (fun e => is_offer e = false) pre ->
  list_sum (map leads_on pre) = 0 /\ flat_map recipient pre = [].
Proof.
  induction 1 as [|e t He _ [IH1 IH2]]; [now split|].
  destruct (plain_is_silent e He) as (H1 & H2 & _).
  cbn [map flat_map].
  change (list_sum (leads_on e :: map leads_on t))
    with (leads_on e + list_sum (map leads_on t)).
  now rewrite H1, H2, IH1, IH2.
Qed.

Lemma plain_page_no_offer (pre : list element) :
  Forall (fun e => is_offer e = false) pre -> filter is_offer pre = [].
Proof.
  induction 1 as [|e t He _ IH]; [reflexivity|].
  cbn [filter]. now rewrite He.
Qed.

Lemma ready_true (names_input : string) (files : list UploadedFile) :
  2 <= length (entered names_input) -> 1 <= length files <= 10 ->
  (2 <=? length (entered names_input)) && valid_count files = true.
Proof.
  intros Hn [H1 H10]. unfold valid_count.
  apply andb_true_iff. split; [now apply Nat.leb_le|].
  apply andb_true_iff. split; now apply Nat.leb_le.
Qed.

Lemma ready_entered (names_input : string) (files : list UploadedFile) :
  (2 <=? length (entered names_input)) && valid_count files = true ->
  handed_on names_input = entered names_input /\
  entered names_input <> [] /\ 0 < length (entered names_input).
Proof.
  intros Hr. apply andb_true_iff in Hr as [Hr _]. apply Nat.leb_le in Hr.
  unfold handed_on. destruct (length (entered names_input) <? 2) eqn:E.
  - apply Nat.ltb_lt in E. lia.
  - split; [reflexivity|]. split; [|lia].
    intros H. rewrite H in Hr. cbn in Hr. lia.
Qed.

(** A run on two or more names and one to ten files of which one is
    usable goes on to split the shuffled merge of the files among the
    names. *)
Lemma app_splits (names_input : string) (files : list UploadedFile)
    (clicked : bool) (rng : nat -> list nat) (today : date) s :
  (2 <=? length (entered names_input)) && valid_count files = true ->
  parsed_nonempty files <> [] ->
  app names_input files clicked rng today s
  = split_and_offer
      (sample_all (rng (len (merged files))) (merged files))
      (entered names_input) today
      (add_page s (names_page names_input ++ uploads_page files
                   ++ prelude (entered names_input) files)).
Proof.
  intros Hr Hp. destruct (ready_entered _ _ Hr) as (Hh & _).
  rewrite app_unfold, process_and_split_open;
    [|now rewrite ready_condition|exact Hp].
  now rewrite Hh, add_page_app, <- app_assoc.
Qed.

(** Any other run only writes plain elements. *)
Lemma app_plain (names_input : string) (files : list UploadedFile)
    (clicked : bool) (rng : nat -> list nat) (today : date) s :
  (2 <=? length (entered names_input)) && valid_count files = false \/
  parsed_nonempty files = [] ->
  exists pre,
    Forall (fun e => is_offer e = false) pre /\
    app names_input files clicked rng today s = (Ok tt, add_page s pre).
Proof.
  intros H. rewrite app_unfold.
  destruct ((2 <=? length (entered names_input)) && valid_count files)
    eqn:Hr.
  - destruct H as [H|H]; [discriminate|].
    rewrite <- ready_condition in Hr.
    rewrite (process_and_split_nothing _ _ _ clicked rng today Hr H).
    rewrite add_page_app. eexists. split; [|reflexivity].
    apply Forall_app. split.
    + apply Forall_app. split; [apply names_page_plain|].
      apply uploads_page_plain.
    + apply Forall_app. split; [repeat constructor|].
      apply Forall_app. split; [apply ingest_page_plain|repeat constructor].
  - rewrite <- ready_condition in Hr.
    rewrite (process_and_split_closed_exact _ _ _ clicked rng today Hr).
    rewrite add_page_app. eexists. split; [|reflexivity].
    apply Forall_app. split; [|apply closed_page_plain].
    apply Forall_app. split; [apply names_page_plain|].
    apply uploads_page_plain.
Qed.

Lemma Forall_or_l (A : Type) (P Q : A -> Prop) (l : list A) :
  Forall P l -> Forall (fun x => P x \/ Q x) l.
Proof. intros H. eapply Forall_impl; [|exact H]. intros x Hx. now left. Qed.

(** What a run adds to the page: plain elements and, for names in the
    order entered, what the shares of the shuffled merge offer. *)
Lemma app_page_offers (names_input : string) (files : list UploadedFile)
    (clicked : bool) (rng : nat -> list nat) (today : date) s :
  exists new,
    page (snd (app names_input files clicked rng today s)) = page s ++ new /\
    Forall (fun e =>
              is_offer e = false \/
              exists split_dfs j who,
                array_split
                  (sample_all (rng (len (merged files))) (merged files))
                  (length (entered names_input)) = Some split_dfs /\
                nth_error (entered names_input) j = Some who /\
                e = offer split_dfs (min (length (entered names_input)) 4)
                          (strftime_Ymd today) (cached (cache_data s)) j who)
           new.
Proof.
  destruct ((2 <=? length (entered names_input)) && valid_count files)
    eqn:Hr.
  - destruct (parsed_nonempty files) as [|d t] eqn:Hp.
    + destruct (app_plain names_input files clicked rng today s
                  (or_intror Hp)) as (pre & Hpl & ->).
      exists pre. split; [reflexivity|]. now apply Forall_or_l.
    + assert (Hne : parsed_nonempty files <> []) by now rewrite Hp.
      rewrite (app_splits names_input files clicked rng today s Hr Hne).
      destruct (ready_entered _ _ Hr) as (_ & Hne' & _).
      destruct (@split_and_offer_loop _
                  (sample_all (rng (len (merged files))) (merged files))
                  (entered names_input) today
                  (add_page s (names_page names_input ++ uploads_page files
                               ++ prelude (entered names_input) files)) Hne')
        as (split_dfs & E & _ & ->).
      destruct (for_names_run split_dfs
                  (min (length (entered names_input)) 4)
                  (strftime_Ymd today) (entered names_input) 0
                  (add_page
                     (add_page s (names_page names_input
                                  ++ uploads_page files
                                  ++ prelude (entered names_input) files))
                     [subheader_download]))
        as (k & _ & Hpg & _).
      cbv zeta in Hpg. rewrite Hpg. cbn [add_page page cache_data].
      eexists. split; [rewrite <- !app_assoc; reflexivity|].
      apply Forall_app. split;
        [apply Forall_or_l, names_page_plain|].
      apply Forall_app. split;
        [apply Forall_or_l, uploads_page_plain|].
      apply Forall_app. split;
        [apply Forall_or_l, prelude_plain|].
      apply Forall_app. split; [repeat constructor|].
      apply Forall_forall. intros e He. apply In_firstn in He.
      apply In_offers in He as (j & who & _ & Hn & ->). right.
      rewrite Nat.sub_0_r in Hn. now exists split_dfs, j, who.
  - destruct (app_plain names_input files clicked rng today s
                (or_introl Hr)) as (pre & Hpl & ->).
    exists pre. split; [reflexivity|]. now apply Forall_or_l.
Qed.

(** X10.  A run from a fresh page ends normally or with DuplicateWidgetID
    for the key of a name that was entered; it never ends with the
    ValueError of [np.array_split], and it ends normally whenever the
    entered names are distinct. *)
Theorem a_run_stops_only_on_a_repeated_name (names_input : string)
    (files : list UploadedFile) (clicked : bool) (rng : nat -> list nat)
    (today : date) (c : list (cache_key * bytes)) :
  fst (app names_input files clicked rng today (new_run c))
  <> Raise ValueError_sections /\
  (fst (app names_input files clicked rng today (new_run c)) = Ok tt \/
   exists who,
     In who (entered names_input) /\
     fst (app names_input files clicked rng today (new_run c))
     = Raise (DuplicateWidgetID ("download_" ++ who)%string)) /\
  (NoDup (entered names_input) ->
   fst (app names_input files clicked rng today (new_run c)) = Ok tt).
Proof.
  assert (H : (fst (app names_input files clicked rng today (new_run c))
               = Ok tt \/
               exists who,
                 In who (entered names_input) /\
                 fst (app names_input files clicked rng today (new_run c))
                 = Raise (DuplicateWidgetID ("download_" ++ who)%string)) /\
              (NoDup (entered names_input) ->
               fst (app names_input files clicked rng today (new_run c))
               = Ok tt)).
  { destruct ((2 <=? length (entered names_input)) && valid_count files)
      eqn:Hr.
    - destruct (parsed_nonempty files) as [|d t] eqn:Hp.
      + destruct (app_plain names_input files clicked rng today (new_run c)
                    (or_intror Hp)) as (pre & _ & ->).
        split; [now left|reflexivity].
      + assert (Hne : parsed_nonempty files <> []) by now rewrite Hp.
        rewrite (app_splits names_input files clicked rng today (new_run c)
                   Hr Hne).
        destruct (ready_entered _ _ Hr) as (_ & Hne' & _).
        destruct (@split_and_offer_outcome _
                    (sample_all (rng (len (merged files))) (merged files))
                    (entered names_input) today
                    (add_page (new_run c)
                       (names_page names_input ++ uploads_page files
                        ++ prelude (entered names_input) files))
                    Hne' eq_refl)
          as (split_dfs & _ & Hiff & Hor).
        split; [exact Hor|]. intros Hnd. apply Hiff.
        now apply button_keys_NoDup.
    - destruct (app_plain names_input files clicked rng today (new_run c)
                  (or_introl Hr)) as (pre & _ & ->).
      split; [now left|reflexivity]. }
  destruct H as [Hor Hnd]. split; [|split; assumption].
  destruct Hor as [->|(who & _ & ->)]; discriminate.
Qed.

Lemma list_sum_cons (x : nat) (l : list nat) :
  list_sum (x :: l) = x + list_sum l.
Proof. reflexivity. Qed.

Lemma map_nth_seq (A : Type) (l : list A) (d : A) :
  map (fun j => nth j l d) (seq 0 (length l)) = l.
Proof.
  induction l as [|a t IH]; [reflexivity|].
  cbn [length seq map nth]. f_equal.
  rewrite <- seq_shift, map_map. exact IH.
Qed.

Lemma shares_total (df : DataFrame value) (N : nat) split_dfs :
  0 < N -> array_split df N = Some split_dfs ->
  list_sum (map (@len value) split_dfs) = len df.
Proof.
  intros HN E. pose proof (@shares_rows _ df N split_dfs HN E) as H.
  apply (f_equal (@length _)) in H. rewrite length_flat_map in H. exact H.
Qed.

Lemma offers_cons split_dfs (n_cols : nat) (today_str : string)
    (data : nat -> DataFrame value -> bytes) (i : nat) (who : string)
    (rest : list string) :
  offers split_dfs n_cols today_str data i (who :: rest)
  = offer split_dfs n_cols today_str data i who
    :: offers split_dfs n_cols today_str data (S i) rest.
Proof. unfold offers. now rewrite enumerate_cons. Qed.

Lemma recipient_offer split_dfs (n_cols : nat) (today_str : string)
    (data : nat -> DataFrame value -> bytes) (j : nat) (who : string) :
  recipient (offer split_dfs n_cols today_str data j who) = [who].
Proof.
  unfold offer. destruct (_ <? _); [destruct (negb _)|]; reflexivity.
Qed.

Lemma offers_recipients split_dfs (n_cols : nat) (today_str : string)
    (data : nat -> DataFrame value -> bytes) (names : list string) :
  forall i,
    flat_map recipient (offers split_dfs n_cols today_str data i names)
    = names.
Proof.
  induction names as [|who rest IH]; intros i; [reflexivity|].
  rewrite offers_cons. cbn [flat_map]. now rewrite recipient_offer, IH.
Qed.

Lemma leads_on_offer split_dfs (n_cols : nat) (today_str : string)
    (data : nat -> DataFrame value -> bytes) (j : nat) (who : string) :
  (empty (nth j split_dfs DataFrame_new) = true ->
   len (nth j split_dfs DataFrame_new) = 0) ->
  j < length split_dfs ->
  leads_on (offer split_dfs n_cols today_str data j who)
  = len (nth j split_dfs DataFrame_new).
Proof.
  intros He Hj. unfold offer. apply Nat.ltb_lt in Hj. rewrite Hj.
  destruct (empty (nth j split_dfs DataFrame_new)) eqn:E;
    cbn [negb leads_on]; [|reflexivity].
  symmetry. now apply He.
Qed.

Lemma offers_leads split_dfs (n_cols : nat) (today_str : string)
    (data : nat -> DataFrame value -> bytes) (names : list string) :
  forall i,
    (forall j, j < length split_dfs ->
               empty (nth j split_dfs DataFrame_new) = true ->
               len (nth j split_dfs DataFrame_new) = 0) ->
    i + length names <= length split_dfs ->
    list_sum (map leads_on (offers split_dfs n_cols today_str data i names))
    = list_sum (map (fun j => len (nth j split_dfs DataFrame_new))
                    (seq i (length names))).
Proof.
  induction names as [|who rest IH]; intros i He Hi; [reflexivity|].
  rewrite offers_cons. cbn [length seq map] in Hi |- *.
  rewrite !list_sum_cons, IH by (auto; lia).
  rewrite leads_on_offer; [reflexivity| |lia].
  apply He. lia.
Qed.

(** With distinct names every recipient is served, in the order of the
    names. *)
Lemma app_serves_all (names_input : string) (files : list UploadedFile)
    (clicked : bool) (rng : nat -> list nat) (today : date)
    (c : list (cache_key * bytes)) :
  (2 <=? length (entered names_input)) && valid_count files = true ->
  parsed_nonempty files <> [] ->
  NoDup (entered names_input) ->
  exists split_dfs,
    array_split (sample_all (rng (len (merged files))) (merged files))
                (length (entered names_input)) = Some split_dfs /\
    length split_dfs = length (entered names_input) /\
    fst (app names_input files clicked rng today (new_run c)) = Ok tt /\
    page (snd (app names_input files clicked rng today (new_run c)))
    = (names_page names_input ++ uploads_page files
       ++ prelude (entered names_input) files)
      ++ subheader_download
         :: offers split_dfs (min (length (entered names_input)) 4)
                   (strftime_Ymd today) (cached c) 0 (entered names_input).
Proof.
  intros Hr Hne Hnd.
  rewrite (app_splits names_input files clicked rng today (new_run c) Hr Hne).
  destruct (ready_entered _ _ Hr) as (_ & Hne' & _).
  destruct (@split_and_offer_all _
              (sample_all (rng (len (merged files))) (merged files))
              (entered names_input) today
              (add_page (new_run c)
                 (names_page names_input ++ uploads_page files
                  ++ prelude (entered names_input) files))
              Hne' Hnd eq_refl)
    as (split_dfs & E & [Hlen _] & Hok & Hpg).
  exists split_dfs. split; [exact E|]. split; [exact Hlen|].
  split; [exact Hok|]. rewrite Hpg. reflexivity.
Qed.

(** The shares of a merge of usable files have its columns, so a share
    is empty only when it has no row. *)
Lemma empty_share_has_no_row (files : list UploadedFile)
    (perm : list nat) (N : nat) split_dfs :
  parsed_nonempty files <> [] -> 0 < N ->
  array_split (sample_all perm (merged files)) N = Some split_dfs ->
  forall j, j < N ->
    columns (nth j split_dfs DataFrame_new) = columns (merged files) /\
    (empty (nth j split_dfs DataFrame_new) = true ->
     len (nth j split_dfs DataFrame_new) = 0) /\
    (empty (nth j split_dfs DataFrame_new) = false ->
     0 < len (nth j split_dfs DataFrame_new)).
Proof.
  intros Hne HN E j Hj.
  pose proof (@share_columns _ (sample_all perm (merged files)) N split_dfs
                HN E j Hj) as Hc.
  cbn [sample_all columns] in Hc. split; [exact Hc|].
  pose proof (merged_empty files) as Hm.
  destruct (parsed_nonempty files) as [|d t]; [easy|].
  unfold empty in *. apply orb_false_iff in Hm as [Hm _].
  rewrite Hc, Hm. cbn [orb]. unfold len. split.
  - intros H. now apply Nat.eqb_eq in H.
  - intros H. apply Nat.eqb_neq in H. lia.
Qed.

(** X11.  On a run with two or more distinct names and one to ten files,
    with a generator that draws as many positions as there are rows, the
    run ends normally and the lead counts on the download buttons of the
    page add up to the number of rows of the merged frame. *)
Theorem offered_leads_add_up (names_input : string)
    (files : list UploadedFile) (clicked : bool) (rng : nat -> list nat)
    (today : date) (c : list (cache_key * bytes)) :
  2 <= length (entered names_input) ->
  1 <= length files <= 10 ->
  NoDup (entered names_input) ->
  length (rng (len (merged files))) = len (merged files) ->
  fst (app names_input files clicked rng today (new_run c)) = Ok tt /\
  list_sum (map leads_on
                (page (snd (app names_input files clicked rng today
                                (new_run c)))))
  = len (merged files).
Proof.
  intros Hn Hf Hnd Hrng. pose proof (ready_true _ _ Hn Hf) as Hr.
  destruct (parsed_nonempty files) as [|d t] eqn:Hp.
  - destruct (app_plain names_input files clicked rng today (new_run c)
                (or_intror Hp)) as (pre & Hpl & ->).
    split; [reflexivity|]. cbn [snd add_page page new_run List.app].
    unfold merged. rewrite Hp. now apply plain_page_silent.
  - assert (Hne : parsed_nonempty files <> []) by now rewrite Hp.
    destruct (ready_entered _ _ Hr) as (_ & _ & HN).
    destruct (app_serves_all names_input files clicked rng today c Hr Hne Hnd)
      as (split_dfs & E & Hlen & Hok & Hpg).
    split; [exact Hok|]. rewrite Hpg, map_app, list_sum_app.
    destruct (plain_page_silent (before_the_split_plain names_input files))
      as [-> _].
    cbn [map]. rewrite list_sum_cons. cbn [leads_on].
    rewrite offers_leads.
    + rewrite <- Hlen.
      transitivity (list_sum (map (@len value)
                     (map (fun j => nth j split_dfs DataFrame_new)
                          (seq 0 (length split_dfs))))).
      { now rewrite map_map. }
      rewrite map_nth_seq.
      rewrite (@shares_total _ (length (entered names_input)) split_dfs HN E).
      unfold len at 1. cbn [sample_all rows]. now rewrite length_map.
    + intros j Hj. rewrite Hlen in Hj.
      apply (@empty_share_has_no_row files _ _ split_dfs Hne HN E j Hj).
    + lia.
Qed.

(** X12.  On a run with two or more distinct names and one to ten files
    of which one is usable, every entered name has exactly one element
    on the page, a download button or a notice, and these elements stand
    in the order in which the names were entered. *)
Theorem every_name_is_served_once_in_order (names_input : string)
    (files : list UploadedFile) (clicked : bool) (rng : nat -> list nat)
    (today : date) (c : list (cache_key * bytes)) :
  2 <= length (entered names_input) ->
  1 <= length files <= 10 ->
  NoDup (entered names_input) ->
  ~ Forall unusable files ->
  fst (app names_input files clicked rng today (new_run c)) = Ok tt /\
  flat_map recipient
           (page (snd (app names_input files clicked rng today (new_run c))))
  = entered names_input /\
  length (filter is_offer
            (page (snd (app names_input files clicked rng today
                            (new_run c)))))
  = length (entered names_input).
Proof.
  intros Hn Hf Hnd Hus. pose proof (ready_true _ _ Hn Hf) as Hr.
  assert (Hne : parsed_nonempty files <> []).
  { intros H. now apply Hus, parsed_nil_unusable. }
  destruct (app_serves_all names_input files clicked rng today c Hr Hne Hnd)
    as (split_dfs & E & Hlen & Hok & Hpg).
  split; [exact Hok|]. rewrite Hpg. split.
  - rewrite flat_map_app.
    destruct (plain_page_silent (before_the_split_plain names_input files))
      as [_ ->].
    cbn [flat_map recipient List.app]. apply offers_recipients.
  - rewrite filter_app.
    assert (Hpre : filter is_offer
                     (names_page names_input ++ uploads_page files
                      ++ prelude (entered names_input) files) = []).
    { apply plain_page_no_offer, before_the_split_plain. }
    rewrite Hpre. cbn [filter is_offer List.app].
    assert (Hall : forall l i,
              filter is_offer
                (offers split_dfs (min (length (entered names_input)) 4)
                        (strftime_Ymd today) (cached c) i l)
              = offers split_dfs (min (length (entered names_input)) 4)
                       (strftime_Ymd today) (cached c) i l).
    { induction l as [|who rest IH]; intros i; [reflexivity|].
      rewrite offers_cons. cbn [filter]. rewrite IH.
      unfold offer at 1.
      destruct (_ <? _); [destruct (negb _)|]; reflexivity. }
    rewrite Hall. unfold offers, enumerate.
    rewrite length_map, length_combine, length_seq. lia.
Qed.

(** X13.  Every element that a run puts on the page for a recipient is
    put in a column whose index is below the number of columns created,
    the smaller of 4 and the number of names; this holds on runs that
    stop early too. *)
Theorem recipients_sit_in_the_columns (names_input : string)
    (files : list UploadedFile) (clicked : bool) (rng : nat -> list nat)
    (today : date) (s : session) :
  exists new,
    page (snd (app names_input files clicked rng today s)) = page s ++ new /\
    forall e col,
      In e new -> column_of e = Some col ->
      col < min (length (entered names_input)) 4 /\ col < 4.
Proof.
  destruct (app_page_offers names_input files clicked rng today s)
    as (new & Hpg & Hall).
  exists new. split; [exact Hpg|]. intros e col Hin Hcol.
  rewrite Forall_forall in Hall.
  destruct (Hall e Hin) as [Hpl|(split_dfs & j & who & _ & Hn & ->)].
  - apply plain_is_silent in Hpl as (_ & _ & Hc). congruence.
  - assert (Hj : j < length (entered names_input))
      by (apply nth_error_Some; congruence).
    assert (col = j mod min (length (entered names_input)) 4) as ->.
    { unfold offer in Hcol.
      destruct (_ <? _); [destruct (negb _)|]; cbn [column_of] in Hcol;
        congruence. }
    assert (j mod min (length (entered names_input)) 4
            < min (length (entered names_input)) 4)
      by (apply Nat.mod_upper_bound; lia).
    lia.
Qed.

End WithLibrary.
End RunFacts.

(** ** Shuffle, cache and file names *)

Module ShuffleFacts.
Import Streamlit Streamlit.Notations App Terms Views.
Import Numpy NumpyFacts ShareFacts OfferFacts RunFacts.
Section Frames.

Variable value : Type.

Local Open Scope list_scope.
Local Open Scope nat_scope.

Lemma frame_shares_rows (df : DataFrame value) (N : nat) :
  0 < N ->
  flat_map (@rows value)
    (map (fun i => iloc_slice df (div_point (len df) N i)
                                 (div_point (len df) N (S i)))
         (seq 0 N))
  = rows df.
Proof.
  intros HN. rewrite flat_map_concat_map, map_map. cbn [rows iloc_slice].
  rewrite (@concat_slices _ (rows df) (div_point (len df) N) N).
  - rewrite div_point_last by lia. apply firstn_all.
  - reflexivity.
  - intros i _. apply div_point_mono. lia.
Qed.

(** X15.  Shuffling and splitting keep every lead: when the generator
    draws each row position once, the shares of the shuffled frame, one
    per recipient, have the columns of the frame, their rows taken
    together are the rows of the frame in some order, and their sizes add
    up to its size. *)
Theorem every_lead_lands_in_one_share (df : DataFrame value) (N : nat)
    (perm : list nat) :
  0 < N -> Permutation perm (seq 0 (len df)) ->
  exists split_dfs,
    array_split (sample_all perm df) N = Some split_dfs /\
    length split_dfs = N /\
    Permutation (flat_map (@rows value) split_dfs) (rows df) /\
    list_sum (map (@len value) split_dfs) = len df /\
    Forall (fun share => columns share = columns df) split_dfs.
Proof.
  intros HN Hperm. eexists. split; [now apply frame_split_div_points|].
  split; [now rewrite length_map, length_seq|].
  assert (Hrows : Permutation (rows (sample_all perm df)) (rows df)).
  { cbn [sample_all rows].
    apply Permutation_trans
      with (map (fun i => nth i (rows df) []) (seq 0 (len df))).
    - now apply Permutation_map.
    - unfold len. rewrite map_nth_seq. apply Permutation_refl. }
  split; [now rewrite frame_shares_rows|]. split.
  - transitivity (length (flat_map (@rows value)
       (map (fun i => iloc_slice (sample_all perm df)
                        (div_point (len (sample_all perm df)) N i)
                        (div_point (len (sample_all perm df)) N (S i)))
            (seq 0 N)))).
    + now rewrite length_flat_map.
    + rewrite frame_shares_rows by assumption.
      now apply Permutation_length.
  - apply Forall_forall. intros share Hin. apply in_map_iff in Hin.
    now destruct Hin as (i & <- & _).
Qed.

End Frames.
End ShuffleFacts.

Module NameFacts.
Import Streamlit App Terms Views PandasCsv.

Local Open Scope string_scope.

Lemma length_append (a b : string) :
  String.length (a ++ b) = String.length a + String.length b.
Proof. induction a as [|x a IH]; cbn; auto. Qed.

Lemma append_inj_r (c : string) :
  forall a b : string, a ++ c = b ++ c -> a = b.
Proof.
  induction a as [|x a IH]; intros [|y b] H; cbn in H.
  - reflexivity.
  - apply (f_equal String.length) in H. cbn in H.
    rewrite length_append in H. lia.
  - apply (f_equal String.length) in H. cbn in H.
    rewrite length_append in H. lia.
  - injection H as -> H. f_equal. now apply IH.
Qed.

Lemma replace_no_space (who : string) :
  free " "%char (replace " "%char "_"%char who).
Proof.
  unfold free. induction who as [|c t IH]; cbn; [easy|].
  intros [H|H]; [|now apply IH].
  destruct (Ascii.eqb c " "%char) eqn:E; [discriminate|].
  apply Ascii.eqb_neq in E. congruence.
Qed.

Lemma replace_free (who : string) :
  free " "%char who -> replace " "%char "_"%char who = who.
Proof.
  unfold free. induction who as [|c t IH]; cbn; [easy|].
  intros H. destruct (Ascii.eqb c " "%char) eqn:E.
  - apply Ascii.eqb_eq in E. exfalso. apply H. left. now symmetry.
  - f_equal. apply IH. intros Hin. apply H. now right.
Qed.

(** X17.  Two names get the same download file name on a day exactly when
    they are equal once their spaces are underscores, so names without
    spaces get distinct file names, while a name with a space shares its
    file name with the same name written with an underscore; the part of
    the file name that comes from the name has no space. *)
Theorem file_names_clash_on_spaces_only (today_str a b : string) :
  (make_filename today_str a = make_filename today_str b
   <-> replace " "%char "_"%char a = replace " "%char "_"%char b) /\
  (free " "%char a -> free " "%char b ->
   make_filename today_str a = make_filename today_str b -> a = b) /\
  free " "%char (replace " "%char "_"%char a).
Proof.
  assert (Hiff : make_filename today_str a = make_filename today_str b
                 <-> replace " "%char "_"%char a
                     = replace " "%char "_"%char b).
  { unfold make_filename. split; [|now intros ->].
    intros H. apply PageClaims.append_inj_l in H.
    apply PageClaims.append_inj_l in H.
    apply PageClaims.append_inj_l in H.
    now apply append_inj_r in H. }
  split; [exact Hiff|]. split; [|apply replace_no_space].
  intros Ha Hb H. apply Hiff in H.
  now rewrite (replace_free Ha), (replace_free Hb) in H.
Qed.

End NameFacts.

(** ** The messages of the processing *)

Module SummaryFacts.
Import Streamlit Streamlit.Notations App Terms Views.
Import Numpy NumpyFacts ShareFacts PandasFacts ScriptFacts PageFacts.
Import LoopFacts SplitFacts PageClaims InputFacts BranchFacts MergeFacts.
Import OfferFacts RunFacts.
Section WithLibrary.

Context {L : Library}.

Local Open Scope list_scope.
Local Open Scope nat_scope.

Implicit Types (split_dfs : list (DataFrame value)) (s : session).

Lemma filter_none (A : Type) (f : A -> bool) (l : list A) :
  Forall (fun x => f x = false) l -> filter f l = [].
Proof.
  induction 1 as [|e t He _ IH]; [reflexivity|].
  cbn [filter]. now rewrite He.
Qed.

Lemma names_page_summary (names_input : string) :
  filter summary (names_page names_input) = [].
Proof.
  unfold names_page. destruct (entered names_input) as [|a t]; [reflexivity|].
  now destruct (_ <? _).
Qed.

Lemma uploads_page_summary (files : list UploadedFile) :
  filter summary (uploads_page files) = [].
Proof.
  unfold uploads_page. destruct files; [reflexivity|]. now destruct (_ <? _).
Qed.

Lemma closed_page_summary (names : list string) (files : list UploadedFile)
    (valid clicked : bool) :
  filter summary (closed_page names files valid clicked) = [].
Proof.
  unfold closed_page.
  destruct clicked, (truthy names), (truthy files), valid; reflexivity.
Qed.

Lemma ingest_page_summary (files : list UploadedFile) :
  filter summary (ingest_page files) = [].
Proof.
  unfold ingest_page. rewrite filter_app.
  assert (H : filter summary (flat_map diagnostic files) = []).
  { induction files as [|f rest IH]; [reflexivity|].
    cbn [flat_map]. rewrite filter_app, IH, app_nil_r. unfold diagnostic.
    destruct (read_uploaded_file f) as [e|df]; [reflexivity|].
    now destruct (empty df). }
  rewrite H. destruct files; [reflexivity|].
  now destruct (parsed_nonempty _).
Qed.

Lemma offers_summary split_dfs (n_cols : nat) (today_str : string)
    (data : nat -> DataFrame value -> bytes) (names : list string) (k : nat) :
  forall i,
    filter summary
      (firstn k (offers split_dfs n_cols today_str data i names)) = [].
Proof.
  intros i. apply filter_none, Forall_forall. intros e He.
  apply In_firstn in He. apply In_offers in He as (j & who & _ & _ & ->).
  unfold offer. destruct (_ <? _); [destruct (negb _)|]; reflexivity.
Qed.

Lemma prelude_summary (names : list string) (files : list UploadedFile) :
  filter summary (prelude names files)
  = success_combined (len (merged files)) (length files)
    :: (if len (merged files) <? length names
        then [warning_fewer_leads (len (merged files)) (length names)]
        else []).
Proof.
  unfold prelude. rewrite !filter_app, ingest_page_summary.
  cbn [filter summary List.app].
  destruct (_ <? _); reflexivity.
Qed.

(** The summary messages of a run. *)
Lemma app_summary (names_input : string) (files : list UploadedFile)
    (clicked : bool) (rng : nat -> list nat) (today : date) s :
  exists new,
    page (snd (app names_input files clicked rng today s)) = page s ++ new /\
    filter summary new
    = if (2 <=? length (entered names_input)) && valid_count files then
        match parsed_nonempty files with
        | [] => [warning_could_not_proceed]
        | _ =>
            success_combined (len (merged files)) (length files)
            :: (if len (merged files) <? length (entered names_input)
                then [warning_fewer_leads (len (merged files))
                                          (length (entered names_input))]
                else [])
            ++ [subheader_download]
        end
      else [].
Proof.
  destruct ((2 <=? length (entered names_input)) && valid_count files)
    eqn:Hr.
  - destruct (parsed_nonempty files) as [|d t] eqn:Hp.
    + rewrite app_unfold. rewrite <- ready_condition in Hr.
      rewrite (process_and_split_nothing _ _ _ clicked rng today Hr Hp).
      cbn [snd add_page page]. rewrite <- app_assoc.
      eexists. split; [reflexivity|].
      rewrite !filter_app, names_page_summary, uploads_page_summary,
        ingest_page_summary.
      reflexivity.
    + assert (Hne : parsed_nonempty files <> []) by now rewrite Hp.
      rewrite (app_splits names_input files clicked rng today s Hr Hne).
      destruct (ready_entered _ _ Hr) as (_ & Hne' & _).
      destruct (@split_and_offer_loop _
                  (sample_all (rng (len (merged files))) (merged files))
                  (entered names_input) today
                  (add_page s (names_page names_input ++ uploads_page files
                               ++ prelude (entered names_input) files)) Hne')
        as (split_dfs & E & _ & ->).
      destruct (for_names_run split_dfs
                  (min (length (entered names_input)) 4)
                  (strftime_Ymd today) (entered names_input) 0
                  (add_page
                     (add_page s (names_page names_input
                                  ++ uploads_page files
                                  ++ prelude (entered names_input) files))
                     [subheader_download]))
        as (k & _ & Hpg & _).
      cbv zeta in Hpg. rewrite Hpg. cbn [add_page page cache_data].
      eexists. split; [rewrite <- !app_assoc; reflexivity|].
      rewrite !filter_app, names_page_summary, uploads_page_summary,
        prelude_summary, offers_summary.
      cbn [filter summary List.app]. destruct (_ <? _); reflexivity.
  - rewrite app_unfold. rewrite <- ready_condition in Hr.
    rewrite (process_and_split_closed_exact _ _ _ clicked rng today Hr).
    cbn [snd add_page page]. rewrite <- app_assoc.
    eexists. split; [reflexivity|].
    now rewrite !filter_app, names_page_summary, uploads_page_summary,
      closed_page_summary.
Qed.

Lemma ready_iff (names_input : string) (files : list UploadedFile) :
  (2 <=? length (entered names_input)) && valid_count files = true
  <-> 2 <= length (entered names_input) /\ 1 <= length files <= 10.
Proof.
  unfold valid_count. rewrite !andb_true_iff, !Nat.leb_le. tauto.
Qed.

(** X18.  What a run says about the processing: the success message with
    the number of merged leads and of files, and the subheader of the
    downloads, are on the page exactly when there are two or more names,
    one to ten files and a usable file; the warning about fewer leads
    than people exactly when, besides, the leads are fewer than the names,
    with both counts; and the warning that the split could not proceed
    exactly when there are two or more names and one to ten files of
    which none is usable. *)
Theorem processing_is_summed_up (names_input : string)
    (files : list UploadedFile) (clicked : bool) (rng : nat -> list nat)
    (today : date) (s : session) :
  exists new,
    page (snd (app names_input files clicked rng today s)) = page s ++ new /\
    (forall t n,
       In (success_combined t n) new <->
       (2 <= length (entered names_input) /\ 1 <= length files <= 10) /\
       ~ Forall unusable files /\
       t = len (merged files) /\ n = length files) /\
    (forall t n,
       In (warning_fewer_leads t n) new <->
       (2 <= length (entered names_input) /\ 1 <= length files <= 10) /\
       ~ Forall unusable files /\
       t = len (merged files) /\ n = length (entered names_input) /\
       t < n) /\
    (In warning_could_not_proceed new <->
     (2 <= length (entered names_input) /\ 1 <= length files <= 10) /\
     Forall unusable files) /\
    (In subheader_download new <->
     (2 <= length (entered names_input) /\ 1 <= length files <= 10) /\
     ~ Forall unusable files).
Proof.
  destruct (app_summary names_input files clicked rng today s)
    as (new & Hpg & Hsum).
  exists new. split; [exact Hpg|].
  assert (Hin : forall e, summary e = true ->
                  (In e new <-> In e (filter summary new))).
  { intros e He. rewrite filter_In. tauto. }
  pose proof (ready_iff names_input files) as Hrd.
  pose proof (parsed_nil_unusable files) as Hun.
  rewrite Hsum in Hin. clear Hsum Hpg.
  destruct ((2 <=? length (entered names_input)) && valid_count files).
  - destruct (parsed_nonempty files) as [|d t0].
    + assert (Hu : Forall unusable files) by now apply Hun.
      assert (Hr : 2 <= length (entered names_input) /\
                   1 <= length files <= 10) by now apply Hrd.
      split; [|split; [|split]].
      * intros t n. rewrite (Hin (success_combined t n) eq_refl). cbn [In].
        split; [intros [H|[]]; discriminate|tauto].
      * intros t n. rewrite (Hin (warning_fewer_leads t n) eq_refl).
        cbn [In]. split; [intros [H|[]]; discriminate|tauto].
      * rewrite (Hin warning_could_not_proceed eq_refl). cbn [In]. tauto.
      * rewrite (Hin subheader_download eq_refl). cbn [In].
        split; [intros [H|[]]; discriminate|tauto].
    + assert (Hu : ~ Forall unusable files).
      { intros H. apply Hun in H. discriminate. }
      assert (Hr : 2 <= length (entered names_input) /\
                   1 <= length files <= 10) by now apply Hrd.
      split; [|split; [|split]].
      * intros t n. rewrite (Hin (success_combined t n) eq_refl).
        cbn [In]. rewrite in_app_iff. split.
        -- intros [[= <- <-]|[H|[H|[]]]]; [tauto| |discriminate].
           destruct (_ <? _); [|easy]. now destruct H as [H|[]].
        -- intros (_ & _ & -> & ->). now left.
      * intros t n. rewrite (Hin (warning_fewer_leads t n) eq_refl).
        cbn [In]. rewrite in_app_iff.
        destruct (len (merged files) <? length (entered names_input))
          eqn:Hlt; cbn [In]; split.
        -- apply Nat.ltb_lt in Hlt.
           intros [H|[[[= <- <-]|[]]|[H|[]]]]; try discriminate. tauto.
        -- intros (_ & _ & -> & -> & _). right. left. now left.
        -- intros [H|[[]|[H|[]]]]; discriminate.
        -- apply Nat.ltb_ge in Hlt. intros (_ & _ & -> & -> & H). lia.
      * rewrite (Hin warning_could_not_proceed eq_refl). cbn [In].
        rewrite in_app_iff. split; [|tauto].
        intros [H|[H|[H|[]]]]; [discriminate| |discriminate].
        destruct (_ <? _); [|easy]. now destruct H as [H|[]].
      * rewrite (Hin subheader_download eq_refl). cbn [In].
        rewrite in_app_iff.
        split; [tauto|]. intros _. right. right. now left.
  - assert (Hr : ~ (2 <= length (entered names_input) /\
                    1 <= length files <= 10)).
    { intros H. apply Hrd in H. discriminate. }
    split; [|split; [|split]].
    + intros t n. rewrite (Hin (success_combined t n) eq_refl). cbn [In].
      tauto.
    + intros t n. rewrite (Hin (warning_fewer_leads t n) eq_refl).
      cbn [In]. tauto.
    + rewrite (Hin warning_could_not_proceed eq_refl). cbn [In]. tauto.
    + rewrite (Hin subheader_download eq_refl). cbn [In]. tauto.
Qed.

End WithLibrary.
End SummaryFacts.

(** ** A rerun *)

Module RerunFacts.
Import Streamlit Streamlit.Notations App Terms Views.
Import Numpy NumpyFacts ShareFacts PandasFacts ScriptFacts PageFacts.
Import LoopFacts SplitFacts PageClaims InputFacts BranchFacts MergeFacts.
Import OfferFacts RunFacts.
Section WithLibrary.

Context {L : Library}.

Local Open Scope list_scope.
Local Open Scope nat_scope.

Implicit Types (split_dfs : list (DataFrame value)) (s : session).

(** One turn of the loop, seen from the cache: what was stored stays
    stored, the share that is converted is stored afterwards, and the
    cache is left as it is when that share was stored before. *)
Lemma for_name_cache split_dfs (n_cols : nat) (today_str : string)
    (i : nat) (who : string) s :
  let r := for_name split_dfs n_cols today_str i who s in
  let key := hash_frame (index_start split_dfs i)
                        (nth i split_dfs DataFrame_new) in
  (forall k, cache_lookup k (cache_data s) <> None ->
             cache_lookup k (cache_data (snd r)) <> None) /\
  ((i <? length split_dfs)
   && negb (empty (nth i split_dfs DataFrame_new)) = true ->
   cache_lookup key (cache_data (snd r)) <> None) /\
  (((i <? length split_dfs)
    && negb (empty (nth i split_dfs DataFrame_new)) = true ->
    cache_lookup key (cache_data s) <> None) ->
   cache_data (snd r) = cache_data s).
Proof.
  unfold for_name. cbv zeta.
  destruct (i <? length split_dfs); cbn [andb];
    [|cbn; repeat split; auto; discriminate].
  destruct (empty (nth i split_dfs DataFrame_new)); cbn [negb];
    [cbn; repeat split; auto; discriminate|].
  unfold generate_csv_download, bind, ret, cache_data_call. cbv zeta.
  destruct (cache_lookup
              (hash_frame (index_start split_dfs i)
                          (nth i split_dfs DataFrame_new)) (cache_data s))
    as [v|] eqn:E; cbn [fst snd]; unfold st_download_button;
    cbn [widget_keys page cache_data];
    destruct (in_dec string_dec _ (widget_keys s));
    cbn [fst snd cache_data].
  - split; [auto|]. split; [now rewrite E|auto].
  - split; [auto|]. split; [now rewrite E|auto].
  - split; [|split].
    + intros k Hk. cbn [cache_lookup].
      now destruct (cache_key_eq_dec _ k).
    + intros _. cbn [cache_lookup]. now destruct (cache_key_eq_dec _ _).
    + intros H. now destruct (H eq_refl).
  - split; [|split].
    + intros k Hk. cbn [cache_lookup].
      now destruct (cache_key_eq_dec _ k).
    + intros _. cbn [cache_lookup]. now destruct (cache_key_eq_dec _ _).
    + intros H. now destruct (H eq_refl).
Qed.

(** Whether a turn of the loop raises depends on the widget keys
    alone. *)
Lemma for_name_keys split_dfs (n_cols : nat) (today_str : string)
    (i : nat) (who : string) s s2 :
  widget_keys s2 = widget_keys s ->
  fst (for_name split_dfs n_cols today_str i who s2)
  = fst (for_name split_dfs n_cols today_str i who s) /\
  widget_keys (snd (for_name split_dfs n_cols today_str i who s2))
  = widget_keys (snd (for_name split_dfs n_cols today_str i who s)).
Proof.
  intros Hk. unfold for_name.
  destruct (i <? length split_dfs); [|now cbn].
  destruct (empty (nth i split_dfs DataFrame_new)); cbn [negb]; [now cbn|].
  unfold generate_csv_download, bind, ret, cache_data_call. cbv zeta.
  destruct (cache_lookup _ (cache_data s)), (cache_lookup _ (cache_data s2));
    cbn [fst snd]; unfold st_download_button;
    cbn [widget_keys page cache_data]; rewrite Hk;
    destruct (in_dec string_dec _ (widget_keys s)); cbn [fst snd widget_keys];
    now rewrite ?Hk.
Qed.

Lemma for_names_cache_grows split_dfs (n_cols : nat) (today_str : string)
    (names : list string) :
  forall i s d,
    cache_lookup d (cache_data s) <> None ->
    cache_lookup d
      (cache_data (snd (for_names split_dfs n_cols today_str i names s)))
    <> None.
Proof.
  induction names as [|who rest IH]; intros i s d Hd; [exact Hd|].
  cbn [for_names]. unfold bind.
  pose proof (for_name_cache split_dfs n_cols today_str i who s) as Hstep.
  cbv zeta in Hstep. destruct Hstep as (Hgrow & _).
  destruct (for_name split_dfs n_cols today_str i who s) as [[[]|e] s1];
    cbn [snd] in *.
  - apply IH. now apply Hgrow.
  - now apply Hgrow.
Qed.

(** The loop run again from a cache that holds what the first run left
    converts nothing: it leaves the cache as it is and ends the way the
    first run did. *)
Lemma for_names_rerun split_dfs (n_cols : nat) (today_str : string)
    (names : list string) :
  forall i s s2,
    widget_keys s2 = widget_keys s ->
    (forall d,
       cache_lookup d
         (cache_data (snd (for_names split_dfs n_cols today_str i names s)))
       <> None ->
       cache_lookup d (cache_data s2) <> None) ->
    cache_data (snd (for_names split_dfs n_cols today_str i names s2))
    = cache_data s2 /\
    fst (for_names split_dfs n_cols today_str i names s2)
    = fst (for_names split_dfs n_cols today_str i names s).
Proof.
  induction names as [|who rest IH]; intros i s s2 Hk Hin; [now split|].
  cbn [for_names] in *. unfold bind in *.
  pose proof (for_name_cache split_dfs n_cols today_str i who s) as H1.
  pose proof (for_name_cache split_dfs n_cols today_str i who s2) as H2.
  pose proof (@for_name_keys split_dfs n_cols today_str i who s s2 Hk) as H3.
  cbv zeta in H1, H2. destruct H1 as (_ & Hnow & _).
  destruct H2 as (_ & _ & Hsame). destruct H3 as [Hfst Hkeys].
  destruct (for_name split_dfs n_cols today_str i who s) as [[[]|e] s1];
    destruct (for_name split_dfs n_cols today_str i who s2) as [[[]|e2] s3];
    cbn [fst snd] in *; try discriminate.
  - assert (Hc : cache_data s3 = cache_data s2).
    { apply Hsame. intros Hb. apply Hin.
      apply for_names_cache_grows. now apply Hnow. }
    destruct (IH (S i) s1 s3 Hkeys) as [IH1 IH2].
    + intros d Hd. rewrite Hc. now apply Hin.
    + split; [now rewrite IH1|exact IH2].
  - split; [|exact Hfst]. apply Hsame. intros Hb. apply Hin. now apply Hnow.
Qed.

(** X19.  A rerun on the same input, from the cache that a run left and
    with a generator that shuffles the merged frame into the same frame,
    converts nothing again: it leaves the cache as it found it and ends
    the way the first run ended. *)
Theorem a_rerun_converts_nothing_again (names_input : string)
    (files : list UploadedFile) (clicked : bool) (rng rng' : nat -> list nat)
    (today : date) (c : list (cache_key * bytes)) :
  sample_all (rng' (len (merged files))) (merged files)
  = sample_all (rng (len (merged files))) (merged files) ->
  cache_data
    (snd (app names_input files clicked rng' today
              (new_run
                 (cache_data
                    (snd (app names_input files clicked rng today
                              (new_run c)))))))
  = cache_data (snd (app names_input files clicked rng today (new_run c))) /\
  fst (app names_input files clicked rng' today
           (new_run
              (cache_data
                 (snd (app names_input files clicked rng today
                           (new_run c))))))
  = fst (app names_input files clicked rng today (new_run c)).
Proof.
  intros Hsame.
  destruct ((2 <=? length (entered names_input)) && valid_count files)
    eqn:Hr.
  - destruct (parsed_nonempty files) as [|d t] eqn:Hp.
    + destruct (app_plain names_input files clicked rng today (new_run c)
                  (or_intror Hp)) as (pre & _ & ->).
      cbn [snd add_page cache_data new_run].
      destruct (app_plain names_input files clicked rng' today (new_run c)
                  (or_intror Hp)) as (pre' & _ & ->).
      now split.
    + assert (Hne : parsed_nonempty files <> []) by now rewrite Hp.
      destruct (ready_entered _ _ Hr) as (_ & Hne' & _).
      rewrite (app_splits names_input files clicked rng today (new_run c)
                 Hr Hne).
      rewrite (app_splits names_input files clicked rng' today _ Hr Hne).
      rewrite Hsame.
      set (pre := names_page names_input ++ uploads_page files
                  ++ prelude (entered names_input) files).
      set (df := sample_all (rng (len (merged files))) (merged files)).
      destruct (@split_and_offer_loop _ df (entered names_input) today
                  (add_page (new_run c) pre) Hne')
        as (split_dfs & E & _ & Hrun).
      rewrite Hrun.
      destruct (@split_and_offer_loop _ df (entered names_input) today
                  (add_page (new_run
                     (cache_data
                        (snd (for_names split_dfs
                                (min (length (entered names_input)) 4)
                                (strftime_Ymd today) 0
                                (entered names_input)
                                (add_page (add_page (new_run c) pre)
                                          [subheader_download])))))
                     pre) Hne')
        as (split_dfs' & E' & _ & Hrun').
      rewrite Hrun'. rewrite E in E'. injection E' as <-.
      destruct (for_names_rerun split_dfs
                  (min (length (entered names_input)) 4) (strftime_Ymd today)
                  (entered names_input) 0
                  (add_page (add_page (new_run c) pre) [subheader_download])
                  (add_page
                     (add_page
                        (new_run
                           (cache_data
                              (snd (for_names split_dfs
                                      (min (length (entered names_input)) 4)
                                      (strftime_Ymd today) 0
                                      (entered names_input)
                                      (add_page (add_page (new_run c) pre)
                                                [subheader_download])))))
                        pre)
                     [subheader_download])
                  eq_refl (fun d0 Hd => Hd))
        as [H1 H2].
      split; [exact H1|exact H2].
  - destruct (app_plain names_input files clicked rng today (new_run c)
                (or_introl Hr)) as (pre & _ & ->).
    cbn [snd add_page cache_data new_run].
    destruct (app_plain names_input files clicked rng' today (new_run c)
                (or_introl Hr)) as (pre' & _ & ->).
    now split.
Qed.

End WithLibrary.
End RerunFacts.

(** ** The share of each name *)

Module FairFacts.
Import Streamlit Streamlit.Notations App Terms Views.
Import Numpy NumpyFacts ShareFacts PandasFacts ScriptFacts PageFacts.
Import LoopFacts SplitFacts PageClaims InputFacts BranchFacts MergeFacts.
Import OfferFacts RunFacts.
Section WithLibrary.

Context {L : Library}.

Local Open Scope list_scope.
Local Open Scope nat_scope.

Implicit Types (split_dfs : list (DataFrame value)) (s : session).

Lemma array_split_fair (df : DataFrame value) (N : nat) split_dfs :
  0 < N -> array_split df N = Some split_dfs ->
  fair_sizes (len df) N split_dfs.
Proof.
  intros HN E. rewrite frame_split_div_points in E by assumption.
  injection E as <-. now apply shares_fair_sizes.
Qed.

(** X20.  On a run with two or more distinct names, one to ten files of
    which one is usable, and a generator that draws as many positions as
    there are rows, the name at position [j] of the [N] names is offered
    [T / N] of the [T] merged leads, and one more when [j < T mod N]: a
    download button with that count in the column [j mod min N 4] when
    the count is positive, the notice that no leads were assigned when it
    is 0. *)
Theorem earlier_names_get_the_extra_lead (names_input : string)
    (files : list UploadedFile) (clicked : bool) (rng : nat -> list nat)
    (today : date) (c : list (cache_key * bytes)) (j : nat)
    (who : string) :
  2 <= length (entered names_input) ->
  1 <= length files <= 10 ->
  NoDup (entered names_input) ->
  ~ Forall unusable files ->
  length (rng (len (merged files))) = len (merged files) ->
  nth_error (entered names_input) j = Some who ->
  (0 < len (merged files) / length (entered names_input)
       + (if j <? len (merged files) mod length (entered names_input)
          then 1 else 0) ->
   exists data,
     In (download_button
           (j mod min (length (entered names_input)) 4) who
           (len (merged files) / length (entered names_input)
            + (if j <? len (merged files) mod length (entered names_input)
               then 1 else 0))
           data (make_filename (strftime_Ymd today) who)
           ("download_" ++ who)%string)
        (page (snd (app names_input files clicked rng today (new_run c))))) /\
  (len (merged files) / length (entered names_input)
   + (if j <? len (merged files) mod length (entered names_input)
      then 1 else 0) = 0 ->
   In (write_no_leads (j mod min (length (entered names_input)) 4) who)
      (page (snd (app names_input files clicked rng today (new_run c))))).
Proof.
  intros Hn Hf Hnd Hus Hrng Hwho. pose proof (ready_true _ _ Hn Hf) as Hr.
  assert (Hne : parsed_nonempty files <> []).
  { intros H. now apply Hus, parsed_nil_unusable. }
  assert (Hj : j < length (entered names_input))
    by (apply nth_error_Some; congruence).
  assert (HN : 0 < length (entered names_input)) by lia.
  destruct (app_serves_all names_input files clicked rng today c Hr Hne Hnd)
    as (split_dfs & E & Hlen & _ & Hpg).
  destruct (@empty_share_has_no_row _ files _ _ split_dfs Hne HN E j Hj)
    as (_ & Hzero & Hpos).
  destruct (@array_split_fair _ _ split_dfs HN E) as [_ Hsz].
  specialize (Hsz j Hj).
  assert (HT : len (sample_all (rng (len (merged files))) (merged files))
               = len (merged files)).
  { unfold len at 1. cbn [sample_all rows]. now rewrite length_map. }
  rewrite HT in Hsz.
  assert (Hsz' : len (nth j split_dfs DataFrame_new)
                 = len (merged files) / length (entered names_input)
                   + (if j <? len (merged files)
                                mod length (entered names_input)
                      then 1 else 0)).
  { rewrite Hsz. destruct (_ <? _); lia. }
  assert (Hin : In (offer split_dfs (min (length (entered names_input)) 4)
                          (strftime_Ymd today) (cached c) j who)
                   (page (snd (app names_input files clicked rng today
                                   (new_run c))))).
  { rewrite Hpg. apply in_or_app. right. right. apply In_offers.
    exists j, who. rewrite Nat.sub_0_r. repeat split; [lia|exact Hwho]. }
  unfold offer in Hin. rewrite <- Hlen in Hj. apply Nat.ltb_lt in Hj.
  rewrite Hj in Hin. rewrite <- Hsz'.
  destruct (empty (nth j split_dfs DataFrame_new)) eqn:He;
    cbn [negb] in Hin.
  - split; [|now intros _]. intros H. rewrite (Hzero eq_refl) in H. lia.
  - split; [intros _; eexists; exact Hin|].
    intros H. specialize (Hpos eq_refl). lia.
Qed.

End WithLibrary.
End FairFacts.

(** ** Runs of the script on small inputs *)

Module MoreRuns.
Import Streamlit App Terms Views PandasCsv.
Import Numpy ShareFacts.

Local Open Scope string_scope.
Local Open Scope list_scope.
Local Open Scope nat_scope.

Lemma one_usable_file_is_returned_witness :
  @parsed_nonempty library [header_only; two_leads; broken]
  = [{| columns := ["lead"];
        rows := [[Some (Str "x")]; [Some (Str "x")]] |}] /\
  @process_uploaded_files library [header_only; two_leads; broken]
                          (new_run [])
  = (Ok {| columns := ["lead"];
           rows := [[Some (Str "x")]; [Some (Str "x")]] |},
     add_page (new_run [])
              (@ingest_page library [header_only; two_leads; broken])).
Proof.
  assert (H : @parsed_nonempty library [header_only; two_leads; broken]
              = [{| columns := ["lead"];
                    rows := [[Some (Str "x")]; [Some (Str "x")]] |}])
    by (lazy; reflexivity).
  split; [exact H|].
  exact (@MergeFacts.one_usable_file_is_returned library
           [header_only; two_leads; broken] _ (new_run []) H).
Defined.

Lemma repeated_name_stops_the_run_witness :
  (five <> [] /\ widget_keys (@new_run library []) = []) /\
  fst (@split_and_offer library (leads 3) five a_day (new_run [])) = Ok tt.
Proof.
  assert (H : five <> []) by discriminate.
  split; [split; [exact H|reflexivity]|].
  destruct (@OfferFacts.repeated_name_stops_the_run library (leads 3) five
              a_day (new_run []) H eq_refl)
    as (split_dfs & _ & _ & _ & Hnd & _).
  exact (Hnd Runs.five_distinct).
Defined.

Lemma ann_and_bob : entered ("Ann" ++ nl ++ "Bob") = ["Ann"; "Bob"].
Proof. reflexivity. Defined.

Lemma ann_and_bob_distinct : NoDup (entered ("Ann" ++ nl ++ "Bob")).
Proof.
  rewrite ann_and_bob. repeat constructor; cbn; intuition discriminate.
Defined.

Lemma codes_usable : ~ Forall (@unusable library) [codes].
Proof.
  intros H. apply Forall_inv in H. lazy in H. discriminate.
Defined.

Lemma offered_leads_add_up_witness :
  (2 <= length (entered ("Ann" ++ nl ++ "Bob")) /\
   1 <= length [codes] <= 10 /\
   NoDup (entered ("Ann" ++ nl ++ "Bob")) /\
   length (in_order (len (@merged library [codes])))
   = len (@merged library [codes])) /\
  list_sum (map (@leads_on library)
                (page (snd (@app library ("Ann" ++ nl ++ "Bob") [codes]
                                 false in_order a_day (new_run [])))))
  = len (@merged library [codes]).
Proof.
  assert (H1 : 2 <= length (entered ("Ann" ++ nl ++ "Bob")))
    by (rewrite ann_and_bob; cbn; lia).
  assert (H2 : 1 <= length [codes] <= 10) by (cbn; lia).
  assert (H4 : length (in_order (len (@merged library [codes])))
               = len (@merged library [codes])) by apply length_seq.
  split; [exact (conj H1 (conj H2 (conj ann_and_bob_distinct H4)))|].
  exact (proj2 (@RunFacts.offered_leads_add_up library
                  ("Ann" ++ nl ++ "Bob") [codes] false in_order a_day []
                  H1 H2 ann_and_bob_distinct H4)).
Defined.

Lemma every_name_is_served_once_in_order_witness :
  (2 <= length (entered ("Ann" ++ nl ++ "Bob")) /\
   1 <= length [codes] <= 10 /\
   NoDup (entered ("Ann" ++ nl ++ "Bob")) /\
   ~ Forall (@unusable library) [codes]) /\
  flat_map (@recipient library)
           (page (snd (@app library ("Ann" ++ nl ++ "Bob") [codes] false
                            in_order a_day (new_run []))))
  = entered ("Ann" ++ nl ++ "Bob").
Proof.
  assert (H1 : 2 <= length (entered ("Ann" ++ nl ++ "Bob")))
    by (rewrite ann_and_bob; cbn; lia).
  assert (H2 : 1 <= length [codes] <= 10) by (cbn; lia).
  split; [exact (conj H1 (conj H2 (conj ann_and_bob_distinct codes_usable)))|].
  exact (proj1 (proj2 (@RunFacts.every_name_is_served_once_in_order library
                  ("Ann" ++ nl ++ "Bob") [codes] false in_order a_day []
                  H1 H2 ann_and_bob_distinct codes_usable))).
Defined.

Lemma every_lead_lands_in_one_share_witness :
  (0 < 2 /\ Permutation (backwards 3) (seq 0 (len (leads 3)))) /\
  exists split_dfs,
    array_split (sample_all (backwards 3) (leads 3)) 2 = Some split_dfs /\
    Permutation (flat_map (@rows scalar) split_dfs) (rows (leads 3)).
Proof.
  assert (H1 : 0 < 2) by lia.
  assert (H2 : Permutation (backwards 3) (seq 0 (len (leads 3))))
    by apply Permutation_sym, Permutation_rev.
  split; [exact (conj H1 H2)|].
  destruct (@ShuffleFacts.every_lead_lands_in_one_share scalar (leads 3) 2
              (backwards 3) H1 H2)
    as (split_dfs & E & _ & Hp & _).
  exists split_dfs. exact (conj E Hp).
Defined.

Lemma same_shuffle :
  sample_all (backwards (len (@merged library [two_leads])))
             (@merged library [two_leads])
  = sample_all (in_order (len (@merged library [two_leads])))
               (@merged library [two_leads]).
Proof. lazy. reflexivity. Defined.

Lemma a_rerun_converts_nothing_again_witness :
  sample_all (backwards (len (@merged library [two_leads])))
             (@merged library [two_leads])
  = sample_all (in_order (len (@merged library [two_leads])))
               (@merged library [two_leads]) /\
  cache_data
    (snd (@app library ("Ann" ++ nl ++ "Bob") [two_leads] false backwards
               a_day
               (new_run
                  (cache_data
                     (snd (@app library ("Ann" ++ nl ++ "Bob") [two_leads]
                                false in_order a_day (new_run [])))))))
  = cache_data
      (snd (@app library ("Ann" ++ nl ++ "Bob") [two_leads] false in_order
                 a_day (new_run []))).
Proof.
  split; [exact same_shuffle|].
  exact (proj1 (@RerunFacts.a_rerun_converts_nothing_again library
                  ("Ann" ++ nl ++ "Bob") [two_leads] false in_order backwards
                  a_day [] same_shuffle)).
Defined.

Lemma earlier_names_get_the_extra_lead_witness :
  (2 <= length (entered ("Ann" ++ nl ++ "Bob")) /\
   1 <= length [codes] <= 10 /\
   NoDup (entered ("Ann" ++ nl ++ "Bob")) /\
   ~ Forall (@unusable library) [codes] /\
   length (in_order (len (@merged library [codes])))
   = len (@merged library [codes]) /\
   nth_error (entered ("Ann" ++ nl ++ "Bob")) 0 = Some "Ann") /\
  exists data,
    In (download_button 0 "Ann" 1 data "leads_2026-11-03_Ann.csv"
                        "download_Ann")
       (page (snd (@app library ("Ann" ++ nl ++ "Bob") [codes] false in_order
                        a_day (new_run [])))).
Proof.
  assert (H1 : 2 <= length (entered ("Ann" ++ nl ++ "Bob")))
    by (rewrite ann_and_bob; cbn; lia).
  assert (H2 : 1 <= length [codes] <= 10) by (cbn; lia).
  assert (H4 : length (in_order (len (@merged library [codes])))
               = len (@merged library [codes])) by apply length_seq.
  assert (H5 : nth_error (entered ("Ann" ++ nl ++ "Bob")) 0 = Some "Ann")
    by reflexivity.
  split;
    [exact (conj H1 (conj H2 (conj ann_and_bob_distinct
              (conj codes_usable (conj H4 H5)))))|].
  assert (H6 : 0 < 1) by lia.
  exact (proj1 (@FairFacts.earlier_names_get_the_extra_lead library
                  ("Ann" ++ nl ++ "Bob") [codes] false in_order a_day [] 0
                  "Ann" H1 H2 ann_and_bob_distinct codes_usable H4 H5) H6).
Defined.

End MoreRuns.
